(** * Release-management core of ATR: a shallow embedding and its properties

    The development follows four modules of the code base:
    - [atr/tasks/checks/targz.py]   (archive root directory and structure check),
    - [atr/db/interaction.py]       (path classification, check results, release
                                     deletion, task counts, releases by phase),
    - [atr/routes/draft.py]         (draft and file deletion, hash and SBOM
                                     generation, SVN import),
    - [atr/blueprints/admin/admin.py] (database / filesystem consistency report,
                                     configuration page, key check, browse-as
                                     session, release deletion, committee sync).

    Python values are embedded as follows: [str] is [string], [bytes] is
    [list byte], [pathlib.Path] is the list of its parts, [set] is [gset],
    [dict] is [gmap], a raised exception is the [Raise] outcome of a small
    state-and-exception monad over the world the code runs in. *)

From Stdlib Require Import Strings.String Strings.Ascii Strings.Byte.
From Stdlib Require Import Lists.List Arith.PeanoNat Bool.Bool.
From stdpp Require Import base option list gmap sets strings pretty sorting.
From Equations Require Import Equations.

Open Scope string_scope.
Open Scope list_scope.

(* ===================================================================== *)
(** ** Python prelude: strings, truthiness, exceptions                    *)
(* ===================================================================== *)

Module Py.

(** [s.startswith(p)] *)
Definition startswith (s p : string) : bool := String.prefix p s.

(** [s.endswith(suf)] *)
Definition endswith (s suf : string) : bool :=
  (String.length suf <=? String.length s)%nat
  && String.eqb (String.substring (String.length s - String.length suf)
                                  (String.length suf) s) suf.

(** [s.removesuffix(suf)] *)
Definition removesuffix (s suf : string) : string :=
  if endswith s suf && negb (String.eqb suf EmptyString)
  then String.substring 0 (String.length s - String.length suf) s
  else s.

(** [s.split(sep)] for a one-character separator: never the empty list. *)
Fixpoint split (sep : ascii) (s : string) : list string :=
  match s with
  | EmptyString => [EmptyString]
  | String c rest =>
      if Ascii.eqb c sep then EmptyString :: split sep rest
      else match split sep rest with
           | hd :: tl => String c hd :: tl
           | [] => [String c EmptyString]
           end
  end.

(** [s.split(sep, 1)]: cut at the first separator only. *)
Fixpoint split1 (sep : ascii) (s : string) : list string :=
  match s with
  | EmptyString => [EmptyString]
  | String c rest =>
      if Ascii.eqb c sep then [EmptyString; rest]
      else match split1 sep rest with
           | hd :: tl => String c hd :: tl
           | [] => [String c EmptyString]
           end
  end.

(** [l[-1]] on a list known to be non-empty; the empty string stands for the
    [IndexError] that [split] can never cause. *)
Definition last_item (l : list string) : string := List.last l EmptyString.

(** Truthiness of a [str] and of a [str | None]. *)
Definition truthy (s : string) : bool := negb (String.eqb s EmptyString).

Definition truthy_opt (o : option string) : bool :=
  match o with
  | None => false
  | Some s => truthy s
  end.

(** The exceptions the four modules raise or catch.  Of the text of an
    error of the operating system only the description and the path it
    names are kept. *)
Inductive Exception : Type :=
| FlashError (msg : string)
| ASFQuartException (msg : string) (errorcode : nat)
| RootDirectoryError (msg : string)
| FileNotFoundError (msg : string)
| OSError (msg : string)
| TarError (msg : string).

(** [str(e)] *)
Definition str_exn (e : Exception) : string :=
  match e with
  | FlashError m | ASFQuartException m _ | RootDirectoryError m
  | FileNotFoundError m | OSError m | TarError m => m
  end.

(** [isinstance(e, RootDirectoryError)] *)
Definition is_RootDirectoryError (e : Exception) : bool :=
  match e with
  | RootDirectoryError _ => true
  | _ => false
  end.

(** The outcome of a call: a value or a raised exception. *)
Inductive result (A : Type) : Type :=
| Ok (a : A)
| Raise (e : Exception).
Arguments Ok {A} a.
Arguments Raise {A} e.

Definition is_Raise {A} (r : result A) : bool :=
  match r with
  | Ok _ => false
  | Raise _ => true
  end.

End Py.

(* ===================================================================== *)
(** ** pathlib.Path, as the list of its parts                              *)
(* ===================================================================== *)

Module Pathlib.

(** A relative path without [..]: [a/b/c] is [["a"; "b"; "c"]], [.] is []. *)
Abbreviation Path := (list string).

(** [pathlib.Path(s)] for a relative [s]: empty parts and [.] are dropped. *)
Definition Path_of_string (s : string) : Path :=
  List.filter (fun c => negb (String.eqb c EmptyString) && negb (String.eqb c "."))
              (Py.split "/" s).

(** [p.name] *)
Definition name (p : Path) : string := List.last p EmptyString.

(** [p.parent] *)
Definition parent (p : Path) : Path := List.removelast p.

(** [str(p)] *)
Definition str (p : Path) : string :=
  match p with
  | [] => "."
  | _ => String.concat "/" p
  end.

End Pathlib.

(* ===================================================================== *)
(** ** A state-and-exception monad                                         *)
(* ===================================================================== *)

Module Monad.
Import Py.

(** A computation over a world [W]: it either returns or raises, and in
    both cases leaves a world behind (what was done before a [raise]
    stays done). *)
Definition M (W A : Type) : Type := W -> result A * W.

Definition ret {W A} (a : A) : M W A := fun w => (Ok a, w).

Definition raise {W A} (e : Exception) : M W A := fun w => (Raise e, w).

Definition bind {W A B} (c : M W A) (k : A -> M W B) : M W B :=
  fun w =>
    match c w with
    | (Ok a, w') => k a w'
    | (Raise e, w') => (Raise e, w')
    end.

Definition gets {W A} (f : W -> A) : M W A := fun w => (Ok (f w), w).

Definition modify {W} (f : W -> W) : M W unit := fun w => (Ok tt, f w).

(** [try: c  except Exception as e: h e] *)
Definition try_except {W A} (c : M W A) (h : Exception -> M W A) : M W A :=
  fun w =>
    match c w with
    | (Ok a, w') => (Ok a, w')
    | (Raise e, w') => h e w'
    end.

(** [for x in xs: acc = f x acc], an exception ending the loop. *)
Fixpoint for_each {W A B} (xs : list A) (acc : B) (f : A -> B -> M W B) : M W B :=
  match xs with
  | [] => ret acc
  | x :: rest => bind (f x acc) (fun acc' => for_each rest acc' f)
  end.

Module Notations.
Notation "'do' x <- c ; k" := (bind c (fun x => k))
  (at level 10, x name, c at level 100, k at level 200,
   format "'[v' 'do'  x  <-  c ; '/' k ']'").
Notation "'do_' c ; k" := (bind c (fun _ => k))
  (at level 10, c at level 100, k at level 200,
   format "'[v' 'do_'  c ; '/' k ']'").
End Notations.

End Monad.

(* ===================================================================== *)
(** ** atr/models/sql.py: the rows the four modules read and write         *)
(* ===================================================================== *)

Module Sql.

Inductive TaskStatus : Type := QUEUED | ACTIVE | COMPLETED | FAILED.

Inductive TaskType : Type := SBOM_GENERATE_CYCLONEDX | SVN_IMPORT_FILES | OTHER_TASK.

Inductive ReleasePhase : Type :=
| RELEASE_CANDIDATE_DRAFT | RELEASE_CANDIDATE | RELEASE_PREVIEW | RELEASE.

Inductive CheckResultStatus : Type := SUCCESS | WARNING | FAILURE.

Global Instance TaskStatus_eq_dec : EqDecision TaskStatus.
Proof. solve_decision. Defined.
Global Instance TaskType_eq_dec : EqDecision TaskType.
Proof. solve_decision. Defined.
Global Instance ReleasePhase_eq_dec : EqDecision ReleasePhase.
Proof. solve_decision. Defined.
Global Instance CheckResultStatus_eq_dec : EqDecision CheckResultStatus.
Proof. solve_decision. Defined.

Module Task.
Record t : Type := mk {
  task_type : TaskType;
  task_args : list (string * string);
  asf_uid : string;
  added : nat;
  status : TaskStatus;
  project_name : string;
  version_name : string;
  revision_number : option string
}.
End Task.

Module Revision.
Record t : Type := mk {
  release_name : string;
  seq : nat;
  number : string;
  description : string;
  created_by : string
}.
End Revision.

Module Release.
Record t : Type := mk {
  name : string;
  project_name : string;
  version : string;
  phase : ReleasePhase;
  latest_revision_number : option string
}.
End Release.

Module CheckResult.
Record t : Type := mk {
  release_name : string;
  revision_number : string;
  primary_rel_path : option string;
  member_rel_path : option string;
  status : CheckResultStatus;
  message : string
}.
End CheckResult.

Global Instance Task_eq_dec : EqDecision Task.t.
Proof. solve_decision. Defined.
Global Instance Revision_eq_dec : EqDecision Revision.t.
Proof. solve_decision. Defined.
Global Instance Release_eq_dec : EqDecision Release.t.
Proof. solve_decision. Defined.
Global Instance CheckResult_eq_dec : EqDecision CheckResult.t.
Proof. solve_decision. Defined.

(** [select(Revision.number).where(Revision.release_name == rname)
      .order_by(Revision.seq.desc()).limit(1).scalar_subquery()]:
    the number of the row of greatest [seq] among the revisions of the
    release, [None] (SQL NULL) when it has none. *)
Fixpoint latest_row (rows : list Revision.t) (best : option Revision.t)
  : option Revision.t :=
  match rows with
  | [] => best
  | r :: rest =>
      match best with
      | None => latest_row rest (Some r)
      | Some b =>
          if (Revision.seq b <? Revision.seq r)%nat
          then latest_row rest (Some r) else latest_row rest best
      end
  end.

Definition latest_revision (revisions : list Revision.t) (rname : string)
  : option Revision.t :=
  latest_row
    (List.filter (fun r => String.eqb (Revision.release_name r) rname) revisions)
    None.

Definition latest_revision_subquery (revisions : list Revision.t) (rname : string)
  : option string :=
  Revision.number <$> latest_revision revisions rname.

(** SQL [a = b] on nullable text columns: NULL (here [None]) when either
    side is NULL; a WHERE clause keeps a row only when the result is true. *)
Definition sql_eq (a b : option string) : option bool :=
  match a, b with
  | Some x, Some y => Some (String.eqb x y)
  | _, _ => None
  end.

Definition sql_true (c : option bool) : bool := default false c.

End Sql.

(* ===================================================================== *)
(** ** atr/tasks/checks/targz.py                                          *)
(* ===================================================================== *)

Module Targz.
Import Py Sql.

(** What iterating over [tarfile.open(path, mode="r|gz")] yields: the
    member names in archive order, the stream failing at the point where
    the archive cannot be read any further (at once when it cannot be
    opened). *)
Inductive TarEvent : Type :=
| Member (name : string)
| Unreadable (msg : string).

(** The body of the [for member in tf] loop, [root] being the loop-carried
    variable. *)
Fixpoint root_directory_loop (root : option string) (tf : list TarEvent)
  : result (option string) :=
  match tf with
  | [] => Ok root
  | Unreadable msg :: _ => Raise (TarError msg)
  | Member name :: rest =>
      if truthy name && startswith (last_item (split "/" name)) "._"
      then (* Metadata convention *) root_directory_loop root rest
      else
        match split1 "/" name with
        | part0 :: _ =>
            if negb (truthy_opt root) then root_directory_loop (Some part0) rest
            else if negb (bool_decide (Some part0 = root))
                 then Raise (RootDirectoryError
                               ("Multiple root directories found: "
                                  +:+ default EmptyString root +:+ ", " +:+ part0))
                 else root_directory_loop root rest
        | [] => root_directory_loop root rest
        end
  end.

Definition root_directory (tf : list TarEvent) : result string :=
  match root_directory_loop None tf with
  | Raise e => Raise e
  | Ok root =>
      if negb (truthy_opt root)
      then Raise (RootDirectoryError "No root directory found in archive")
      else Ok (default EmptyString root)
  end.

(** What the recorder of a check stores: the status, the message and
    the data of a result. *)
Record Recorded : Type := mkRecorded {
  rec_status : CheckResultStatus;
  rec_message : string;
  rec_data : list (string * string)
}.

(** [filename.removesuffix(".tar.gz") if filename.endswith(".tar.gz")
     else filename.removesuffix(".tgz")] *)
Definition expected_root (filename : string) : string :=
  if endswith filename ".tar.gz" then removesuffix filename ".tar.gz"
  else removesuffix filename ".tgz".

(** [structure]: [abs_name] is [artifact_abs_path.name] when the recorder
    has an absolute path, [is_binary] is [primary_path_is_binary()], [tf] is
    the archive at that path.  The function returns [None] in every case;
    its effect is the list of results it records. *)
Definition structure (abs_name : option string) (is_binary : bool)
    (tf : list TarEvent) : list Recorded :=
  match abs_name with
  | None => []
  | Some filename =>
      if is_binary then []
      else
        let expected := expected_root filename in
        match root_directory tf with
        | Ok root =>
            if String.eqb root expected
            then [mkRecorded SUCCESS
                    "Archive contains exactly one root directory matching the expected name"
                    [("root", root); ("expected", expected)]]
            else [mkRecorded WARNING
                    ("Root directory '" +:+ root
                       +:+ "' does not match expected name '" +:+ expected +:+ "'")
                    [("root", root); ("expected", expected)]]
        | Raise e =>
            if is_RootDirectoryError e
            then [mkRecorded WARNING
                    "Could not get the root directory of the archive"
                    [("error", str_exn e)]]
            else [mkRecorded FAILURE
                    "Unable to verify archive structure"
                    [("error", str_exn e)]]
        end
  end.

End Targz.

(* ===================================================================== *)
(** ** The world of the draft routes: rows, hard-linked trees, effects     *)
(* ===================================================================== *)

Module World.
Import Py Monad Pathlib Sql.

(** What the routes do that a caller or a later request can observe, in
    the order in which it happens. *)
Inductive Event : Type :=
| EvScopeEnter (release : string)
| EvScopeCommit (release : string) (number : string)
| EvScopeDiscard (release : string)
| EvTaskAdd (t : Task.t)
| EvRefresh (s : TaskStatus)
| EvSleep (ms : nat).

(** - [releases]: the names of the Release rows;
    - [revisions], [tasks]: the Revision and Task rows;
    - [inodes]: the content of every file, by inode;
    - [trees]: for each release, the directory holding its latest revision,
      a map from relative path to inode (hard links share the inode);
    - [interim]: the interim directory of the scope being run, if any;
    - [clock]: elapsed milliseconds;
    - [worker]: the status the worker pool has given the polled task at a
      given time (the status column is owned by the workers);
    - [flashes]: the messages flashed so far, as (message, category);
    - [trace]: the events so far. *)
Record t : Type := mk {
  releases : list string;
  revisions : list Revision.t;
  tasks : list Task.t;
  inodes : gmap nat (list byte);
  trees : gmap string (gmap Path nat);
  interim : option (gmap Path nat);
  clock : nat;
  worker : nat -> TaskStatus;
  flashes : list (string * string);
  trace : list Event
}.

Definition set_revisions (v : list Revision.t) (w : t) : t :=
  mk (releases w) v (tasks w) (inodes w) (trees w) (interim w) (clock w)
     (worker w) (flashes w) (trace w).
Definition set_tasks (v : list Task.t) (w : t) : t :=
  mk (releases w) (revisions w) v (inodes w) (trees w) (interim w) (clock w)
     (worker w) (flashes w) (trace w).
Definition set_inodes (v : gmap nat (list byte)) (w : t) : t :=
  mk (releases w) (revisions w) (tasks w) v (trees w) (interim w) (clock w)
     (worker w) (flashes w) (trace w).
Definition set_trees (v : gmap string (gmap Path nat)) (w : t) : t :=
  mk (releases w) (revisions w) (tasks w) (inodes w) v (interim w) (clock w)
     (worker w) (flashes w) (trace w).
Definition set_interim (v : option (gmap Path nat)) (w : t) : t :=
  mk (releases w) (revisions w) (tasks w) (inodes w) (trees w) v (clock w)
     (worker w) (flashes w) (trace w).
Definition set_clock (v : nat) (w : t) : t :=
  mk (releases w) (revisions w) (tasks w) (inodes w) (trees w) (interim w) v
     (worker w) (flashes w) (trace w).
Definition set_flashes (v : list (string * string)) (w : t) : t :=
  mk (releases w) (revisions w) (tasks w) (inodes w) (trees w) (interim w)
     (clock w) (worker w) v (trace w).
Definition set_trace (v : list Event) (w : t) : t :=
  mk (releases w) (revisions w) (tasks w) (inodes w) (trees w) (interim w)
     (clock w) (worker w) (flashes w) v.

Definition log (e : Event) : M t unit :=
  modify (fun w => set_trace (trace w ++ [e]) w).

(** [quart.flash(message, category)] *)
Definition flash (message category : string) : M t unit :=
  modify (fun w => set_flashes (flashes w ++ [(message, category)]) w).

(** *** The interim directory seen through [aiofiles] *)

Definition interim_tree (w : t) : gmap Path nat := default ∅ (interim w).

Definition is_file (tr : gmap Path nat) (p : Path) : bool :=
  bool_decide (is_Some (tr !! p)).

(** A directory is the root or a proper prefix of the path of a file. *)
Definition is_dir (tr : gmap Path nat) (p : Path) : bool :=
  bool_decide (p = [])
  || bool_decide (set_Exists (fun q => p `prefix_of` q ∧ p ≠ q) (dom tr)).

(** [aiofiles.os.path.exists(interim_path / p)] *)
Definition path_exists (p : Path) : M t bool :=
  gets (fun w => is_file (interim_tree w) p || is_dir (interim_tree w) p).

(** [aiofiles.os.remove(interim_path / p)]: unlinks the name, the inode
    and the other names it has are left alone. *)
Definition remove (p : Path) : M t unit :=
  fun w =>
    let tr := interim_tree w in
    if is_file tr p then (Ok tt, set_interim (Some (delete p tr)) w)
    else if is_dir tr p
         then (Raise (OSError ("Is a directory: " +:+ str p)), w)
         else (Raise (FileNotFoundError ("No such file or directory: " +:+ str p)), w).

(** [aiofiles.open(interim_path / p, "rb")]: the bytes that the reads on
    the handle will deliver. *)
Definition open_rb (p : Path) : M t (list byte) :=
  fun w =>
    let tr := interim_tree w in
    match tr !! p with
    | Some ino => (Ok (default [] (inodes w !! ino)), w)
    | None =>
        if is_dir tr p
        then (Raise (OSError ("Is a directory: " +:+ str p)), w)
        else (Raise (FileNotFoundError ("No such file or directory: " +:+ str p)), w)
    end.

(** The inode that the next new file gets: one that is not in use. *)
Definition new_inode (w : t) : nat := fresh (dom (inodes w)).

(** [async with aiofiles.open(interim_path / p, "w") as f: await f.write(s)]:
    an existing file is truncated and rewritten in place, through its
    inode, so every hard link to it sees the new content; a new file gets
    a new inode. *)
Definition write_text (p : Path) (s : string) : M t unit :=
  fun w =>
    let tr := interim_tree w in
    match tr !! p with
    | Some ino =>
        (Ok tt, set_inodes (<[ino := list_byte_of_string s]> (inodes w)) w)
    | None =>
        if is_dir tr p
        then (Raise (OSError ("Is a directory: " +:+ str p)), w)
        else if negb (is_dir tr (parent p))
        then (Raise (FileNotFoundError ("No such file or directory: " +:+ str p)), w)
        else
          let ino := new_inode w in
          (Ok tt, set_interim (Some (<[p := ino]> tr))
                    (set_inodes (<[ino := list_byte_of_string s]> (inodes w)) w))
    end.

(** Modelled from the spec: [util.paths_recursive] is not under src/.  As
    its callers in [interaction.py] use it ([finished_dir / file_path]),
    it yields every file below [dir], as a path relative to [dir]. *)
Definition paths_recursive (dir : Path) : M t (list Path) :=
  gets (fun w =>
          drop (length dir)
            <$> filter (fun q => dir `prefix_of` q ∧ dir ≠ q)
                       (elements (dom (interim_tree w)))).

(** What is on disk for a release: the content behind every path of its
    directory. *)
Definition tree_contents (w : t) (release : string)
  : option (gmap Path (option (list byte))) :=
  (fun tr : gmap Path nat => (fun ino => inodes w !! ino) <$> tr)
    <$> trees w !! release.

End World.

(* ===================================================================== *)
(** ** atr/revision.py: the revision-mutation scope                        *)
(* ===================================================================== *)

Module AtrRevision.
Import Py Monad Monad.Notations Pathlib Sql World.

(** The handle a scope yields. *)
Record Creating : Type := mkCreating {
  old : option Sql.Revision.t;
  interim_path : string;
  new : option Sql.Revision.t
}.

Section Scope.
(** [sql.release_name], the format of revision numbers and the place of
    interim directories are fixed outside the four modules. *)
Variable release_name : string -> string -> string.
Variable revision_number : nat -> string.
Variable tmp_dir : string.

(** Modelled from the spec: [revision.create_and_manage] is not under
    src/.  On entry it determines the latest revision [n] of the release
    (none for a first revision), allocates an interim directory and
    populates it by hard-linking every file of revision [n]; it yields a
    handle; on a successful exit it records the Revision row [n+1], which
    becomes the latest, and renames the interim directory into the
    release's place; on an exceptional exit the interim directory and the
    uncommitted row are discarded and the exception propagates.  Resolving
    an unknown release fails with NotFound. *)
Definition create_and_manage {A} (project_name version_name asf_uid description : string)
    (body : Creating -> M World.t A) : M World.t (A * Creating) :=
  fun w =>
    let rname := release_name project_name version_name in
    if negb (bool_decide (rname ∈ releases w))
    then (Raise (ASFQuartException ("Release '" +:+ rname +:+ "' not found.") 404), w)
    else
      let old_revision := latest_revision (revisions w) rname in
      let n := default 0 (Sql.Revision.seq <$> old_revision) in
      let linked : gmap Path nat :=
        match old_revision with
        | Some _ => default ∅ (trees w !! rname)
        | None => ∅
        end in
      let creating := mkCreating old_revision tmp_dir None in
      let w1 := set_trace (trace w ++ [EvScopeEnter rname])
                          (set_interim (Some linked) w) in
      match body creating w1 with
      | (Raise e, w2) =>
          (Raise e,
           set_trace (trace w2 ++ [EvScopeDiscard rname]) (set_interim None w2))
      | (Ok a, w2) =>
          let row := Sql.Revision.mk rname (S n) (revision_number (S n))
                                     description asf_uid in
          (Ok (a, mkCreating old_revision tmp_dir (Some row)),
           set_trace (trace w2 ++ [EvScopeCommit rname (Sql.Revision.number row)])
             (set_interim None
                (set_trees (<[rname := interim_tree w2]> (trees w2))
                   (set_revisions (revisions w2 ++ [row]) w2))))
      end.

End Scope.
End AtrRevision.

(* ===================================================================== *)
(** ** atr/routes/draft.py                                                 *)
(* ===================================================================== *)

(** The routes are taken after [session.check_access] has let the caller
    through, and for file paths that are relative and stay inside the
    release directory. *)
Module Draft.
Import Py Monad Monad.Notations Pathlib Sql World AtrRevision.

(** What a route answers: [session.redirect(route, success=..., error=...)]. *)
Inductive Response : Type :=
| Redirect (route : string) (success : option string) (error : option string).

(** A [hashlib] object: the algorithm and the bytes fed to it so far
    ([update(a); update(b)] is [update(a + b)]). *)
Record HashObj : Type := mkHashObj {
  hash_name : string;
  hash_fed : list byte
}.

Definition hash_update (h : HashObj) (chunk : list byte) : HashObj :=
  mkHashObj (hash_name h) (hash_fed h ++ chunk).

(** The size of a read, 8 KiB. *)
Definition chunk_size : nat := 8 * 1024.

#[global] Opaque chunk_size.

(** [while chunk := await f.read(8192): hash_obj.update(chunk)], [f]
    being the bytes the handle has not delivered yet. *)
Equations? hash_stream (hash_obj : HashObj) (f : list byte) : HashObj
  by wf (length f) lt :=
  hash_stream hash_obj [] := hash_obj;
  hash_stream hash_obj (b :: f') :=
    hash_stream (hash_update hash_obj (take chunk_size (b :: f')))
                (drop chunk_size (b :: f')).
Proof.
  rewrite length_drop. cbn [length].
  assert (0 < chunk_size) by (change chunk_size with (8 * 1024); lia). lia.
Qed.


Section Routes.
Variable release_name : string -> string -> string.
Variable revision_number : nat -> string.
Variable tmp_dir : string.
(** [analysis.is_artifact], decided from the extension of the path. *)
Variable is_artifact : Path -> bool.
(** [hashlib.sha256(data).hexdigest()] and [hashlib.sha512(data).hexdigest()]. *)
Variable sha256_hexdigest : list byte -> string.
Variable sha512_hexdigest : list byte -> string.

Definition scope {A} := @create_and_manage release_name revision_number tmp_dir A.

Definition hexdigest (h : HashObj) : string :=
  if String.eqb (hash_name h) "sha256" then sha256_hexdigest (hash_fed h)
  else sha512_hexdigest (hash_fed h).

(** *** delete_file *)

(** The block under [async with revision.create_and_manage(...)]; its
    value is [metadata_files_deleted].  [creating.interim_path / p] is the
    path [p] of the interim tree. *)
Definition delete_file_body (rel_path_to_delete : Path) (creating : Creating)
  : M World.t nat :=
  let path_in_new_revision := rel_path_to_delete in
  do found <- path_exists path_in_new_revision;
  if negb found
  then raise (FlashError "File to delete was not found in the new revision")
  else
    do metadata_files_deleted <-
      (if is_artifact path_in_new_revision
       then
         do ps <- paths_recursive (parent path_in_new_revision);
         for_each ps 0
           (fun p count =>
              let metadata_path_obj := p in
              if startswith (name p) (name rel_path_to_delete +:+ ".")
              then do_ remove metadata_path_obj; ret (count + 1)
              else ret count)
       else ret 0);
    do_ remove path_in_new_revision;
    ret metadata_files_deleted.

(** [form_file_path] is [form.file_path.data] of a valid form, [None]
    when [validate_on_submit] fails. *)
Definition delete_file (session_uid project_name version_name : string)
    (form_file_path : option string) : M World.t Response :=
  match form_file_path with
  | None => ret (Redirect "compose.selected" None None)
  | Some file_path =>
      let rel_path_to_delete := Path_of_string file_path in
      try_except
        (do r <- scope project_name version_name session_uid
                   "File deletion through web interface"
                   (delete_file_body rel_path_to_delete);
         let metadata_files_deleted := r.1 in
         let success_message :=
           "File '" +:+ name rel_path_to_delete +:+ "' deleted successfully" in
         let success_message :=
           if (0 <? metadata_files_deleted)%nat
           then success_message +:+ ", and " +:+ pretty metadata_files_deleted
                  +:+ " associated metadata file"
                  +:+ (if (metadata_files_deleted =? 1)%nat then EmptyString else "s")
                  +:+ " deleted"
           else success_message in
         ret (Redirect "compose.selected" (Some success_message) None))
        (fun e =>
           do_ flash ("Error deleting file: " +:+ str_exn e) "error";
           ret (Redirect "compose.selected" None None))
  end.

(** *** fresh *)

Definition fresh_body (creating : Creating) : M World.t unit := ret tt.

Definition fresh (session_uid project_name version_name : string)
  : M World.t Response :=
  do _r <- scope project_name version_name session_uid
             "Empty revision to restart all checks for the whole release candidate draft"
             fresh_body;
  ret (Redirect "compose.selected" (Some "All checks restarted") None).

(** *** hashgen *)

Definition hashgen_body (rel_path : Path) (hash_type : string) (creating : Creating)
  : M World.t unit :=
  let path_in_new_revision := rel_path in
  let hash_path_rel := name rel_path +:+ "." +:+ hash_type in
  let hash_path_in_new_revision := parent rel_path ++ [hash_path_rel] in
  do found <- path_exists path_in_new_revision;
  if negb found
  then raise (FlashError "Source file not found in the new revision.")
  else
    do clash <- path_exists hash_path_in_new_revision;
    if clash
    then raise (ASFQuartException (hash_type +:+ " file already exists") 400)
    else
      let hash_obj := mkHashObj (if String.eqb hash_type "sha256"
                                 then "sha256" else "sha512") [] in
      do f <- open_rb path_in_new_revision;
      let hash_obj := hash_stream hash_obj f in
      let hash_value := hexdigest hash_obj in
      write_text hash_path_in_new_revision
                 (hash_value +:+ "  " +:+ name rel_path +:+ String "010" EmptyString).

(** [hash_type] is [form.get("hash_type")]. *)
Definition hashgen (session_uid project_name version_name file_path : string)
    (hash_type : option string) : M World.t Response :=
  match hash_type with
  | Some ht =>
      if String.eqb ht "sha256" || String.eqb ht "sha512"
      then
        let rel_path := Path_of_string file_path in
        try_except
          (do _r <- scope project_name version_name session_uid
                      "Hash generation through web interface"
                      (hashgen_body rel_path ht);
           ret (Redirect "compose.selected"
                         (Some (ht +:+ " file generated successfully")) None))
          (fun e =>
             do_ flash ("Error generating hash file: " +:+ str_exn e) "error";
             ret (Redirect "compose.selected" None None))
      else raise (ASFQuartException "Invalid hash type" 400)
  | None => raise (ASFQuartException "Invalid hash type" 400)
  end.

(** *** sbomgen *)

(** The block under [async with]: the two existence checks and nothing
    else.  For a name that ends in [.tar.gz] or [.tgz],
    [with_suffix(suffix + ".cdx.json").name] is the name followed by
    [.cdx.json]. *)
Definition sbomgen_body (rel_path : Path) (creating : Creating) : M World.t unit :=
  let path_in_new_revision := rel_path in
  let sbom_path_rel := name rel_path +:+ ".cdx.json" in
  let sbom_path_in_new_revision := parent rel_path ++ [sbom_path_rel] in
  do found <- path_exists path_in_new_revision;
  if negb found
  then raise (FlashError "Source artifact file not found in the new revision.")
  else
    do clash <- path_exists sbom_path_in_new_revision;
    if clash
    then raise (ASFQuartException "SBOM file already exists" 400)
    else ret tt.

(** [data.add(sbom_task); await data.commit()] *)
Definition add_task (task : Task.t) : M World.t unit :=
  do_ modify (fun w => set_tasks (tasks w ++ [task]) w);
  log (EvTaskAdd task).

(** [await data.refresh(sbom_task)]: the row as the workers have left it. *)
Definition refresh (task : Task.t) : M World.t Task.t :=
  do s <- gets (fun w => worker w (clock w));
  do_ log (EvRefresh s);
  ret (Task.mk (Task.task_type task) (Task.task_args task) (Task.asf_uid task)
               (Task.added task) s (Task.project_name task)
               (Task.version_name task) (Task.revision_number task)).

(** [await asyncio.sleep(ms / 1000)] *)
Definition sleep (ms : nat) : M World.t unit :=
  do_ modify (fun w => set_clock (clock w + ms) w);
  log (EvSleep ms).

(** [for _attempt in range(attempts): refresh; break unless QUEUED; sleep] *)
Fixpoint poll (attempts : nat) (sbom_task : Task.t) : M World.t Task.t :=
  match attempts with
  | 0 => ret sbom_task
  | S rest =>
      do sbom_task <- refresh sbom_task;
      if negb (bool_decide (Task.status sbom_task = QUEUED))
      then ret sbom_task
      else do_ sleep 100; poll rest sbom_task
  end.

Definition sbomgen (session_uid project_name version_name file_path : string)
  : M World.t Response :=
  let rel_path := Path_of_string file_path in
  if negb (endswith file_path ".tar.gz" || endswith file_path ".tgz")
  then raise (ASFQuartException
                "SBOM generation is only supported for .tar.gz files" 400)
  else
    let path_in_new_revision := rel_path in
    let sbom_path_rel := name rel_path +:+ ".cdx.json" in
    let sbom_path_in_new_revision := parent rel_path ++ [sbom_path_rel] in
    try_except
      (do r <- scope project_name version_name session_uid
                 "SBOM generation through web interface"
                 (sbomgen_body rel_path);
       let creating := r.2 in
       match new creating with
       | None => raise (FlashError "Internal error: New revision not found")
       | Some new_revision =>
           do now <- gets clock;
           let sbom_task :=
             Task.mk SBOM_GENERATE_CYCLONEDX
               [("artifact_path",
                 interim_path creating +:+ "/" +:+ str path_in_new_revision);
                ("output_path",
                 interim_path creating +:+ "/" +:+ str sbom_path_in_new_revision)]
               session_uid now QUEUED project_name version_name
               (Some (Sql.Revision.number new_revision)) in
           do_ add_task sbom_task;
           do _t <- poll 60 sbom_task;
           ret (Redirect "compose.selected"
                         (Some ("SBOM generation task queued for " +:+ name rel_path))
                         None)
       end)
      (fun e =>
         do_ flash ("Error generating SBOM: " +:+ str_exn e) "error";
         ret (Redirect "compose.selected" None None)).

End Routes.
End Draft.

(* ===================================================================== *)
(** ** atr/db/interaction.py                                               *)
(* ===================================================================== *)

Module Interaction.
Import Py Monad Monad.Notations Pathlib Sql.

(** *** path_info *)

Record PathInfo : Type := mkPathInfo {
  artifacts : gset Path;
  errors : gmap Path (list CheckResult.t);
  metadata : gset Path;
  successes : gmap Path (list CheckResult.t);
  warnings : gmap Path (list CheckResult.t)
}.

(** A match of [analysis.extension_pattern()]: its two named groups, each
    [None] when it took no part in the match. *)
Record Match : Type := mkMatch {
  group_artifact : option string;
  group_metadata : option string
}.

(** [data.check_result(release_name=..., revision_number=...,
      member_rel_path=None, status=...).all()] *)
Definition check_result_query (rows : list CheckResult.t)
    (release_name revision_number : string) (status : CheckResultStatus)
  : list CheckResult.t :=
  List.filter
    (fun r =>
       String.eqb (CheckResult.release_name r) release_name
       && String.eqb (CheckResult.revision_number r) revision_number
       && bool_decide (CheckResult.member_rel_path r = None)
       && bool_decide (CheckResult.status r = status))
    rows.

(** [for r in rows: if primary_rel_path := r.primary_rel_path:
       d.setdefault(pathlib.Path(primary_rel_path), []).append(r)] *)
Definition collect (rows : list CheckResult.t)
    (d : gmap Path (list CheckResult.t)) : gmap Path (list CheckResult.t) :=
  foldl
    (fun d r =>
       if truthy_opt (CheckResult.primary_rel_path r)
       then
         let key := Path_of_string (default EmptyString (CheckResult.primary_rel_path r)) in
         <[key := default [] (d !! key) ++ [r]]> d
       else d)
    d rows.

Definition _successes_errors_warnings (rows : list CheckResult.t)
    (release : Release.t) (latest_revision_number : string) (info : PathInfo)
  : PathInfo :=
  let q := check_result_query rows (Release.name release) latest_revision_number in
  let successes' := collect (q SUCCESS) (successes info) in
  let warnings' := collect (q WARNING) (warnings info) in
  let errors' := collect (q FAILURE) (errors info) in
  mkPathInfo (artifacts info) errors' (metadata info) successes' warnings'.

Section PathInfo.
(** [re.search(analysis.extension_pattern(), s)] *)
Variable extension_search : string -> option Match.

(** One turn of [for path in paths]. *)
Definition classify (info : PathInfo) (path : Path) : PathInfo :=
  match extension_search (str path) with
  | Some search =>
      if truthy_opt (group_artifact search)
      then mkPathInfo ({[path]} ∪ artifacts info) (errors info) (metadata info)
                      (successes info) (warnings info)
      else if truthy_opt (group_metadata search)
      then mkPathInfo (artifacts info) (errors info) ({[path]} ∪ metadata info)
                      (successes info) (warnings info)
      else info
  | None => info
  end.

(** [rows] are the CheckResult rows the session reads. *)
Definition path_info (rows : list CheckResult.t) (release : Release.t)
    (paths : list Path) : option PathInfo :=
  let info := mkPathInfo ∅ ∅ ∅ ∅ ∅ in
  match Release.latest_revision_number release with
  | None => None
  | Some latest_revision_number =>
      let info := _successes_errors_warnings rows release latest_revision_number info in
      Some (foldl classify info paths)
  end.

End PathInfo.

(** *** tasks_ongoing, tasks_ongoing_revision *)

Section Tasks.
(** [sql.release_name] *)
Variable release_name : string -> string -> string.

(** [Task.status.in_([QUEUED, ACTIVE])] *)
Definition status_in (t : Task.t) (statuses : list TaskStatus) : bool :=
  bool_decide (Task.status t ∈ statuses).

(** Modelled from the spec: [sql.RELEASE_LATEST_REVISION_NUMBER] is
    declared in [atr/models/sql.py], which is not under src/; it stands
    for the release's current latest revision number, here the value that
    the subquery of [tasks_ongoing_revision] computes, for the release the
    row at hand belongs to. *)
Definition RELEASE_LATEST_REVISION_NUMBER (revisions : list Sql.Revision.t)
    (row : Task.t) : option string :=
  latest_revision_subquery revisions
    (release_name (Task.project_name row) (Task.version_name row)).

Definition tasks_ongoing (revisions : list Sql.Revision.t) (tasks : list Task.t)
    (project_name version_name : string) (revision_number : option string) : nat :=
  length
    (List.filter
       (fun row =>
          String.eqb (Task.project_name row) project_name
          && String.eqb (Task.version_name row) version_name
          && sql_true
               (sql_eq (Task.revision_number row)
                       (match revision_number with
                        | None => RELEASE_LATEST_REVISION_NUMBER revisions row
                        | Some n => Some n
                        end))
          && status_in row [QUEUED; ACTIVE])
       tasks).

Definition tasks_ongoing_revision (revisions : list Sql.Revision.t)
    (tasks : list Task.t) (project_name version_name : string)
    (revision_number : option string) : nat * option string :=
  let subquery :=
    latest_revision_subquery revisions (release_name project_name version_name) in
  let task_count :=
    length
      (List.filter
         (fun row =>
            String.eqb (Task.project_name row) project_name
            && String.eqb (Task.version_name row) version_name
            && sql_true
                 (sql_eq (Task.revision_number row)
                         (match revision_number with
                          | None => subquery
                          | Some n => Some n
                          end))
            && status_in row [QUEUED; ACTIVE])
         tasks) in
  (task_count, subquery).

End Tasks.

(** *** release_delete *)

(** - [releases], [tasks], [check_results]: the committed rows;
    - [files]: the state tree, every file by absolute path, with its inode;
    - [downloads]: the downloads mirror, every entry by path relative to
      the downloads directory, with its inode;
    - [rmtree_fault]: the directories whose recursive removal fails, with
      the error it fails with;
    - [flashes]: the messages flashed so far, as (message, category). *)
Record World : Type := mkWorld {
  releases : list Release.t;
  tasks : list Task.t;
  check_results : list CheckResult.t;
  files : gmap Path nat;
  downloads : gmap Path nat;
  rmtree_fault : Path -> option string;
  flashes : list (string * string)
}.

Definition set_rows (rs : list Release.t) (ts : list Task.t)
    (cs : list CheckResult.t) (w : World) : World :=
  mkWorld rs ts cs (files w) (downloads w) (rmtree_fault w) (flashes w).
Definition set_files (v : gmap Path nat) (w : World) : World :=
  mkWorld (releases w) (tasks w) (check_results w) v (downloads w)
          (rmtree_fault w) (flashes w).
Definition set_downloads (v : gmap Path nat) (w : World) : World :=
  mkWorld (releases w) (tasks w) (check_results w) (files w) v
          (rmtree_fault w) (flashes w).
Definition set_flashes (v : list (string * string)) (w : World) : World :=
  mkWorld (releases w) (tasks w) (check_results w) (files w) (downloads w)
          (rmtree_fault w) v.

(** [quart.flash(message, category)] *)
Definition flash (message category : string) : M World unit :=
  modify (fun w => set_flashes (flashes w ++ [(message, category)]) w).

(** [aiofiles.os.path.isdir(d)]: a directory is a proper prefix of the
    path of a file. *)
Definition isdir (d : Path) : M World bool :=
  gets (fun w =>
          bool_decide (set_Exists (fun q => d `prefix_of` q ∧ d ≠ q) (dom (files w)))).

(** [aioshutil.rmtree(d)] *)
Definition rmtree (d : Path) : M World unit :=
  fun w =>
    match rmtree_fault w d with
    | Some msg => (Raise (OSError msg), w)
    | None =>
        (Ok tt,
         set_files (filter (fun kv => ¬ d `prefix_of` kv.1) (files w)) w)
    end.

Section Delete.
(** [util.release_directory_base] and [util.release_directory]. *)
Variable release_directory_base : Release.t -> Path.
Variable release_directory : Release.t -> Path.

(** [data.release(name=release_name, phase=phase).demand(exc)], [phase]
    being [None] for [db.NOT_SET]. *)
Definition release_query (rows : list Release.t) (release_name : string)
    (phase : option ReleasePhase) : option Release.t :=
  List.find
    (fun r =>
       String.eqb (Release.name r) release_name
       && match phase with
          | None => true
          | Some ph => bool_decide (Release.phase r = ph)
          end)
    rows.

Definition _delete_release_data_downloads (release : Release.t) : M World unit :=
  let finished_dir := release_directory release in
  do present <- isdir finished_dir;
  if present
  then
    do release_inodes <-
      gets (fun w =>
              (list_to_set
                 (snd <$> List.filter
                            (fun kv => bool_decide (finished_dir `prefix_of` kv.1
                                                    /\ finished_dir <> kv.1))
                            (map_to_list (files w))) : gset nat));
    if bool_decide (release_inodes ≠ ∅)
    then modify (fun w =>
                   set_downloads
                     (filter (fun kv => kv.2 ∉ release_inodes) (downloads w)) w)
    else ret tt
  else ret tt.

Definition _delete_release_data_filesystem (release_dir : Path)
    (release_name : string) : M World unit :=
  try_except
    (do present <- isdir release_dir;
     if present then rmtree release_dir else ret tt)
    (fun e =>
       flash ("Database records for '" +:+ release_name
                +:+ "' deleted, but failed to delete filesystem directory: "
                +:+ str_exn e)
             "warning").

Definition release_delete (release_name : string) (phase : option ReleasePhase)
    (include_downloads : bool) : M World unit :=
  do found <- gets (fun w => release_query (releases w) release_name phase);
  match found with
  | None => raise (ASFQuartException ("Release '" +:+ release_name +:+ "' not found.") 404)
  | Some release =>
      let release_dir := release_directory_base release in
      (* the deletions of the session, then [data.commit()] *)
      do_ modify (fun w =>
            set_rows
              (List.filter (fun r => negb (String.eqb (Release.name r) (Release.name release)))
                           (releases w))
              (List.filter
                 (fun t => negb (String.eqb (Task.project_name t) (Release.project_name release)
                                 && String.eqb (Task.version_name t) (Release.version release)))
                 (tasks w))
              (List.filter
                 (fun c => negb (String.eqb (CheckResult.release_name c) release_name))
                 (check_results w))
              w);
      do_ (if include_downloads then _delete_release_data_downloads release else ret tt);
      _delete_release_data_filesystem release_dir release_name
  end.

End Delete.
End Interaction.

(* ===================================================================== *)
(** ** atr/blueprints/admin/admin.py: the consistency report               *)
(* ===================================================================== *)

Module Admin.
Import Py Monad Monad.Notations Pathlib Sql.

(** - [releases]: the Release rows;
    - [fs_listdir]: the entries of a directory, [None] when it cannot be
      listed;
    - [fs_isdir]: whether a path is a directory. *)
Record World : Type := mkWorld {
  releases : list Release.t;
  fs_listdir : string -> option (list string);
  fs_isdir : string -> bool
}.

(** [aiofiles.os.listdir(d)] *)
Definition listdir (d : string) : M World (list string) :=
  fun w =>
    match fs_listdir w d with
    | Some entries => (Ok entries, w)
    | None => (Raise (FileNotFoundError ("No such file or directory: " +:+ d)), w)
    end.

(** [aiofiles.os.path.isdir(d)] *)
Definition isdir (d : string) : M World bool := gets (fun w => fs_isdir w d).

(** [os.path.join(a, b)], for a relative [b]. *)
Definition path_join (a b : string) : string := a +:+ "/" +:+ b.

(** [l.remove(x)]: the first occurrence goes. *)
Fixpoint list_remove (x : string) (l : list string) : list string :=
  match l with
  | [] => []
  | y :: rest => if String.eqb y x then rest else y :: list_remove x rest
  end.

(** The three lists the pairing works on. *)
Record Pairing : Type := mkPairing {
  database_dirs : list string;
  filesystem_dirs : list string;
  paired_dirs : list string
}.

(** [for filesystem_dir in filesystem_dirs[:]: if database_dir ==
    filesystem_dir: ...; break], [snapshot] being what is left of the copy
    the loop runs over. *)
Fixpoint pair_inner (database_dir : string) (snapshot : list string)
    (st : Pairing) : Pairing :=
  match snapshot with
  | [] => st
  | filesystem_dir :: rest =>
      if String.eqb database_dir filesystem_dir
      then mkPairing (list_remove database_dir (database_dirs st))
                     (list_remove filesystem_dir (filesystem_dirs st))
                     (paired_dirs st ++ [database_dir])
      else pair_inner database_dir rest st
  end.

(** [for database_dir in database_dirs[:]: ...] *)
Definition pair_up (database : list string) (filesystem : list string) : Pairing :=
  foldl (fun st database_dir => pair_inner database_dir (filesystem_dirs st) st)
        (mkPairing database filesystem [])
        database.

(** The order of [sorted] on [str]. *)
Definition str_le (a b : string) : Prop := Is_true (String.leb a b).

Global Instance str_le_dec : RelDecision str_le.
Proof. intros a b. unfold str_le. apply _. Defined.

(** [sorted(l or ["-"])] joined by newlines. *)
Definition render_list (l : list string) : string :=
  String.concat (String "010" EmptyString)
    (merge_sort str_le (match l with [] => ["-"] | _ => l end)).

Section Consistency.
(** [util.release_directory_version], as [str]; the two roots. *)
Variable release_directory_version : Release.t -> string.
Variable finished_dir : string.
Variable unfinished_dir : string.

(** The walk below one root, shared by [_get_filesystem_dirs_finished] and
    [_get_filesystem_dirs_unfinished], which differ in the root only. *)
Definition walk_root (root : string) (filesystem_dirs : list string)
  : M World (list string) :=
  do contents <- listdir root;
  for_each contents filesystem_dirs
    (fun project_dir acc =>
       let project_dir_path := path_join root project_dir in
       do is_project <- isdir project_dir_path;
       if is_project
       then
         do versions <- listdir project_dir_path;
         for_each versions acc
           (fun version_dir acc =>
              do is_version <- isdir (path_join project_dir_path version_dir);
              if is_version
              then
                let version_dir_path := path_join project_dir_path version_dir in
                do again <- isdir version_dir_path;
                if again then ret (acc ++ [version_dir_path]) else ret acc
              else ret acc)
       else ret acc).

Definition _get_filesystem_dirs_finished := walk_root finished_dir.
Definition _get_filesystem_dirs_unfinished := walk_root unfinished_dir.

Definition _get_filesystem_dirs : M World (list string) :=
  do filesystem_dirs <- _get_filesystem_dirs_finished [];
  _get_filesystem_dirs_unfinished filesystem_dirs.

(** [admin_consistency] up to its [return]: the three lists that the
    response prints. *)
Definition consistency (* database-only, filesystem-only, paired *)
  : M World Pairing :=
  do releases <- gets releases;
  let database_dirs := release_directory_version <$> releases in
  if negb (size (list_to_set database_dirs : gset string) =? length database_dirs)%nat
  then raise (ASFQuartException "Duplicate release directories in database" 500)
  else
    do filesystem_dirs <- _get_filesystem_dirs;
    ret (pair_up database_dirs filesystem_dirs).

Definition admin_consistency : M World string :=
  do st <- consistency;
  let nl := String "010" EmptyString in
  ret ("=== BROKEN ===" +:+ nl +:+ nl
       +:+ "DATABASE ONLY:" +:+ nl +:+ nl
       +:+ render_list (database_dirs st) +:+ nl +:+ nl
       +:+ "FILESYSTEM ONLY:" +:+ nl +:+ nl
       +:+ render_list (filesystem_dirs st) +:+ nl +:+ nl +:+ nl
       +:+ "== Okay ==" +:+ nl +:+ nl
       +:+ "Paired correctly:" +:+ nl +:+ nl
       +:+ render_list (paired_dirs st) +:+ nl).

End Consistency.
End Admin.

(* ===================================================================== *)
(** ** atr/db/interaction.py: the check count                              *)
(* ===================================================================== *)

Module InteractionChecks.
Import Py Pathlib Sql Interaction.

(** [has_failing_checks]: [select(count()).select_from(CheckResult)
      .where(release_name == release.name, revision_number == ...,
             status == FAILURE)], and [scalar_one() > 0].  [rows] are the
    CheckResult rows the session reads. *)
Definition has_failing_checks (rows : list CheckResult.t) (release : Release.t)
    (revision_number : string) : bool :=
  (0 <? length
          (List.filter
             (fun r =>
                String.eqb (CheckResult.release_name r) (Release.name release)
                && String.eqb (CheckResult.revision_number r) revision_number
                && bool_decide (CheckResult.status r = FAILURE))
             rows))%nat.

End InteractionChecks.

(* ===================================================================== *)
(** ** atr/routes/draft.py: svnload                                        *)
(* ===================================================================== *)

Module DraftSvnload.
Import Py Monad Monad.Notations Pathlib Sql World Draft.

(** The data of a valid [upload.SvnImportForm]: [svn_url] and [revision]
    as [str] gives them, [target_subdirectory] as submitted. *)
Record SvnImportForm : Type := mkSvnImportForm {
  svn_url : string;
  revision : string;
  target_subdirectory : option string
}.

(** [for _field, errors in form.errors.items(): for error in errors:
       await quart.flash(f"{error}", "error")] *)
Definition flash_errors (errors : list (string * list string)) : M World.t unit :=
  for_each errors tt
    (fun field_errors _ =>
       for_each field_errors.2 tt (fun error _ => flash error "error")).

(** [form] is the validated form, or [form.errors] when
    [validate_on_submit] fails.  In [task_args] an entry whose value is
    [None] is left out of the list.  The row has no revision number. *)
Definition svnload (session_uid project_name version_name : string)
    (form : list (string * list string) + SvnImportForm) : M World.t Response :=
  match form with
  | inl errors =>
      do_ flash_errors errors;
      ret (Redirect "upload.selected" None None)
  | inr form =>
      try_except
        (let task_args :=
           [("svn_url", svn_url form); ("revision", revision form)]
           ++ (if truthy_opt (target_subdirectory form)
               then [("target_subdirectory",
                      default EmptyString (target_subdirectory form))]
               else [])
           ++ [("project_name", project_name); ("version_name", version_name);
               ("asf_uid", session_uid)] in
         do now <- gets clock;
         let svn_import_task :=
           Task.mk SVN_IMPORT_FILES task_args session_uid now QUEUED
                   project_name version_name None in
         do_ add_task svn_import_task;
         ret (Redirect "compose.selected"
                       (Some "SVN import task queued successfully") None))
        (fun _ =>
           ret (Redirect "upload.selected" None
                         (Some "Error queueing SVN import task")))
  end.

End DraftSvnload.

(* ===================================================================== *)
(** ** atr/routes/draft.py: delete                                         *)
(* ===================================================================== *)

(** The route runs over the world of [release_delete]; it is taken after
    [session.check_access] has let the caller through. *)
Module DraftDelete.
Import Py Monad Monad.Notations Pathlib Sql Interaction.

(** The data of the three hidden fields of a valid [DeleteForm]. *)
Record DeleteForm : Type := mkDeleteForm {
  release_name : option string;
  project_name : option string;
  version_name : option string
}.

(** [for _field, errors in form.errors.items(): for error in errors:
       await quart.flash(f"{error}", "error")] *)
Definition flash_errors (errors : list (string * list string)) : M World unit :=
  for_each errors tt
    (fun field_errors _ =>
       for_each field_errors.2 tt (fun error _ => flash error "error")).

(** [aiofiles.os.path.exists(d)]: a file, or a directory. *)
Definition path_exists (d : Path) : M World bool :=
  do dir <- isdir d;
  gets (fun w => bool_decide (is_Some (files w !! d)) || dir).

Section Delete.
(** [util.release_directory_base], [util.release_directory] and
    [util.get_unfinished_dir()]. *)
Variable release_directory_base : Release.t -> Path.
Variable release_directory : Release.t -> Path.
Variable unfinished_dir : Path.

(** [form] is the validated form, or [form.errors] when
    [validate_on_submit] fails. *)
Definition delete (form : list (string * list string) + DeleteForm)
  : M World Draft.Response :=
  match form with
  | inl errors =>
      do_ flash_errors errors;
      ret (Draft.Redirect "root.index" None None)
  | inr form =>
      if negb (truthy_opt (release_name form))
      then ret (Draft.Redirect "root.index" None (Some "Missing required parameters"))
      else if negb (truthy_opt (project_name form))
      then ret (Draft.Redirect "root.index" None (Some "Missing required parameters"))
      else if negb (truthy_opt (version_name form))
      then ret (Draft.Redirect "root.index" None (Some "Missing required parameters"))
      else
        let release_name := default EmptyString (release_name form) in
        let project_name := default EmptyString (project_name form) in
        let version_name := default EmptyString (version_name form) in
        (* Delete the metadata from the database *)
        do failed <-
          try_except
            (do_ release_delete release_directory_base release_directory
                   release_name (Some RELEASE_CANDIDATE_DRAFT) false;
             ret None)
            (fun e =>
               ret (Some (Draft.Redirect "root.index" None
                            (Some ("Error deleting candidate draft: " +:+ str_exn e)))));
        match failed with
        | Some response => ret response
        | None =>
            (* Delete the files on disk, including all revisions *)
            let draft_dir :=
              unfinished_dir ++ Path_of_string project_name
                             ++ Path_of_string version_name in
            do present <- path_exists draft_dir;
            do_ (if present then rmtree draft_dir else ret tt);
            ret (Draft.Redirect "root.index"
                   (Some "Candidate draft deleted successfully") None)
        end
  end.

End Delete.
End DraftDelete.

(* ===================================================================== *)
(** ** atr/blueprints/admin/admin.py: configuration page, key check,       *)
(** ** session of another user                                             *)
(* ===================================================================== *)

Module AdminPages.
Import Py Monad Monad.Notations Pathlib Sql Admin.

(** *** admin_config *)

(** What [getattr(conf, name)] gives: a value, shown through [str]; a
    callable; or an exception, shown through [str] too. *)
Inductive Attr : Type :=
| AttrValue (s : string)
| AttrCallable
| AttrError (exc : string).

(** One turn of [for name in dir(conf)]; [None] stands for a callable
    [val]. *)
Definition config_entry (values : list string) (entry : string * Attr)
  : list string :=
  let name := entry.1 in
  if startswith name "_" then values
  else
    let val :=
      match entry.2 with
      | AttrValue s => Some s
      | AttrCallable => None
      | AttrError exc => Some ("<error: " +:+ exc +:+ ">")
      end in
    let val := if endswith name "_PASSWORD" then Some "<redacted>" else val in
    match val with
    | None => values
    | Some v => values ++ [name +:+ "=" +:+ v]
    end.

(** [conf] lists the attributes of the configuration in the order of
    [dir(conf)]; the result is the body of the response. *)
Definition admin_config (conf : list (string * Attr)) : string :=
  let values := foldl config_entry [] conf in
  String.concat (String "010" EmptyString) (merge_sort str_le values).

(** *** _check_keys *)

Record PublicSigningKey : Type := mkPublicSigningKey {
  fingerprint : string;
  primary_declared_uid : option string;
  secondary_declared_uids : option (list string);
  apache_uid : option string
}.

(** [f"{x}"] for a [str | None]. *)
Definition str_opt (o : option string) : string := default "None" o.

Section Keys.
(** [util.asf_uid_from_uids(uids, ldap_data=email_to_uid)], for the map
    that [util.email_to_uid_map()] returns. *)
Variable asf_uid_from_uids : list string -> option string.

(** The [uids] that one turn of the loop collects. *)
Definition declared_uids (key : PublicSigningKey) : list string :=
  (if truthy_opt (primary_declared_uid key)
   then [default EmptyString (primary_declared_uid key)] else [])
  ++ default [] (secondary_declared_uids key).

(** One turn of [for key in keys]: the bad keys so far, and the rows as
    the turns so far have left them. *)
Definition check_key (fix_ : bool)
    (st : list string * list PublicSigningKey) (key : PublicSigningKey)
  : list string * list PublicSigningKey :=
  let uids := declared_uids key in
  let asf_uid := asf_uid_from_uids uids in
  let bad_keys :=
    if negb (bool_decide (asf_uid = apache_uid key))
    then st.1 ++ [fingerprint key +:+ " detected: " +:+ str_opt asf_uid
                    +:+ ", key: " +:+ str_opt (apache_uid key)]
    else st.1 in
  let key :=
    if fix_
    then mkPublicSigningKey (fingerprint key) (primary_declared_uid key)
                            (secondary_declared_uids key) asf_uid
    else key in
  (bad_keys, st.2 ++ [key]).

(** The state is the table of the public signing keys; [fix_] is the
    argument [fix]. *)
Definition _check_keys (fix_ : bool) : M (list PublicSigningKey) string :=
  fun keys =>
    let st := foldl (check_key fix_) ([], []) keys in
    let bad_keys := st.1 in
    let nl := String "010" EmptyString in
    let message := "Checked " +:+ pretty (length keys) +:+ " keys" in
    let message :=
      match bad_keys with
      | [] => message
      | _ => message +:+ nl +:+ "Found " +:+ pretty (length bad_keys)
               +:+ " bad keys:" +:+ nl +:+ String.concat nl bad_keys
      end in
    (Ok message, st.2).

End Keys.

(** *** _session_data *)

(** The fields of [apache.LDAPProject] and [apache.Committee] that
    [admin.py] reads, users by their [id]. *)
Record LDAPProject : Type := mkLDAPProject {
  ldap_name : string;
  ldap_members : list string;
  ldap_owners : list string;
  ldap_pmc : option bool
}.

Record Committee : Type := mkCommittee {
  committee_name : string;
  committee_display_name : string;
  committee_roster : list string;
  committee_chair : list string
}.

Record SessionData : Type := mkSessionData {
  sd_uid : string;
  sd_dn : option string;
  sd_fullname : string;
  sd_email : string;
  sd_isMember : bool;
  sd_isChair : bool;
  sd_isRoot : bool;
  sd_pmcs : list string;
  sd_projects : list string;
  sd_mfa : bool;
  sd_isRole : bool;
  sd_metadata : list (string * string)
}.

(** [ldap_data.get(key, [new_uid])[0]]; [None] stands for the
    [IndexError] of an empty list. *)
Definition first_of (ldap_data : gmap string (list string)) (key new_uid : string)
  : option string :=
  head (default [new_uid] (ldap_data !! key)).

(** [mfa] is [current_session.mfa]. *)
Definition _session_data (ldap_data : gmap string (list string))
    (new_uid : string) (mfa : bool)
    (ldap_projects : list LDAPProject) (committee_data : list Committee)
  : option SessionData :=
  let projects : gset string :=
    list_to_set
      (ldap_name <$> List.filter
                       (fun p => bool_decide (new_uid ∈ ldap_members p)
                                 || bool_decide (new_uid ∈ ldap_owners p))
                       ldap_projects) in
  let committees : gset string :=
    foldl (fun committees c =>
             foldl (fun committees user =>
                      if String.eqb user new_uid
                      then {[committee_name c]} ∪ committees else committees)
                   committees (committee_roster c))
          ∅ committee_data in
  let is_member := negb (bool_decide (projects = ∅))
                   || negb (bool_decide (committees = ∅)) in
  let is_root := false in
  let is_chair :=
    existsb (fun c => bool_decide (new_uid ∈ committee_chair c)) committee_data in
  match first_of ldap_data "uid" new_uid, first_of ldap_data "cn" new_uid with
  | Some uid, Some fullname =>
      Some (mkSessionData uid None fullname (new_uid +:+ "@apache.org")
              is_member is_chair is_root
              (merge_sort str_le (elements committees))
              (merge_sort str_le (elements projects))
              mfa false [])
  | _, _ => None
  end.

End AdminPages.

(* ===================================================================== *)
(** ** atr/blueprints/admin/admin.py: admin_delete_release                 *)
(* ===================================================================== *)

(** The page runs over the world of [release_delete]. *)
Module AdminDelete.
Import Py Monad Monad.Notations Pathlib Sql Interaction.


(** The order of [order_by(sql.Release.name)]. *)
Definition release_le (a b : Release.t) : Prop :=
  Is_true (String.leb (Release.name a) (Release.name b)).

Global Instance release_le_dec : RelDecision release_le.
Proof. intros a b. unfold release_le. apply _. Defined.

Section DeleteRelease.
(** [util.release_directory_base] and [util.release_directory]. *)
Variable release_directory_base : Release.t -> Path.
Variable release_directory : Release.t -> Path.



End DeleteRelease.
End AdminDelete.

(* ===================================================================== *)
(** ** atr/blueprints/admin/admin.py: _update_committees                   *)
(* ===================================================================== *)

Module AdminSync.
Import Py Monad Monad.Notations Sql AdminPages.

(** The columns of [sql.Committee] that [_update_committees] writes, and
    the release managers, which it leaves alone. *)
Record CommitteeRow : Type := mkCommitteeRow {
  row_name : string;
  row_full_name : option string;
  row_is_podling : bool;
  row_committee_members : list string;
  row_committers : list string;
  row_release_managers : list string
}.

Section UpdateCommittees.
(** [sql.Committee(name=name)]: a row with its other columns at their
    defaults. *)
Variable new_committee : string -> CommitteeRow.

(** One turn of [for project in ldap_projects.projects], on
    [(added_count, updated_count)] and the Committee table as the session
    sees it, rows by name: a row added in a turn is found by
    [data.committee(name=name).get()] in the turns that follow. *)
Definition update_committee (committees_by_name : gmap string Committee)
    (st : nat * nat * gmap string CommitteeRow) (project : LDAPProject)
  : nat * nat * gmap string CommitteeRow :=
  let '(added_count, updated_count, table) := st in
  let name := ldap_name project in
  (* Skip non-PMC committees *)
  if negb (bool_decide (ldap_pmc project = Some true)) then st
  else
    (* Get or create PMC *)
    let found := table !! name in
    let committee := default (new_committee name) found in
    let added_count :=
      match found with Some _ => added_count | None => added_count + 1 end in
    let updated_count :=
      match found with Some _ => updated_count + 1 | None => updated_count end in
    let committee :=
      mkCommitteeRow (row_name committee) (row_full_name committee) false
        (ldap_owners project) (ldap_members project)
        (row_release_managers committee) in
    let committee_info := committees_by_name !! name in
    let committee :=
      match committee_info with
      | Some info =>
          mkCommitteeRow (row_name committee) (Some (committee_display_name info))
            (row_is_podling committee) (row_committee_members committee)
            (row_committers committee) (row_release_managers committee)
      | None => committee
      end in
    let updated_count := updated_count + 1 in
    (added_count, updated_count, <[name := committee]> table).

(** The state is the Committee table; the value is
    [(added_count, updated_count)]. *)
Definition _update_committees (ldap_projects : list LDAPProject)
    (committees_by_name : gmap string Committee)
  : M (gmap string CommitteeRow) (nat * nat) :=
  fun table =>
    let st := foldl (update_committee committees_by_name) (0, 0, table) ldap_projects in
    (Ok (st.1.1, st.1.2), st.2).

End UpdateCommittees.
End AdminSync.

(* ===================================================================== *)
(** ** atr/db/interaction.py: the releases of a project, by phase          *)
(* ===================================================================== *)

Module InteractionReleases.
Import Py Sql Admin.

(** The attributes of [sql.Project] that the queries read. *)
Record Project : Type := mkProject {
  name : string;
  display_name : string;
  short_display_name : string
}.

(** A Release row with its [created] column, as a timestamp, and its
    [project] attribute: the project that the row's relationship leads
    to, if there is one. *)
Record Dated : Type := mkDated {
  row : Release.t;
  created : nat;
  project : option Project
}.

(** [order_by(Release.created.desc())], and
    [sort(key=lambda r: r.created, reverse=True)]: newest first.  The
    properties proved of these lists do not depend on the order among
    rows of one timestamp. *)
Definition newer_first (a b : Dated) : Prop := created b <= created a.

Global Instance newer_first_dec : RelDecision newer_first.
Proof. intros a b. unfold newer_first. apply _. Defined.

(** [releases_by_phase]: [table] is the Release table. *)
Definition releases_by_phase (table : list Dated) (project : Project)
    (phase : ReleasePhase) : list Dated :=
  let results :=
    merge_sort newer_first
      (List.filter
         (fun d => String.eqb (Release.project_name (row d)) (name project)
                   && bool_decide (Release.phase (row d) = phase))
         table) in
  (fun release => mkDated (row release) (created release) (Some project)) <$> results.

Definition candidate_drafts (table : list Dated) (project : Project) :=
  releases_by_phase table project RELEASE_CANDIDATE_DRAFT.
Definition candidates (table : list Dated) (project : Project) :=
  releases_by_phase table project RELEASE_CANDIDATE.
Definition previews (table : list Dated) (project : Project) :=
  releases_by_phase table project RELEASE_PREVIEW.
Definition full_releases (table : list Dated) (project : Project) :=
  releases_by_phase table project RELEASE.

Definition releases_in_progress (table : list Dated) (project : Project)
  : list Dated :=
  let drafts := candidate_drafts table project in
  let cands := candidates table project in
  let prevs := previews table project in
  drafts ++ cands ++ prevs.

(** [d[k] = v] on a [dict], which keeps its keys in the order in which
    they were first set. *)
Fixpoint dict_set {V} (k : string) (v : V) (d : list (string * V))
  : list (string * V) :=
  match d with
  | [] => [(k, v)]
  | (k', v') :: rest =>
      if String.eqb k' k then (k, v) :: rest else (k', v') :: dict_set k v rest
  end.

(** The order of [user_projects.sort(key=lambda p: p.display_name)]. *)
Definition by_display_name (a b : Project) : Prop :=
  Is_true (String.leb (display_name a) (display_name b)).

Global Instance by_display_name_dec : RelDecision by_display_name.
Proof. intros a b. unfold by_display_name. apply _. Defined.

Definition active_phases : list ReleasePhase :=
  [RELEASE_CANDIDATE_DRAFT; RELEASE_CANDIDATE; RELEASE_PREVIEW].

(** One turn of [for project in user_projects]. *)
Definition unfinished_of (table : list Dated)
    (releases : list (string * list Dated)) (project : Project)
  : list (string * list Dated) :=
  let active_releases :=
    merge_sort newer_first
      (List.filter
         (fun d => String.eqb (Release.project_name (row d)) (name project)
                   && bool_decide (Release.phase (row d) ∈ active_phases))
         table) in
  match active_releases with
  | [] => releases
  | _ =>
      let active_releases := merge_sort newer_first active_releases in
      dict_set (short_display_name project) active_releases releases
  end.

(** [unfinished_releases]: [user_projects] is what
    [user.projects(asfuid)] returns. *)
Definition unfinished_releases (table : list Dated) (user_projects : list Project)
  : list (string * list Dated) :=
  let user_projects := merge_sort by_display_name user_projects in
  foldl (unfinished_of table) [] user_projects.

End InteractionReleases.

(* ===================================================================== *)
(** ** Vocabulary of the properties, and example worlds                  *)
(* ===================================================================== *)

Module TargzSpec.
Import Py Sql Targz.

(** The first path component of a member name. *)
Definition top_entry (name : string) : string := hd EmptyString (split1 "/" name).

(** The members that the metadata convention leaves out. *)
Definition skipped (name : string) : bool :=
  truthy name && startswith (last_item (split "/" name)) "._".

Definition kept (names : list string) : list string :=
  List.filter (fun n => negb (skipped n)) names.

Definition statuses (rs : list Recorded) : list CheckResultStatus :=
  rec_status <$> rs.
End TargzSpec.

Module InteractionSpec.
Import Py Pathlib Sql Interaction.

(** The artifact group of the extension pattern takes part in the match
    on [path]. *)
Definition matches_artifact (extension_search : string -> option Match)
    (path : Path) : bool :=
  match extension_search (str path) with
  | Some search => truthy_opt (group_artifact search)
  | None => false
  end.

(** The metadata group does. *)
Definition matches_metadata (extension_search : string -> option Match)
    (path : Path) : bool :=
  match extension_search (str path) with
  | Some search => truthy_opt (group_metadata search)
  | None => false
  end.

End InteractionSpec.

Module PathInfoExample.
Import Py Pathlib Sql Interaction.

(** An instance of the extension pattern for the examples: [.tar.gz] is an
    artifact extension, [.asc] after it a metadata extension. *)
Definition example_search (s : string) : option Match :=
  if endswith s ".tar.gz.asc" then Some (mkMatch (Some ".tar.gz") (Some ".asc"))
  else if endswith s ".tar.gz" then Some (mkMatch (Some ".tar.gz") None)
  else if endswith s ".asc" then Some (mkMatch None (Some ".asc"))
  else None.

Definition release : Release.t :=
  Release.mk "p-1" "p" "1" RELEASE_CANDIDATE_DRAFT (Some "00002").

Definition paths : list Path := [["a.tar.gz"]; ["KEYS.asc"]; ["README"]].

End PathInfoExample.

Module TasksSpec.
Import Py Sql Interaction.

(** A Revision row is the latest of a release when it belongs to it and
    no row of the release has a greater [seq]. *)
Definition is_latest (revisions : list Sql.Revision.t) (rname : string)
    (r : Sql.Revision.t) : Prop :=
  r ∈ revisions /\ Sql.Revision.release_name r = rname
  /\ forall r', r' ∈ revisions -> Sql.Revision.release_name r' = rname ->
                Sql.Revision.seq r' <= Sql.Revision.seq r.

(** The count of the specification: the Task rows of the project and
    version, QUEUED or ACTIVE, whose revision number is [target]. *)
Definition ongoing (tasks : list Task.t) (project_name version_name : string)
    (target : string) : nat :=
  length
    (filter (fun row => Task.project_name row = project_name
                        /\ Task.version_name row = version_name
                        /\ (Task.status row = QUEUED \/ Task.status row = ACTIVE)
                        /\ Task.revision_number row = Some target)
            tasks).

End TasksSpec.

Module TasksExample.
Import Py Sql Interaction.

Definition release_name (p v : string) : string := p +:+ "-" +:+ v.

Definition revisions : list Sql.Revision.t :=
  [Sql.Revision.mk "p-1" 1 "00001" EmptyString "u";
   Sql.Revision.mk "p-1" 2 "00002" EmptyString "u";
   Sql.Revision.mk "q-1" 3 "00003" EmptyString "u"].

Definition task (s : TaskStatus) (n : option string) : Task.t :=
  Task.mk OTHER_TASK [] "u" 0 s "p" "1" n.

Definition tasks : list Task.t :=
  [task QUEUED (Some "00002"); task ACTIVE (Some "00002");
   task COMPLETED (Some "00002"); task QUEUED (Some "00001"); task QUEUED None].

End TasksExample.

Module MonadSpec.
Import Py Monad.

(** A computation that leaves the world as it found it, whatever it
    returns or raises. *)
Definition readonly {W A} (m : M W A) : Prop := forall w, (m w).2 = w.

End MonadSpec.

Module AdminSpec.
Import Admin.

(** The state of the pairing when the database paths [done] have been
    gone through and [todo] are still to come. *)
Definition pairing_inv (fs done todo : list string) (st : Pairing) : Prop :=
  NoDup (database_dirs st) /\ NoDup (filesystem_dirs st)
  /\ (forall p, p ∈ database_dirs st <-> p ∈ todo \/ (p ∈ done /\ p ∉ fs))
  /\ (forall p, p ∈ filesystem_dirs st <-> p ∈ fs /\ p ∉ done)
  /\ (forall p, p ∈ paired_dirs st <-> p ∈ done /\ p ∈ fs).

End AdminSpec.

Module AdminExample.
Import Py Sql Admin.

Definition rdv (r : Release.t) : string :=
  "/s/unfinished/" +:+ Release.project_name r +:+ "/" +:+ Release.version r.

Definition world : World :=
  mkWorld
    [Release.mk "p-1" "p" "1" RELEASE_CANDIDATE_DRAFT None;
     Release.mk "q-1" "q" "1" RELEASE_CANDIDATE_DRAFT None]
    (fun d => if String.eqb d "/s/finished" then Some []
              else if String.eqb d "/s/unfinished" then Some ["p"; "notes.txt"]
              else if String.eqb d "/s/unfinished/p" then Some ["1"; "2"]
              else None)
    (fun d => String.eqb d "/s/unfinished/p" || String.eqb d "/s/unfinished/p/1"
              || String.eqb d "/s/unfinished/p/2").

End AdminExample.

Module DeleteSpec.
Import Py Pathlib Sql Interaction.

(** The directory [d] is on disk: some file lies below it. *)
Definition on_disk (w : World) (d : Path) : Prop :=
  exists q, q ∈ dom (files w) /\ d `prefix_of` q /\ d <> q.


End DeleteSpec.

Module DeleteExample.
Import Py Pathlib Sql Interaction.

Definition base (r : Release.t) : Path :=
  ["state"; "unfinished"; Release.project_name r; Release.version r].

Definition world : World :=
  mkWorld
    [Release.mk "p-1" "p" "1" RELEASE_CANDIDATE_DRAFT (Some "00001");
     Release.mk "q-1" "q" "1" RELEASE (Some "00001")]
    [Task.mk OTHER_TASK [] "u" 0 COMPLETED "p" "1" (Some "00001");
     Task.mk OTHER_TASK [] "u" 0 QUEUED "q" "1" (Some "00001")]
    [CheckResult.mk "p-1" "00001" (Some "a.tar.gz") None SUCCESS "ok"]
    (list_to_map [(["state"; "unfinished"; "p"; "1"; "a.tar.gz"], 7);
                  (["state"; "finished"; "q"; "1"; "b.tar.gz"], 8)])
    (list_to_map [(["p"; "a.tar.gz"], 7)])
    (fun d => if bool_decide (d = ["state"; "unfinished"; "p"; "1"])
              then Some "Permission denied" else None)
    [].

End DeleteExample.

Module ScopeSpec.
Import Py Monad Pathlib Sql World AtrRevision.

(** A computation that touches nothing but the interim directory. *)
Definition interim_only {A} (m : M World.t A) : Prop :=
  forall w r w', m w = (r, w') -> w' = set_interim (interim w') w.

(** A computation that, when it raises, has touched nothing but the
    interim directory. *)
Definition interim_only_on_raise {A} (m : M World.t A) : Prop :=
  forall w e w', m w = (Raise e, w') -> w' = set_interim (interim w') w.

(** The world after a scope on [release] was entered from [w] and left
    by an exception: nothing but the two events tells it from [w]. *)
Definition discarded (release : string) (w : World.t) : World.t :=
  set_trace (trace w ++ [EvScopeEnter release; EvScopeDiscard release]) w.

(** The world after a route has flashed [message] as an error. *)
Definition flashed_error (message : string) (w : World.t) : World.t :=
  set_flashes (flashes w ++ [(message, "error")]) w.

(** Nothing of what a later request can read has changed from [w] to
    [w1]: the rows, the latest revision of every release, the content on
    disk of every release; and no interim directory is left. *)
Definition untouched (w w1 : World.t) : Prop :=
  releases w1 = releases w /\ revisions w1 = revisions w /\ tasks w1 = tasks w
  /\ interim w1 = None
  /\ (forall release,
        latest_revision (revisions w1) release = latest_revision (revisions w) release)
  /\ (forall release, tree_contents w1 release = tree_contents w release).

End ScopeSpec.

Module DraftExample.
Import Py Monad Pathlib Sql World AtrRevision Draft.

Definition release_name (p v : string) : string := p +:+ "-" +:+ v.

Definition revision_number (n : nat) : string := pretty n.

Definition is_artifact (p : Path) : bool :=
  endswith (name p) ".tar.gz" || endswith (name p) ".tgz".

Definition sha256_hexdigest (data : list byte) : string :=
  "sha256:" +:+ pretty (length data).

Definition sha512_hexdigest (data : list byte) : string :=
  "sha512:" +:+ pretty (length data).

(** An archive, a signature of it one directory down, and a text file. *)
Definition tree : gmap Path nat :=
  list_to_map [(["a.tar.gz"], 1); (["sub"; "a.tar.gz.asc"], 2); (["b.txt"], 3)].

Definition first_row : Sql.Revision.t :=
  Sql.Revision.mk "proj-1.0" 1 "1" "first upload" "alice".

(** A release [proj-1.0] at revision 1 with that tree; the polled task
    leaves QUEUED after 250 ms. *)
Definition world : World.t :=
  World.mk ["proj-1.0"] [first_row] []
    (list_to_map [(1, list_byte_of_string "archive");
                  (2, list_byte_of_string "signature");
                  (3, list_byte_of_string "notes")])
    {[ "proj-1.0" := tree ]}
    None 0 (fun t => if (t <? 250)%nat then QUEUED else COMPLETED) [] [].

(** The same release after a SHA-256 sidecar of [b.txt] was added. *)
Definition tree_hashed : gmap Path nat := <[ ["b.txt.sha256"] := 4 ]> tree.

Definition world_hashed : World.t :=
  World.mk ["proj-1.0"] [first_row] []
    (<[ 4 := list_byte_of_string "digest  b.txt" ]> (inodes world))
    {[ "proj-1.0" := tree_hashed ]}
    None 0 (fun _ => COMPLETED) [] [].


Definition delete_file := Draft.delete_file release_name revision_number "/tmp/interim" is_artifact.
Definition hashgen :=
  Draft.hashgen release_name revision_number "/tmp/interim"
                sha256_hexdigest sha512_hexdigest.
Definition sbomgen := Draft.sbomgen release_name revision_number "/tmp/interim".

End DraftExample.

Module DraftSpec.
Import Py Monad Pathlib Sql World AtrRevision Draft.

(** [p] exists in the tree [tr], as a file or as a directory. *)
Definition exists_in (tr : gmap Path nat) (p : Path) : bool :=
  is_file tr p || is_dir tr p.

(** The path of the sidecar of [rel_path] with the given extension. *)
Definition sidecar (rel_path : Path) (ext : string) : Path :=
  parent rel_path ++ [name rel_path +:+ "." +:+ ext].

(** The digest that the hash type selects. *)
Definition digest_of (sha256_hexdigest sha512_hexdigest : list byte -> string)
    (hash_type : string) (data : list byte) : string :=
  if String.eqb hash_type "sha256" then sha256_hexdigest data
  else sha512_hexdigest data.

(** [<hexdigest>  <filename>\n] *)
Definition sidecar_line (hexdigest filename : string) : string :=
  hexdigest +:+ "  " +:+ filename +:+ String "010" EmptyString.

(** The Revision row that a scope commits after [old]. *)
Definition next_row (revision_number : nat -> string) (release : string)
    (old : Sql.Revision.t) (description asf_uid : string) : Sql.Revision.t :=
  Sql.Revision.mk release (S (Sql.Revision.seq old))
                  (revision_number (S (Sql.Revision.seq old))) description asf_uid.

(** The world after a scope on [release] was entered from [w] and left
    normally with the interim tree [tr], the row [row] being recorded. *)
Definition committed (release : string) (row : Sql.Revision.t)
    (tr : gmap Path nat) (w : World.t) : World.t :=
  set_trace (trace w ++ [EvScopeEnter release;
                         EvScopeCommit release (Sql.Revision.number row)])
    (set_trees (<[release := tr]> (trees w))
       (set_revisions (revisions w ++ [row]) w)).

End DraftSpec.

Module DeleteFileSpec.
Import Py Monad Pathlib Sql World AtrRevision Draft.

(** The name of [q] starts with [filename] followed by a dot. *)
Definition linked (filename : string) (q : Path) : bool :=
  startswith (name q) (filename +:+ ".").




(** The message of a successful deletion, [n] metadata files having gone. *)
Definition deleted_message (filename : string) (n : nat) : string :=
  let success_message := "File '" +:+ filename +:+ "' deleted successfully" in
  if (0 <? n)%nat
  then success_message +:+ ", and " +:+ pretty n
         +:+ " associated metadata file"
         +:+ (if (n =? 1)%nat then EmptyString else "s") +:+ " deleted"
  else success_message.

End DeleteFileSpec.

Module DeleteFileExample.
Import Py Monad Pathlib Sql World AtrRevision Draft.

(** An archive one directory down, next to its signature. *)
Definition tree_nested : gmap Path nat :=
  list_to_map [(["sub"; "a.tar.gz"], 1); (["sub"; "a.tar.gz.asc"], 2)].

Definition world_nested : World.t :=
  World.mk ["proj-1.0"] [DraftExample.first_row] []
    (list_to_map [(1, list_byte_of_string "archive");
                  (2, list_byte_of_string "signature")])
    {[ "proj-1.0" := tree_nested ]}
    None 0 (fun _ => COMPLETED) [] [].

End DeleteFileExample.

Module SbomSpec.
Import Py Monad Pathlib Sql World AtrRevision Draft DraftSpec.







(** The task that [sbomgen] enqueues. *)
Definition sbom_task (tmp_dir session_uid project_name version_name : string)
    (rel_path : Path) (now : nat) (number : string) : Task.t :=
  Task.mk SBOM_GENERATE_CYCLONEDX
    [("artifact_path", tmp_dir +:+ "/" +:+ str rel_path);
     ("output_path", tmp_dir +:+ "/" +:+ str (sidecar rel_path "cdx.json"))]
    session_uid now QUEUED project_name version_name (Some number).

End SbomSpec.

Module ResultsSpec.
Import Py Pathlib Sql Interaction.

(** The check results of a release at a revision that are about a whole
    file (no member path), have the given status and name the file [k],
    in the order of the rows. *)
Definition filed (rows : list CheckResult.t) (release : Release.t)
    (revision_number : string) (status : CheckResultStatus) (k : Path)
  : list CheckResult.t :=
  List.filter
    (fun r =>
       truthy_opt (CheckResult.primary_rel_path r)
       && bool_decide (Path_of_string (default EmptyString (CheckResult.primary_rel_path r)) = k))
    (check_result_query rows (Release.name release) revision_number status).

(** The entry of a dict of lists: no key for an empty list. *)
Definition entry {A} (l : list A) : option (list A) :=
  match l with
  | [] => None
  | _ => Some l
  end.

(** A FAILURE row of the release at the revision that [path_info] does
    not file: it is about a member of an archive, or names no file. *)
Definition unfiled_failure (release : Release.t) (revision_number : string)
    (r : CheckResult.t) : Prop :=
  CheckResult.release_name r = Release.name release
  /\ CheckResult.revision_number r = revision_number
  /\ CheckResult.status r = FAILURE
  /\ (CheckResult.member_rel_path r <> None
      \/ truthy_opt (CheckResult.primary_rel_path r) = false).

End ResultsSpec.

Module ResultsExample.
Import Py Pathlib Sql Interaction.

Definition release : Release.t :=
  Release.mk "p-1" "p" "1" RELEASE_CANDIDATE_DRAFT (Some "00002").

Definition rows : list CheckResult.t :=
  [CheckResult.mk "p-1" "00002" (Some "a.tar.gz") None FAILURE "bad signature";
   CheckResult.mk "p-1" "00002" (Some "a.tar.gz") (Some "a/LICENSE") FAILURE "no header";
   CheckResult.mk "p-1" "00002" (Some "a.tar.gz") None SUCCESS "readable";
   CheckResult.mk "p-1" "00001" (Some "a.tar.gz") None WARNING "old";
   CheckResult.mk "p-1" "00002" (Some "a.tar.gz") None FAILURE "bad hash"].

Definition no_search (s : string) : option Match := None.

End ResultsExample.

Module DeleteMoreSpec.
Import Py Pathlib Sql Interaction.

(** The release is in the asked phase, any phase when none is asked. *)
Definition in_phase (phase : option ReleasePhase) (r : Release.t) : Prop :=
  match phase with
  | None => True
  | Some ph => Release.phase r = ph
  end.

(** The inode [i] is that of a file below the directory [d]. *)
Definition linked_from (w : World) (d : Path) (i : nat) : Prop :=
  exists q, d `prefix_of` q /\ d <> q /\ files w !! q = Some i.

(** The rows that deleting [release] leaves. *)
Definition rows_left (release : Release.t) (w w' : World) : Prop :=
  (forall r, r ∈ releases w' <-> r ∈ releases w /\ Release.name r <> Release.name release)
  /\ (forall t, t ∈ tasks w'
                <-> t ∈ tasks w
                    /\ ~ (Task.project_name t = Release.project_name release
                          /\ Task.version_name t = Release.version release))
  /\ (forall c, c ∈ check_results w'
                <-> c ∈ check_results w
                    /\ CheckResult.release_name c <> Release.name release).

End DeleteMoreSpec.

Module DeleteMoreExample.
Import Py Pathlib Sql Interaction.

Definition base (r : Release.t) : Path :=
  ["state"; "finished"; Release.project_name r; Release.version r].

(** A finished release [q-1] with two files, one of them hard-linked
    into the downloads mirror, beside a draft [p-1]. *)
Definition world : World :=
  mkWorld
    [Release.mk "p-1" "p" "1" RELEASE_CANDIDATE_DRAFT (Some "00001");
     Release.mk "q-1" "q" "1" RELEASE (Some "00001")]
    [Task.mk OTHER_TASK [] "u" 0 COMPLETED "p" "1" (Some "00001");
     Task.mk OTHER_TASK [] "u" 0 QUEUED "q" "1" (Some "00001")]
    [CheckResult.mk "q-1" "00001" (Some "b.tar.gz") None SUCCESS "ok"]
    (list_to_map [(["state"; "unfinished"; "p"; "1"; "a.tar.gz"], 7);
                  (["state"; "finished"; "q"; "1"; "b.tar.gz"], 8);
                  (["state"; "finished"; "q"; "1"; "b.tar.gz.asc"], 9)])
    (list_to_map [(["q"; "b.tar.gz"], 8); (["other"; "c.tar.gz"], 5)])
    (fun d => None)
    [].

End DeleteMoreExample.

Module DraftDeleteExample.
Import Py Pathlib Sql Interaction DraftDelete.

Definition base (r : Release.t) : Path :=
  match Release.phase r with
  | RELEASE => ["state"; "finished"; Release.project_name r; Release.version r]
  | _ => ["state"; "unfinished"; Release.project_name r; Release.version r]
  end.

(** A draft [p-1] and a finished release [q-1], each with one file. *)
Definition world : World :=
  mkWorld
    [Release.mk "p-1" "p" "1" RELEASE_CANDIDATE_DRAFT (Some "00001");
     Release.mk "q-1" "q" "1" RELEASE (Some "00001")]
    [Task.mk OTHER_TASK [] "u" 0 COMPLETED "p" "1" (Some "00001")]
    []
    (list_to_map [(["state"; "unfinished"; "p"; "1"; "00001"; "a.tar.gz"], 7);
                  (["state"; "finished"; "q"; "1"; "b.tar.gz"], 8)])
    (list_to_map [(["q"; "b.tar.gz"], 8)])
    (fun d => None)
    [].


Definition form (name project version : string) : DeleteForm :=
  mkDeleteForm (Some name) (Some project) (Some version).

Definition delete := DraftDelete.delete base base ["state"; "unfinished"].

End DraftDeleteExample.

Module AdminPagesSpec.
Import Py Admin AdminPages.

(** Two configurations that differ at most in the values of the
    attributes that are private or whose name ends in [_PASSWORD]. *)
Definition same_but_secrets (conf1 conf2 : list (string * Attr)) : Prop :=
  Forall2
    (fun a b =>
       a.1 = b.1
       /\ (startswith a.1 "_" = false -> endswith a.1 "_PASSWORD" = false -> a.2 = b.2))
    conf1 conf2.

(** The row of a key after a fixing run. *)
Definition fixed (asf_uid_from_uids : list string -> option string)
    (key : PublicSigningKey) : PublicSigningKey :=
  mkPublicSigningKey (fingerprint key) (primary_declared_uid key)
    (secondary_declared_uids key) (asf_uid_from_uids (declared_uids key)).

(** The line that reports a key whose stored uid is not the detected one. *)
Definition bad_line (asf_uid_from_uids : list string -> option string)
    (key : PublicSigningKey) : list string :=
  if negb (bool_decide (asf_uid_from_uids (declared_uids key) = apache_uid key))
  then [fingerprint key +:+ " detected: "
          +:+ str_opt (asf_uid_from_uids (declared_uids key))
          +:+ ", key: " +:+ str_opt (apache_uid key)]
  else [].

End AdminPagesSpec.

Module AdminPagesExample.
Import Py Admin AdminPages.

Definition conf (secret : string) : list (string * Attr) :=
  [("DEBUG", AttrValue "False");
   ("LDAP_BIND_PASSWORD", AttrValue secret);
   ("_private", AttrValue secret);
   ("get", AttrCallable)].

End AdminPagesExample.

Module WalkSpec.
Import Py Monad Sql Admin.

(** [p] is a directory two levels below [root]: a directory listed in a
    directory listed in [root]. *)
Definition version_dir_below (w : World) (root p : string) : Prop :=
  exists contents project versions version,
    fs_listdir w root = Some contents /\ project ∈ contents
    /\ fs_isdir w (path_join root project) = true
    /\ fs_listdir w (path_join root project) = Some versions
    /\ version ∈ versions
    /\ fs_isdir w (path_join (path_join root project) version) = true
    /\ p = path_join (path_join root project) version.

(** The walk below [root] meets a directory that cannot be listed: the
    root, or a directory listed in it. *)
Definition unlistable (w : World) (root : string) : Prop :=
  fs_listdir w root = None
  \/ exists contents project,
       fs_listdir w root = Some contents /\ project ∈ contents
       /\ fs_isdir w (path_join root project) = true
       /\ fs_listdir w (path_join root project) = None.

End WalkSpec.

Module AdminDeleteSpec.
Import Py Pathlib Sql Interaction AdminDelete.

(** A release of that name is in the table. *)
Definition present (w : World) (release_name : string) : bool :=
  bool_decide (release_name ∈ Release.name <$> releases w).


End AdminDeleteSpec.

Module AdminSyncSpec.
Import Py Sql AdminPages AdminSync.

(** The LDAP projects that are PMCs. *)
Definition pmcs (ldap_projects : list LDAPProject) : list LDAPProject :=
  List.filter (fun p => bool_decide (ldap_pmc p = Some true)) ldap_projects.

Definition pmc_names (ldap_projects : list LDAPProject) : gset string :=
  list_to_set (ldap_name <$> pmcs ldap_projects).

End AdminSyncSpec.

Module ReleasesSpec.
Import Py Sql InteractionReleases.

(** The row [d] of the table is a release of the project in one of the
    three phases before the release. *)
Definition in_progress (table : list Dated) (project : Project) (d : Dated) : Prop :=
  d ∈ table
  /\ Release.project_name (row d) = name project
  /\ Release.phase (row d) ∈ active_phases.

(** The row with its [project] attribute set. *)
Definition of_project (project : Project) (d : Dated) : Dated :=
  mkDated (row d) (created d) (Some project).

End ReleasesSpec.

(* ===================================================================== *)
(** ** Properties                                                         *)
(* ===================================================================== *)

Section TargzProofs.
Import Py Sql Targz TargzSpec.

Lemma split1_top (s : string) : exists tl, split1 "/" s = top_entry s :: tl.
Proof.
  unfold top_entry. induction s as [|c s IH]; simpl.
  - eauto.
  - destruct (Ascii.eqb c "/"); simpl; [eauto|].
    destruct IH as [tl ->]. simpl. eauto.
Qed.

Lemma loop_skipped root n tf :
  skipped n = true ->
  root_directory_loop root (Member n :: tf) = root_directory_loop root tf.
Proof. unfold skipped. intros H. simpl. rewrite H. reflexivity. Qed.

Lemma loop_kept root n tf :
  skipped n = false ->
  root_directory_loop root (Member n :: tf) =
    if negb (truthy_opt root) then root_directory_loop (Some (top_entry n)) tf
    else if negb (bool_decide (Some (top_entry n) = root))
         then Raise (RootDirectoryError
                       ("Multiple root directories found: "
                          +:+ default EmptyString root +:+ ", " +:+ top_entry n))
         else root_directory_loop root tf.
Proof.
  unfold skipped. intros H. simpl. rewrite H.
  destruct (split1_top n) as [tl ->]. reflexivity.
Qed.

Lemma truthy_spec s : truthy s = true <-> s <> EmptyString.
Proof.
  unfold truthy. destruct (String.eqb_spec s EmptyString); simpl; split; congruence.
Qed.

Lemma kept_skipped n names : skipped n = true -> kept (n :: names) = kept names.
Proof. intros H. unfold kept. simpl. by rewrite H. Qed.

Lemma kept_kept n names : skipped n = false -> kept (n :: names) = n :: kept names.
Proof. intros H. unfold kept. simpl. by rewrite H. Qed.

(** Members that all sit below [r] leave the loop with [r], or with the
    root it started from when none of them counts. *)
Lemma loop_single_root r names : r <> EmptyString ->
  (forall n, n ∈ kept names -> top_entry n = r) ->
  forall root, root = None \/ root = Some r ->
  root_directory_loop root (Member <$> names)
  = Ok (match kept names with [] => root | _ => Some r end).
Proof.
  intros Hr. induction names as [|n names IH]; intros Hall root Hroot; rewrite ?fmap_cons.
  - reflexivity.
  - destruct (skipped n) eqn:Hs.
    + rewrite loop_skipped by done. rewrite kept_skipped in * by done.
      apply IH; auto.
    + rewrite loop_kept by done. rewrite kept_kept in * by done.
      assert (Hn : top_entry n = r) by (apply Hall; left).
      assert (Hrest : forall m, m ∈ kept names -> top_entry m = r).
      { intros m Hm. apply Hall. by right. }
      rewrite Hn.
      destruct Hroot as [-> | ->]; cbn [truthy_opt negb].
      * rewrite (IH Hrest (Some r)) by auto. by destruct (kept names).
      * apply truthy_spec in Hr as Hr'. rewrite Hr'. cbn [negb].
        rewrite bool_decide_eq_true_2 by done. cbn [negb].
        rewrite (IH Hrest (Some r)) by auto. by destruct (kept names).
Qed.

(** When the loop ends normally, every member that counts and has a
    non-empty first component sits below the root it ends with. *)
Lemma loop_ok_tops names : forall root root',
  root_directory_loop root (Member <$> names) = Ok root' ->
  (truthy_opt root = true -> root' = root)
  /\ (forall n, n ∈ kept names -> top_entry n <> EmptyString -> root' = Some (top_entry n)).
Proof.
  induction names as [|n names IH]; intros root root' H; rewrite ?fmap_cons in H.
  - simpl in H. injection H as <-. split; [done|]. intros n Hn.
    by apply elem_of_nil in Hn.
  - destruct (skipped n) eqn:Hs.
    + rewrite loop_skipped in H by done. rewrite kept_skipped by done. eauto.
    + rewrite loop_kept in H by done. rewrite kept_kept by done.
      destruct (truthy_opt root) eqn:Ht; simpl in H.
      * destruct (bool_decide (Some (top_entry n) = root)) eqn:Hd; simpl in H; [|done].
        apply bool_decide_eq_true_1 in Hd.
        apply IH in H as [H1 H2]. split; [intros _; by apply H1|].
        intros m Hm Hne. apply elem_of_cons in Hm as [-> | Hm]; [|by apply H2].
        rewrite H1 by done. done.
      * apply IH in H as [H1 H2]. split; [congruence|].
        intros m Hm Hne. apply elem_of_cons in Hm as [-> | Hm]; [|by apply H2].
        apply H1. simpl. by apply truthy_spec.
Qed.


Lemma loop_app_unreadable names msg rest : forall root root',
  root_directory_loop root (Member <$> names) = Ok root' ->
  root_directory_loop root ((Member <$> names) ++ Unreadable msg :: rest)
  = Raise (TarError msg).
Proof.
  induction names as [|n names IH]; intros root root' H; rewrite ?fmap_cons in *.
  - reflexivity.
  - change ((Member n :: (Member <$> names)) ++ Unreadable msg :: rest)
      with (Member n :: ((Member <$> names) ++ Unreadable msg :: rest)).
    destruct (skipped n) eqn:Hs.
    + rewrite loop_skipped in * by done. eauto.
    + rewrite loop_kept in * by done.
      destruct (negb (truthy_opt root)); [eauto|].
      destruct (negb (bool_decide _)); [done|eauto].
Qed.

End TargzProofs.

Section TargzClaims.
Import Py Sql Targz TargzSpec.




End TargzClaims.

Section PathInfoProofs.
Import Py Pathlib Sql Interaction InteractionSpec.
Variable extension_search : string -> option Match.

Lemma classify_artifacts info path :
  artifacts (classify extension_search info path)
  = (if matches_artifact extension_search path then {[path]} else ∅) ∪ artifacts info.
Proof.
  unfold classify, matches_artifact.
  destruct (extension_search (str path)) as [m|];
    [|by rewrite (left_id_L ∅ (∪))].
  destruct (truthy_opt (group_artifact m)); [done|].
  destruct (truthy_opt (group_metadata m)); cbn [artifacts];
    by rewrite (left_id_L ∅ (∪)).
Qed.

Lemma classify_metadata info path :
  metadata (classify extension_search info path)
  = (if negb (matches_artifact extension_search path)
        && matches_metadata extension_search path
     then {[path]} else ∅) ∪ metadata info.
Proof.
  unfold classify, matches_artifact, matches_metadata.
  destruct (extension_search (str path)) as [m|]; cbn [negb andb];
    [|by rewrite (left_id_L ∅ (∪))].
  destruct (truthy_opt (group_artifact m)); cbn [negb andb metadata];
    [by rewrite (left_id_L ∅ (∪))|].
  destruct (truthy_opt (group_metadata m)); cbn [metadata];
    [done|by rewrite (left_id_L ∅ (∪))].
Qed.

Lemma foldl_classify_artifacts paths : forall info p,
  p ∈ artifacts (foldl (classify extension_search) info paths)
  <-> p ∈ artifacts info
      \/ (p ∈ paths /\ matches_artifact extension_search p = true).
Proof.
  induction paths as [|q paths IH]; intros info p; simpl.
  - rewrite elem_of_nil. tauto.
  - rewrite IH, classify_artifacts, elem_of_union, elem_of_cons.
    destruct (matches_artifact extension_search q) eqn:Ha.
    + rewrite elem_of_singleton. intuition (subst; auto).
    + rewrite elem_of_empty. intuition (subst; auto; congruence).
Qed.

Lemma foldl_classify_metadata paths : forall info p,
  p ∈ metadata (foldl (classify extension_search) info paths)
  <-> p ∈ metadata info
      \/ (p ∈ paths /\ matches_artifact extension_search p = false
          /\ matches_metadata extension_search p = true).
Proof.
  induction paths as [|q paths IH]; intros info p; simpl.
  - rewrite elem_of_nil. tauto.
  - rewrite IH, classify_metadata, elem_of_union, elem_of_cons.
    destruct (matches_artifact extension_search q) eqn:Ha;
      destruct (matches_metadata extension_search q) eqn:Hm; simpl;
      rewrite ?elem_of_singleton, ?elem_of_empty;
      intuition (subst; auto; congruence).
Qed.

End PathInfoProofs.

Section PathInfoClaim.
Import Py Pathlib Sql Interaction InteractionSpec.

(** C10.  [path_info] returns [None] exactly when the release has no
    latest revision; otherwise, in the [PathInfo] it returns, the artifacts
    are the input paths on which the artifact group matches, the metadata
    are the input paths on which the metadata group matches and the
    artifact group does not, and no path is in both sets. *)
Theorem path_info_classification (extension_search : string -> option Match)
    (rows : list CheckResult.t) (release : Release.t) (paths : list Path) :
  (path_info extension_search rows release paths = None
   <-> Release.latest_revision_number release = None)
  /\ (forall info, path_info extension_search rows release paths = Some info ->
        artifacts info ∩ metadata info = ∅
        /\ (forall p, p ∈ artifacts info
                      <-> p ∈ paths /\ matches_artifact extension_search p = true)
        /\ (forall p, p ∈ metadata info
                      <-> p ∈ paths /\ matches_artifact extension_search p = false
                          /\ matches_metadata extension_search p = true)).
Proof.
  unfold path_info.
  destruct (Release.latest_revision_number release) as [latest|] eqn:Hl.
  - split; [split; discriminate|].
    intros info [= <-].
    assert (Ha : forall p,
      p ∈ artifacts (foldl (classify extension_search)
            (_successes_errors_warnings rows release latest (mkPathInfo ∅ ∅ ∅ ∅ ∅)) paths)
      <-> p ∈ paths /\ matches_artifact extension_search p = true).
    { intros p. rewrite foldl_classify_artifacts. simpl.
      rewrite elem_of_empty. tauto. }
    assert (Hm : forall p,
      p ∈ metadata (foldl (classify extension_search)
            (_successes_errors_warnings rows release latest (mkPathInfo ∅ ∅ ∅ ∅ ∅)) paths)
      <-> p ∈ paths /\ matches_artifact extension_search p = false
          /\ matches_metadata extension_search p = true).
    { intros p. rewrite foldl_classify_metadata. simpl.
      rewrite elem_of_empty. tauto. }
    split; [|split; assumption].
    apply set_eq. intros p. rewrite elem_of_intersection, Ha, Hm, elem_of_empty.
    split; [|done]. intros [[_ H1] [_ [H2 _]]]. congruence.
  - split; [done|]. discriminate.
Qed.

Lemma path_info_classification_witness :
  match path_info PathInfoExample.example_search [] PathInfoExample.release
                  PathInfoExample.paths
  with
  | Some info => artifacts info ∩ metadata info = ∅
  | None => False
  end.
Proof.
  pose proof (path_info_classification PathInfoExample.example_search []
                PathInfoExample.release PathInfoExample.paths) as [Hnone Hsome].
  destruct (path_info _ _ _ _) as [info|].
  - exact (proj1 (Hsome info eq_refl)).
  - pose proof (proj1 Hnone eq_refl) as H. discriminate H.
Defined.

End PathInfoClaim.

Section TasksProofs.
Import Py Sql Interaction TasksSpec.

Lemma length_filter_bool_prop {A} (f : A -> bool) (P : A -> Prop)
    `{!forall x, Decision (P x)} (l : list A) :
  (forall x, f x = true <-> P x) ->
  length (List.filter f l) = length (filter P l).
Proof.
  intros Hf. induction l as [|x l IH]; [done|].
  simpl. rewrite filter_cons.
  destruct (f x) eqn:Hx.
  - rewrite decide_True by (by apply Hf). simpl. by rewrite IH.
  - rewrite decide_False; [done|]. intros HP. apply Hf in HP. congruence.
Qed.

Lemma length_filter_none {A} (f : A -> bool) (l : list A) :
  (forall x, f x = false) -> length (List.filter f l) = 0.
Proof.
  intros Hf. induction l as [|x l IH]; [done|]. simpl. by rewrite Hf.
Qed.

Lemma latest_row_spec rows : forall best r,
  latest_row rows best = Some r ->
  (r ∈ rows \/ best = Some r)
  /\ (forall r', r' ∈ rows \/ best = Some r' ->
                 Sql.Revision.seq r' <= Sql.Revision.seq r).
Proof.
  induction rows as [|x rows IH]; intros best r H; simpl in H.
  - subst best. split; [by right|]. intros r' [Hr'|[= ->]]; [|done].
    by apply elem_of_nil in Hr'.
  - destruct best as [b|].
    + destruct (Nat.ltb_spec (Sql.Revision.seq b) (Sql.Revision.seq x)) as [Hlt|Hge].
      * apply IH in H as [H1 H2]. split.
        -- destruct H1 as [H1|[= <-]]; left; [by right|by left].
        -- intros r' [Hr'|[= <-]].
           ++ apply elem_of_cons in Hr' as [->|Hr']; [apply H2; by right|apply H2; by left].
           ++ etrans; [|apply H2; by right]. lia.
      * apply IH in H as [H1 H2]. split.
        -- destruct H1 as [H1|H1]; [left; by right|by right].
        -- intros r' [Hr'|[= <-]].
           ++ apply elem_of_cons in Hr' as [->|Hr']; [|apply H2; by left].
              etrans; [exact Hge|]. apply H2. by right.
           ++ apply H2. by right.
    + apply IH in H as [H1 H2]. split.
      * destruct H1 as [H1|[= <-]]; left; [by right|by left].
      * intros r' [Hr'|Hr']; [|done].
        apply elem_of_cons in Hr' as [->|Hr']; [apply H2; by right|apply H2; by left].
Qed.

Lemma latest_row_none rows : forall best,
  latest_row rows best = None -> rows = [] /\ best = None.
Proof.
  induction rows as [|x rows IH]; intros best H; simpl in H; [done|].
  destruct best as [b|].
  - destruct (Sql.Revision.seq b <? Sql.Revision.seq x)%nat;
      apply IH in H as [_ H]; discriminate.
  - apply IH in H as [_ H]. discriminate.
Qed.

Lemma elem_of_List_filter {A} (f : A -> bool) (l : list A) x :
  x ∈ List.filter f l <-> x ∈ l /\ f x = true.
Proof. rewrite !list_elem_of_In. apply filter_In. Qed.

Lemma latest_revision_spec revisions rname :
  match latest_revision revisions rname with
  | Some r => is_latest revisions rname r
  | None => forall r, r ∈ revisions -> Sql.Revision.release_name r <> rname
  end.
Proof.
  unfold latest_revision.
  destruct (latest_row _ None) as [r|] eqn:H.
  - apply latest_row_spec in H as [[H1|H1] H2]; [|done].
    apply elem_of_List_filter in H1 as [H1 Hn]. apply String.eqb_eq in Hn.
    split; [done|]. split; [done|].
    intros r' Hr' Hn'. apply H2. left. apply elem_of_List_filter.
    split; [done|]. by apply String.eqb_eq.
  - apply latest_row_none in H as [H _]. intros r Hr Hn.
    assert (Hin : r ∈ List.filter
              (fun r => String.eqb (Sql.Revision.release_name r) rname) revisions).
    { apply elem_of_List_filter. split; [done|]. by apply String.eqb_eq. }
    rewrite H in Hin. by apply elem_of_nil in Hin.
Qed.

End TasksProofs.

Section TasksClaim.
Import Py Sql Interaction TasksSpec.

(** C2.  With a revision number given, [tasks_ongoing] counts the Task
    rows of the project and version that are QUEUED or ACTIVE and carry
    exactly that revision number.  With none given, it counts those that
    carry the number of the latest revision of the release (the Revision
    row of greatest [seq]), and counts nothing when the release has no
    revision.  [tasks_ongoing_revision] returns the same count, with the
    latest revision number. *)
Theorem tasks_ongoing_count (release_name : string -> string -> string)
    (revisions : list Sql.Revision.t) (tasks : list Task.t)
    (project_name version_name : string) :
  (forall n,
      tasks_ongoing release_name revisions tasks project_name version_name (Some n)
      = ongoing tasks project_name version_name n)
  /\ match latest_revision revisions (release_name project_name version_name) with
     | Some r =>
         is_latest revisions (release_name project_name version_name) r
         /\ tasks_ongoing release_name revisions tasks project_name version_name None
            = ongoing tasks project_name version_name (Sql.Revision.number r)
     | None =>
         (forall r, r ∈ revisions ->
                    Sql.Revision.release_name r <> release_name project_name version_name)
         /\ tasks_ongoing release_name revisions tasks project_name version_name None = 0
     end
  /\ (forall revision_number,
        tasks_ongoing_revision release_name revisions tasks project_name version_name
                               revision_number
        = (tasks_ongoing release_name revisions tasks project_name version_name
                         revision_number,
           Sql.Revision.number
             <$> latest_revision revisions (release_name project_name version_name))).
Proof.
  assert (Hstatus : forall row,
    status_in row [QUEUED; ACTIVE] = true
    <-> Task.status row = QUEUED \/ Task.status row = ACTIVE).
  { intros row. unfold status_in. rewrite bool_decide_eq_true.
    rewrite !elem_of_cons, elem_of_nil. tauto. }
  assert (Hcount : forall target rev,
    (forall row, Task.project_name row = project_name ->
                 Task.version_name row = version_name ->
                 match rev with
                 | None => RELEASE_LATEST_REVISION_NUMBER release_name revisions row
                 | Some n => Some n
                 end = Some target) ->
    tasks_ongoing release_name revisions tasks project_name version_name rev
    = ongoing tasks project_name version_name target).
  { intros target rev Hrev. unfold tasks_ongoing, ongoing.
    apply length_filter_bool_prop. intros row.
    rewrite !andb_true_iff, !String.eqb_eq, Hstatus.
    split.
    - intros [[[Hp Hv] Hn] Hs]. rewrite (Hrev row Hp Hv) in Hn.
      repeat split; try done.
      destruct (Task.revision_number row) as [m|]; [|done].
      simpl in Hn. apply String.eqb_eq in Hn. by subst.
    - intros (Hp & Hv & Hs & Hn). rewrite (Hrev row Hp Hv), Hn.
      repeat split; try done. simpl. apply String.eqb_refl. }
  split; [|split].
  - intros n. by apply Hcount.
  - pose proof (latest_revision_spec revisions (release_name project_name version_name)) as Hl.
    destruct (latest_revision _ _) as [r|] eqn:Hr.
    + split; [done|]. apply Hcount. intros row Hp Hv.
      unfold RELEASE_LATEST_REVISION_NUMBER, latest_revision_subquery.
      by rewrite Hp, Hv, Hr.
    + split; [done|]. unfold tasks_ongoing. apply length_filter_none. intros row.
      destruct (String.eqb_spec (Task.project_name row) project_name) as [Hp|]; [|done].
      destruct (String.eqb_spec (Task.version_name row) version_name) as [Hv|]; [|done].
      unfold RELEASE_LATEST_REVISION_NUMBER, latest_revision_subquery.
      rewrite Hp, Hv, Hr. simpl. by destruct (Task.revision_number row).
  - intros rev. unfold tasks_ongoing_revision, tasks_ongoing, latest_revision_subquery.
    f_equal. f_equal. apply List.filter_ext. intros row.
    destruct rev as [n|]; [done|].
    destruct (String.eqb_spec (Task.project_name row) project_name) as [Hp|]; [|done].
    destruct (String.eqb_spec (Task.version_name row) version_name) as [Hv|]; [|done].
    unfold RELEASE_LATEST_REVISION_NUMBER, latest_revision_subquery.
    by rewrite Hp, Hv.
Qed.

Lemma tasks_ongoing_count_witness :
  tasks_ongoing TasksExample.release_name TasksExample.revisions TasksExample.tasks
                "p" "1" (Some "00001") = 1
  /\ tasks_ongoing TasksExample.release_name TasksExample.revisions TasksExample.tasks
                   "p" "1" None = 2
  /\ tasks_ongoing TasksExample.release_name [] TasksExample.tasks "p" "1" None = 0.
Proof.
  pose proof (tasks_ongoing_count TasksExample.release_name TasksExample.revisions
                TasksExample.tasks "p" "1") as (H1 & H2 & _).
  pose proof (tasks_ongoing_count TasksExample.release_name []
                TasksExample.tasks "p" "1") as (_ & H3 & _).
  split; [|split].
  - rewrite H1. reflexivity.
  - simpl in H2. destruct H2 as [_ ->]. reflexivity.
  - simpl in H3. apply H3.
Defined.

End TasksClaim.

Section ReadonlyProofs.
Import Py Monad Monad.Notations MonadSpec.
Context {W : Type}.

Lemma readonly_ret {A} (a : A) : readonly (ret a : M W A).
Proof. by intros w. Qed.

Lemma readonly_raise {A} e : readonly (raise e : M W A).
Proof. by intros w. Qed.

Lemma readonly_gets {A} (f : W -> A) : readonly (gets f).
Proof. by intros w. Qed.

Lemma readonly_bind {A B} (c : M W A) (k : A -> M W B) :
  readonly c -> (forall a, readonly (k a)) -> readonly (bind c k).
Proof.
  intros Hc Hk w. unfold bind. specialize (Hc w).
  destruct (c w) as [[a|e] w']; simpl in *; subst; [apply Hk|done].
Qed.

Lemma readonly_for_each {A B} (xs : list A) (f : A -> B -> M W B) :
  (forall x acc, readonly (f x acc)) -> forall acc, readonly (for_each xs acc f).
Proof.
  intros Hf. induction xs as [|x xs IH]; intros acc; simpl.
  - apply readonly_ret.
  - apply readonly_bind; [apply Hf|apply IH].
Qed.

End ReadonlyProofs.

Section ConsistencyProofs.
Import Py Monad Monad.Notations MonadSpec Sql Admin AdminSpec.

Lemma readonly_listdir d : readonly (listdir d).
Proof. intros w. unfold listdir. by destruct (fs_listdir w d). Qed.

Lemma readonly_walk_root root acc : readonly (walk_root root acc).
Proof.
  unfold walk_root.
  apply readonly_bind; [apply readonly_listdir|]. intros contents.
  apply readonly_for_each. intros project_dir acc'.
  apply readonly_bind; [apply readonly_gets|]. intros [|]; [|apply readonly_ret].
  apply readonly_bind; [apply readonly_listdir|]. intros versions.
  apply readonly_for_each. intros version_dir acc''.
  apply readonly_bind; [apply readonly_gets|]. intros [|]; [|apply readonly_ret].
  apply readonly_bind; [apply readonly_gets|]. intros [|]; apply readonly_ret.
Qed.

Lemma readonly_get_filesystem_dirs fin unfin :
  readonly (_get_filesystem_dirs fin unfin).
Proof.
  unfold _get_filesystem_dirs, _get_filesystem_dirs_finished,
    _get_filesystem_dirs_unfinished.
  apply readonly_bind; [apply readonly_walk_root|]. intros fs.
  apply readonly_walk_root.
Qed.

Lemma readonly_consistency rdv fin unfin : readonly (consistency rdv fin unfin).
Proof.
  unfold consistency.
  apply readonly_bind; [apply readonly_gets|]. intros rs.
  destruct (negb _); [apply readonly_raise|].
  apply readonly_bind; [apply readonly_get_filesystem_dirs|]. intros fs.
  apply readonly_ret.
Qed.

Lemma readonly_admin_consistency rdv fin unfin :
  readonly (admin_consistency rdv fin unfin).
Proof.
  unfold admin_consistency.
  apply readonly_bind; [apply readonly_consistency|]. intros st. apply readonly_ret.
Qed.

(** [len(set(l)) == len(l)] holds exactly for the lists without
    duplicates. *)
Lemma size_list_to_set_le (l : list string) :
  size (list_to_set l : gset string) <= length l.
Proof.
  induction l as [|x l IH].
  - rewrite list_to_set_nil, size_empty. done.
  - rewrite list_to_set_cons. cbn [length]. rewrite size_union_alt.
    rewrite size_singleton.
    assert (Hsub : list_to_set l ∖ {[x]} ⊆ (list_to_set l : gset string)).
    { intros y Hy. apply elem_of_difference in Hy. tauto. }
    apply subseteq_size in Hsub. lia.
Qed.

Lemma size_list_to_set_NoDup (l : list string) :
  size (list_to_set l : gset string) = length l <-> NoDup l.
Proof.
  split; [|apply size_list_to_set].
  induction l as [|x l IH]; intros H; [constructor|].
  rewrite list_to_set_cons in H. cbn [length] in H.
  destruct (decide (x ∈ l)) as [Hin|Hnin].
  - exfalso.
    assert (Heq : {[x]} ∪ list_to_set l = (list_to_set l : gset string)).
    { apply set_eq. intros y.
      rewrite elem_of_union, elem_of_singleton, elem_of_list_to_set.
      split; [intros [->|?]; done|tauto]. }
    rewrite Heq in H. pose proof (size_list_to_set_le l). lia.
  - constructor; [done|]. apply IH.
    rewrite size_union in H
      by (apply disjoint_singleton_l; by rewrite elem_of_list_to_set).
    rewrite size_singleton in H. lia.
Qed.

Lemma elem_of_list_remove x (l : list string) p :
  NoDup l -> p ∈ list_remove x l <-> p ∈ l /\ p <> x.
Proof.
  induction 1 as [|y l Hy Hnd IH]; simpl.
  - rewrite elem_of_nil. tauto.
  - destruct (String.eqb_spec y x) as [->|Hne].
    + rewrite elem_of_cons. split; [|tauto]. intros Hp. split; [tauto|].
      intros ->. done.
    + rewrite !elem_of_cons, IH. split; [|tauto].
      intros [->|[? ?]]; tauto.
Qed.

Lemma NoDup_list_remove x (l : list string) : NoDup l -> NoDup (list_remove x l).
Proof.
  induction 1 as [|y l Hy Hnd IH]; simpl; [constructor|].
  destruct (String.eqb_spec y x); [done|].
  constructor; [|done]. rewrite elem_of_list_remove by done. tauto.
Qed.

Lemma pair_inner_spec d snapshot st :
  pair_inner d snapshot st
  = if bool_decide (d ∈ snapshot)
    then mkPairing (list_remove d (database_dirs st))
                   (list_remove d (filesystem_dirs st))
                   (paired_dirs st ++ [d])
    else st.
Proof.
  induction snapshot as [|f snapshot IH]; cbn [pair_inner].
  - rewrite bool_decide_eq_false_2; [done|]. apply not_elem_of_nil.
  - destruct (String.eqb_spec d f) as [->|Hne].
    + rewrite bool_decide_eq_true_2; [done|]. left.
    + rewrite IH.
      rewrite (bool_decide_ext (d ∈ snapshot) (d ∈ f :: snapshot)); [done|].
      rewrite elem_of_cons. tauto.
Qed.

Lemma pairing_step fs done d todo st :
  NoDup (done ++ d :: todo) ->
  pairing_inv fs done (d :: todo) st ->
  pairing_inv fs (done ++ [d]) todo (pair_inner d (filesystem_dirs st) st).
Proof.
  intros Hnd (Hd & Hf & Hdb & Hfs & Hp).
  apply NoDup_app in Hnd as (Hnd1 & Hnd2 & Hnd3).
  apply NoDup_cons in Hnd3 as [Hd_todo Hnd3].
  assert (Hd_done : d ∉ done) by (intros H; apply (Hnd2 d H); left).
  rewrite pair_inner_spec. case_bool_decide as Hin.
  - apply Hfs in Hin as [Hin _].
    split; [by apply NoDup_list_remove|]. split; [by apply NoDup_list_remove|].
    cbn [database_dirs filesystem_dirs paired_dirs]. split; [|split].
    + intros p. rewrite elem_of_list_remove by done.
      rewrite Hdb, elem_of_cons, elem_of_app, list_elem_of_singleton.
      destruct (decide (p = d)) as [->|Hne]; tauto.
    + intros p. rewrite elem_of_list_remove by done.
      rewrite Hfs, elem_of_app, list_elem_of_singleton. tauto.
    + intros p. rewrite !elem_of_app, list_elem_of_singleton, Hp.
      destruct (decide (p = d)) as [->|Hne]; tauto.
  - assert (Hnin : d ∉ fs) by (intros H; apply Hin, Hfs; tauto).
    split; [done|]. split; [done|]. split; [|split].
    + intros p. rewrite Hdb, elem_of_cons, elem_of_app, list_elem_of_singleton.
      destruct (decide (p = d)) as [->|Hne]; tauto.
    + intros p. rewrite Hfs, elem_of_app, list_elem_of_singleton.
      destruct (decide (p = d)) as [->|Hne]; tauto.
    + intros p. rewrite Hp, elem_of_app, list_elem_of_singleton.
      destruct (decide (p = d)) as [->|Hne]; tauto.
Qed.

Lemma pairing_fold fs todo : forall done st,
  NoDup (done ++ todo) ->
  pairing_inv fs done todo st ->
  pairing_inv fs (done ++ todo) []
    (foldl (fun st d => pair_inner d (filesystem_dirs st) st) st todo).
Proof.
  induction todo as [|d todo IH]; intros done st Hnd Hinv; simpl.
  - by rewrite app_nil_r.
  - replace (done ++ d :: todo) with ((done ++ [d]) ++ todo)
      by (by rewrite <- app_assoc).
    apply IH; [by rewrite <- app_assoc|]. by apply pairing_step.
Qed.

Lemma pair_up_spec db fs :
  NoDup db -> NoDup fs -> pairing_inv fs db [] (pair_up db fs).
Proof.
  intros Hdb Hfs. unfold pair_up.
  apply (pairing_fold fs db [] (mkPairing db fs [])); [done|].
  unfold pairing_inv. cbn [database_dirs filesystem_dirs paired_dirs].
  split_and!; try done.
  - intros p. rewrite elem_of_nil. tauto.
  - intros p. rewrite elem_of_nil. tauto.
  - intros p. rewrite !elem_of_nil. tauto.
Qed.

End ConsistencyProofs.

Section ConsistencyClaim.
Import Py Monad Monad.Notations MonadSpec Sql Admin AdminSpec.

(** C5.  The consistency check leaves the world as it found it.  When
    two releases resolve to the same directory it raises the fatal error
    and reports nothing.  Otherwise, the directory walk listing each
    directory once, a path is paired exactly when it is both a database
    path and a filesystem path, it is database-only exactly when it is a
    database path and no filesystem path, and filesystem-only exactly when
    it is a filesystem path and no database path. *)
Theorem consistency_partition (release_directory_version : Release.t -> string)
    (finished_dir unfinished_dir : string) (w : World) :
  let db := release_directory_version <$> releases w in
  let check := consistency release_directory_version finished_dir unfinished_dir in
  let route := admin_consistency release_directory_version finished_dir unfinished_dir in
  (check w).2 = w /\ (route w).2 = w
  /\ (~ NoDup db ->
        (check w).1
        = Raise (ASFQuartException "Duplicate release directories in database" 500)
        /\ (route w).1
           = Raise (ASFQuartException "Duplicate release directories in database" 500))
  /\ (forall fs,
        NoDup db ->
        (_get_filesystem_dirs finished_dir unfinished_dir w).1 = Ok fs ->
        NoDup fs ->
        exists st,
          (check w).1 = Ok st
          /\ (forall p, p ∈ paired_dirs st <-> p ∈ db /\ p ∈ fs)
          /\ (forall p, p ∈ database_dirs st <-> p ∈ db /\ p ∉ fs)
          /\ (forall p, p ∈ filesystem_dirs st <-> p ∈ fs /\ p ∉ db)).
Proof.
  intros db check route.
  split; [apply readonly_consistency|]. split; [apply readonly_admin_consistency|].
  split.
  - intros Hdup.
    assert (Hc : (check w).1
              = Raise (ASFQuartException "Duplicate release directories in database" 500)).
    { unfold check, consistency, bind, gets. fold db.
      destruct (Nat.eqb_spec (size (list_to_set db : gset string)) (length db)) as [He|]; [|done].
      by apply size_list_to_set_NoDup in He. }
    split; [done|]. unfold route, admin_consistency, bind. fold check.
    destruct (check w) as [[st|e] w']; simpl in *; congruence.
  - intros fs Hnd Hfs Hndfs.
    exists (pair_up db fs). split.
    + unfold check, consistency, bind, gets. fold db.
      apply size_list_to_set_NoDup in Hnd as ->. rewrite Nat.eqb_refl. simpl.
      destruct (_get_filesystem_dirs finished_dir unfinished_dir w) as [[fs'|e] w'];
        simpl in Hfs; [|done]. by injection Hfs as ->.
    + destruct (pair_up_spec db fs Hnd Hndfs) as (_ & _ & H1 & H2 & H3).
      split; [|split]; intros p.
      * rewrite H3. tauto.
      * rewrite H1, elem_of_nil. tauto.
      * rewrite H2. tauto.
Qed.

Lemma consistency_partition_witness :
  exists st,
    (consistency AdminExample.rdv "/s/finished" "/s/unfinished" AdminExample.world).1
    = Ok st
    /\ (forall p, p ∈ paired_dirs st
                  <-> p ∈ ["/s/unfinished/p/1"; "/s/unfinished/q/1"]
                      /\ p ∈ ["/s/unfinished/p/1"; "/s/unfinished/p/2"])
    /\ (forall p, p ∈ database_dirs st
                  <-> p ∈ ["/s/unfinished/p/1"; "/s/unfinished/q/1"]
                      /\ p ∉ ["/s/unfinished/p/1"; "/s/unfinished/p/2"])
    /\ (forall p, p ∈ filesystem_dirs st
                  <-> p ∈ ["/s/unfinished/p/1"; "/s/unfinished/p/2"]
                      /\ p ∉ ["/s/unfinished/p/1"; "/s/unfinished/q/1"]).
Proof.
  apply (proj2 (proj2 (proj2
           (consistency_partition AdminExample.rdv "/s/finished" "/s/unfinished"
                                  AdminExample.world)))
           ["/s/unfinished/p/1"; "/s/unfinished/p/2"]).
  - apply (bool_decide_unpack _). by vm_compute.
  - by vm_compute.
  - apply (bool_decide_unpack _). by vm_compute.
Defined.

End ConsistencyClaim.

Section DeleteProofs.
Import Py Monad Monad.Notations Pathlib Sql Interaction DeleteSpec.
Variable release_directory_base : Release.t -> Path.
Variable release_directory : Release.t -> Path.

Lemma release_query_name rows release_name phase release :
  release_query rows release_name phase = Some release ->
  release ∈ rows /\ Release.name release = release_name.
Proof.
  unfold release_query. intros H. apply find_some in H as [Hin Hb].
  apply andb_true_iff in Hb as [Hn _]. apply String.eqb_eq in Hn.
  split; [by apply list_elem_of_In|done].
Qed.

Lemma isdir_true w d : on_disk w d -> isdir d w = (Ok true, w).
Proof.
  intros (q & Hq & Hp & Hne). unfold isdir, gets.
  rewrite bool_decide_eq_true_2; [done|]. exists q. auto.
Qed.



End DeleteProofs.

Section DeleteClaim.
Import Py Monad Monad.Notations Pathlib Sql Interaction DeleteSpec.



End DeleteClaim.

Section ScopeProofs.
Import Py Monad Monad.Notations Pathlib Sql World AtrRevision ScopeSpec.

Lemma set_interim_id w : set_interim (interim w) w = w.
Proof. by destruct w. Qed.

Lemma set_interim_twice a b w : set_interim a (set_interim b w) = set_interim a w.
Proof. by destruct w. Qed.

Lemma interim_only_raise_of {A} (m : M World.t A) :
  interim_only m -> interim_only_on_raise m.
Proof. intros H w e w' Hm. by eapply H. Qed.

Lemma interim_only_ret {A} (a : A) : interim_only (ret a).
Proof. intros w r w' [= <- <-]. by rewrite set_interim_id. Qed.

Lemma interim_only_raise {A} e : interim_only (raise e : M World.t A).
Proof. intros w r w' [= <- <-]. by rewrite set_interim_id. Qed.

Lemma interim_only_gets {A} (f : World.t -> A) : interim_only (gets f).
Proof. intros w r w' [= <- <-]. by rewrite set_interim_id. Qed.

Lemma interim_only_bind {A B} (c : M World.t A) (k : A -> M World.t B) :
  interim_only c -> (forall a, interim_only (k a)) -> interim_only (bind c k).
Proof.
  intros Hc Hk w r w' H. unfold bind in H.
  destruct (c w) as [[a|e] w1] eqn:Hcw.
  - apply Hc in Hcw. apply Hk in H. rewrite H, Hcw. by rewrite set_interim_twice.
  - injection H as <- <-. by apply Hc in Hcw.
Qed.

Lemma interim_only_on_raise_bind {A B} (c : M World.t A) (k : A -> M World.t B) :
  interim_only c -> (forall a, interim_only_on_raise (k a)) ->
  interim_only_on_raise (bind c k).
Proof.
  intros Hc Hk w e w' H. unfold bind in H.
  destruct (c w) as [[a|e'] w1] eqn:Hcw.
  - apply Hc in Hcw. apply Hk in H. rewrite H, Hcw. by rewrite set_interim_twice.
  - injection H as <- <-. by apply Hc in Hcw.
Qed.

Lemma interim_only_for_each {A B} (xs : list A) (f : A -> B -> M World.t B) :
  (forall x acc, interim_only (f x acc)) ->
  forall acc, interim_only (for_each xs acc f).
Proof.
  intros Hf. induction xs as [|x xs IH]; intros acc; simpl.
  - apply interim_only_ret.
  - apply interim_only_bind; [apply Hf|apply IH].
Qed.

Lemma interim_only_path_exists p : interim_only (path_exists p).
Proof. apply interim_only_gets. Qed.

Lemma interim_only_paths_recursive d : interim_only (paths_recursive d).
Proof. apply interim_only_gets. Qed.

Lemma interim_only_remove p : interim_only (remove p).
Proof.
  intros w r w' H. unfold remove in H.
  destruct (is_file _ _); [|destruct (is_dir _ _)]; injection H as <- <-;
    by destruct w.
Qed.

Lemma interim_only_open_rb p : interim_only (open_rb p).
Proof.
  intros w r w' H. unfold open_rb in H.
  destruct (interim_tree w !! p); [|destruct (is_dir _ _)]; injection H as <- <-;
    by destruct w.
Qed.

(** A write that fails has written nothing. *)
Lemma write_text_on_raise p s : interim_only_on_raise (write_text p s).
Proof.
  intros w e w' H. unfold write_text in H.
  destruct (interim_tree w !! p); [done|].
  destruct (is_dir _ p); [injection H as <- <-; by destruct w|].
  destruct (negb _); [injection H as <- <-; by destruct w|done].
Qed.

Section Bodies.
Variable is_artifact : Path -> bool.
Variable sha256_hexdigest : list byte -> string.
Variable sha512_hexdigest : list byte -> string.

Lemma interim_only_delete_file_body rel creating :
  interim_only (Draft.delete_file_body is_artifact rel creating).
Proof.
  unfold Draft.delete_file_body.
  apply interim_only_bind; [apply interim_only_path_exists|]. intros found.
  destruct (negb found); [apply interim_only_raise|].
  apply interim_only_bind.
  - destruct (is_artifact rel); [|apply interim_only_ret].
    apply interim_only_bind; [apply interim_only_paths_recursive|]. intros ps.
    apply interim_only_for_each. intros p count.
    destruct (startswith _ _); [|apply interim_only_ret].
    apply interim_only_bind; [apply interim_only_remove|]. intros _.
    apply interim_only_ret.
  - intros n. apply interim_only_bind; [apply interim_only_remove|]. intros _.
    apply interim_only_ret.
Qed.

Lemma hashgen_body_on_raise rel ht creating :
  interim_only_on_raise
    (Draft.hashgen_body sha256_hexdigest sha512_hexdigest rel ht creating).
Proof.
  unfold Draft.hashgen_body.
  apply interim_only_on_raise_bind; [apply interim_only_path_exists|]. intros found.
  destruct (negb found); [apply interim_only_raise_of, interim_only_raise|].
  apply interim_only_on_raise_bind; [apply interim_only_path_exists|]. intros clash.
  destruct clash; [apply interim_only_raise_of, interim_only_raise|].
  apply interim_only_on_raise_bind; [apply interim_only_open_rb|]. intros f.
  apply write_text_on_raise.
Qed.

Lemma interim_only_sbomgen_body rel creating :
  interim_only (Draft.sbomgen_body rel creating).
Proof.
  unfold Draft.sbomgen_body.
  apply interim_only_bind; [apply interim_only_path_exists|]. intros found.
  destruct (negb found); [apply interim_only_raise|].
  apply interim_only_bind; [apply interim_only_path_exists|]. intros clash.
  destruct clash; [apply interim_only_raise|apply interim_only_ret].
Qed.

Lemma interim_only_fresh_body creating : interim_only (Draft.fresh_body creating).
Proof. apply interim_only_ret. Qed.

End Bodies.

(** Leaving a scope by an exception leaves the world as it was when the
    scope was entered, the events apart. *)
Lemma scope_discards {A} release_name revision_number tmp_dir
    project_name version_name asf_uid description
    (body : Creating -> M World.t A) w e w' :
  (forall creating, interim_only_on_raise (body creating)) ->
  interim w = None ->
  create_and_manage release_name revision_number tmp_dir
    project_name version_name asf_uid description body w = (Raise e, w') ->
  w' = w \/ w' = discarded (release_name project_name version_name) w.
Proof.
  intros Hbody Hint H. unfold create_and_manage in H.
  destruct (negb _); [injection H as <- <-; by left|].
  match type of H with
  | context [body ?c ?w1] => destruct (body c w1) as [[a|e'] w2] eqn:Hb
  end; [done|].
  injection H as <- <-. right.
  apply Hbody in Hb. rewrite Hb. unfold discarded.
  destruct w; simpl in *. subst. unfold set_trace, set_interim. simpl.
  by rewrite <- app_assoc.
Qed.

End ScopeProofs.

Section ScopeClaim.
Import Py Monad Monad.Notations Pathlib Sql World AtrRevision Draft ScopeSpec.

Lemma discarded_untouched release w w1 :
  interim w = None -> w1 = w \/ w1 = discarded release w -> untouched w w1.
Proof. intros Hint [-> | ->]; by repeat split. Qed.

Lemma flashed_untouched message w w1 :
  untouched w w1 -> untouched w (flashed_error message w1).
Proof. intros (?&?&?&?&?&?). by repeat split. Qed.

(** C1.  When an exception is raised inside the revision-mutation scope
    of [delete_file], [hashgen], [sbomgen] or [fresh], the world the scope
    leaves differs from the one it found by its two events at most: no
    Revision row is added, the latest revision and the content on disk of
    every release are as before, the interim directory is gone.
    [delete_file], [hashgen] and [sbomgen] then answer with a redirect
    that carries no success message and flash the error; [fresh] lets the
    exception through. *)
Theorem revision_scope_abort
    (release_name : string -> string -> string) (revision_number : nat -> string)
    (tmp_dir : string) (is_artifact : Path -> bool)
    (sha256_hexdigest sha512_hexdigest : list byte -> string)
    (w w1 : World.t) (session_uid project_name version_name file_path : string)
    (e : Exception) :
  let rel_path := Path_of_string file_path in
  let scope {A} (description : string) (body : Creating -> M World.t A) :=
    create_and_manage release_name revision_number tmp_dir
      project_name version_name session_uid description body w in
  interim w = None ->
  (scope "File deletion through web interface"
         (delete_file_body is_artifact rel_path) = (Raise e, w1) ->
     untouched w w1
     /\ delete_file release_name revision_number tmp_dir is_artifact
          session_uid project_name version_name (Some file_path) w
        = (Ok (Redirect "compose.selected" None None),
           flashed_error ("Error deleting file: " +:+ str_exn e) w1))
  /\ (forall hash_type,
        hash_type = "sha256" \/ hash_type = "sha512" ->
        scope "Hash generation through web interface"
              (hashgen_body sha256_hexdigest sha512_hexdigest rel_path hash_type)
        = (Raise e, w1) ->
        untouched w w1
        /\ hashgen release_name revision_number tmp_dir
             sha256_hexdigest sha512_hexdigest
             session_uid project_name version_name file_path (Some hash_type) w
           = (Ok (Redirect "compose.selected" None None),
              flashed_error ("Error generating hash file: " +:+ str_exn e) w1))
  /\ ((endswith file_path ".tar.gz" || endswith file_path ".tgz") = true ->
      scope "SBOM generation through web interface" (sbomgen_body rel_path)
      = (Raise e, w1) ->
      untouched w w1
      /\ sbomgen release_name revision_number tmp_dir
           session_uid project_name version_name file_path w
         = (Ok (Redirect "compose.selected" None None),
            flashed_error ("Error generating SBOM: " +:+ str_exn e) w1))
  /\ (scope "Empty revision to restart all checks for the whole release candidate draft"
            fresh_body = (Raise e, w1) ->
      untouched w w1
      /\ fresh release_name revision_number tmp_dir
           session_uid project_name version_name w = (Raise e, w1)).
Proof.
  intros rel_path scope Hint. subst scope. cbv beta.
  split; [|split; [|split]].
  - intros H. split.
    + eapply discarded_untouched; [done|].
      eapply scope_discards; [|done|exact H].
      intros c. apply interim_only_raise_of, interim_only_delete_file_body.
    + unfold delete_file, try_except, bind, Draft.scope. fold rel_path. by rewrite H.
  - intros ht Hht H. split.
    + eapply discarded_untouched; [done|].
      eapply scope_discards; [|done|exact H].
      intros c. apply hashgen_body_on_raise.
    + unfold hashgen.
      assert ((String.eqb ht "sha256" || String.eqb ht "sha512") = true) as ->.
      { destruct Hht as [-> | ->]; reflexivity. }
      unfold try_except, bind, Draft.scope. fold rel_path. by rewrite H.
  - intros Hext H. split.
    + eapply discarded_untouched; [done|].
      eapply scope_discards; [|done|exact H].
      intros c. apply interim_only_raise_of, interim_only_sbomgen_body.
    + unfold sbomgen. rewrite Hext. cbn [negb].
      unfold try_except, bind, Draft.scope. fold rel_path. by rewrite H.
  - intros H. split.
    + eapply discarded_untouched; [done|].
      eapply scope_discards; [|done|exact H].
      intros c. apply interim_only_raise_of, interim_only_fresh_body.
    + unfold fresh, bind, Draft.scope. by rewrite H.
Qed.

Lemma revision_scope_abort_witness :
  (untouched DraftExample.world (discarded "proj-1.0" DraftExample.world)
   /\ DraftExample.delete_file "alice" "proj" "1.0" (Some "missing.txt") DraftExample.world
      = (Ok (Redirect "compose.selected" None None),
         flashed_error
           "Error deleting file: File to delete was not found in the new revision"
           (discarded "proj-1.0" DraftExample.world)))
  /\ (untouched DraftExample.world (discarded "proj-1.0" DraftExample.world)
      /\ DraftExample.hashgen "alice" "proj" "1.0" "missing.txt" (Some "sha512")
           DraftExample.world
         = (Ok (Redirect "compose.selected" None None),
            flashed_error
              "Error generating hash file: Source file not found in the new revision."
              (discarded "proj-1.0" DraftExample.world)))
  /\ (untouched DraftExample.world DraftExample.world
      /\ fresh DraftExample.release_name DraftExample.revision_number "/tmp/interim"
           "alice" "nope" "1.0" DraftExample.world
         = (Raise (ASFQuartException "Release 'nope-1.0' not found." 404),
            DraftExample.world)).
Proof.
  split; [|split].
  - apply (revision_scope_abort DraftExample.release_name DraftExample.revision_number
             "/tmp/interim" DraftExample.is_artifact
             DraftExample.sha256_hexdigest DraftExample.sha512_hexdigest
             DraftExample.world (discarded "proj-1.0" DraftExample.world)
             "alice" "proj" "1.0" "missing.txt"
             (FlashError "File to delete was not found in the new revision")).
    + reflexivity.
    + vm_compute. reflexivity.
  - apply (revision_scope_abort DraftExample.release_name DraftExample.revision_number
             "/tmp/interim" DraftExample.is_artifact
             DraftExample.sha256_hexdigest DraftExample.sha512_hexdigest
             DraftExample.world (discarded "proj-1.0" DraftExample.world)
             "alice" "proj" "1.0" "missing.txt"
             (FlashError "Source file not found in the new revision.")).
    + reflexivity.
    + by right.
    + vm_compute. reflexivity.
  - apply (revision_scope_abort DraftExample.release_name DraftExample.revision_number
             "/tmp/interim" DraftExample.is_artifact
             DraftExample.sha256_hexdigest DraftExample.sha512_hexdigest
             DraftExample.world DraftExample.world
             "alice" "nope" "1.0" "missing.txt"
             (ASFQuartException "Release 'nope-1.0' not found." 404)).
    + reflexivity.
    + vm_compute. reflexivity.
Defined.

End ScopeClaim.

Section StreamProofs.
Import Py Monad Pathlib Sql World AtrRevision Draft DraftSpec.

Lemma hash_stream_fed h f :
  hash_stream h f = mkHashObj (hash_name h) (hash_fed h ++ f).
Proof.
  funelim (hash_stream h f).
  - rewrite app_nil_r. by destruct hash_obj.
  - rewrite H. unfold hash_update. cbn [hash_name hash_fed]. f_equal.
    by rewrite <- app_assoc, take_drop.
Qed.





End StreamProofs.

Section RunProofs.
Import Py Monad.
Context {W : Type}.

Lemma bind_ok {A B} (c : M W A) (k : A -> M W B) w a w' :
  c w = (Ok a, w') -> bind c k w = k a w'.
Proof. intros H. unfold bind. by rewrite H. Qed.

Lemma bind_raise {A B} (c : M W A) (k : A -> M W B) w e w' :
  c w = (Raise e, w') -> bind c k w = (Raise e, w').
Proof. intros H. unfold bind. by rewrite H. Qed.

End RunProofs.

Section TreeProofs.
Import Py Monad Monad.Notations Pathlib Sql World AtrRevision Draft DraftSpec.

Lemma interim_tree_some w tr : interim w = Some tr -> interim_tree w = tr.
Proof. intros H. unfold interim_tree. by rewrite H. Qed.

Lemma path_exists_run p w tr :
  interim w = Some tr -> path_exists p w = (Ok (exists_in tr p), w).
Proof. intros H. unfold path_exists, gets, interim_tree. by rewrite H. Qed.

Lemma parent_snoc (l : Path) x : parent (l ++ [x]) = l.
Proof. unfold parent. apply removelast_last. Qed.

Lemma name_snoc (l : Path) x : name (l ++ [x]) = x.
Proof. unfold name. apply last_last. Qed.

Lemma parent_sidecar rel ext : parent (sidecar rel ext) = parent rel.
Proof. apply parent_snoc. Qed.

Lemma is_file_lookup (tr : gmap Path nat) p :
  is_file tr p = true <-> is_Some (tr !! p).
Proof. unfold is_file. apply bool_decide_eq_true. Qed.

Lemma is_dir_spec (tr : gmap Path nat) p :
  is_dir tr p = true
  <-> p = [] \/ exists q, is_Some (tr !! q) /\ p `prefix_of` q /\ p <> q.
Proof.
  unfold is_dir. rewrite orb_true_iff, !bool_decide_eq_true.
  unfold set_Exists. setoid_rewrite elem_of_dom. tauto.
Qed.

Lemma is_dir_parent (tr : gmap Path nat) rel ino :
  tr !! rel = Some ino -> is_dir tr (parent rel) = true.
Proof.
  intros H. apply is_dir_spec.
  destruct rel as [|x rel] using rev_ind; [by left|]. right.
  rewrite parent_snoc. exists (rel ++ [x]). split; [by eexists|]. split.
  - by apply prefix_app_r.
  - intros Heq. apply (f_equal length) in Heq. rewrite length_app in Heq.
    simpl in Heq. lia.
Qed.

Lemma exists_in_false (tr : gmap Path nat) p :
  exists_in tr p = false -> tr !! p = None /\ is_dir tr p = false.
Proof.
  unfold exists_in. intros H. apply orb_false_iff in H as [Hf Hd].
  split; [|done]. unfold is_file in Hf. apply bool_decide_eq_false in Hf.
  by apply eq_None_not_Some.
Qed.

Lemma exists_in_file (tr : gmap Path nat) p ino :
  tr !! p = Some ino -> exists_in tr p = true.
Proof.
  intros H. unfold exists_in. apply orb_true_iff. left.
  apply is_file_lookup. by eexists.
Qed.

(** What exists keeps existing when a file is added. *)
Lemma exists_in_insert (tr : gmap Path nat) p q ino :
  exists_in tr p = true -> exists_in (<[q := ino]> tr) p = true.
Proof.
  unfold exists_in. rewrite !orb_true_iff, !is_file_lookup, !is_dir_spec.
  intros [[i Hi] | [-> | (r & [i Hr] & Hp & Hne)]].
  - left. destruct (decide (q = p)) as [->|Hne].
    + rewrite lookup_insert_eq. by eexists.
    + rewrite lookup_insert_ne by done. by eexists.
  - right. by left.
  - right. right. exists r. split; [|done].
    destruct (decide (q = r)) as [->|Hqr].
    + rewrite lookup_insert_eq. by eexists.
    + rewrite lookup_insert_ne by done. by eexists.
Qed.

End TreeProofs.

Section HashgenProofs.
Import Py Monad Monad.Notations Pathlib Sql World AtrRevision Draft DraftSpec.
Variable release_name : string -> string -> string.
Variable revision_number : nat -> string.
Variable tmp_dir : string.
Variable sha256_hexdigest : list byte -> string.
Variable sha512_hexdigest : list byte -> string.

Lemma hexdigest_stream ht data :
  ht = "sha256" \/ ht = "sha512" ->
  hexdigest sha256_hexdigest sha512_hexdigest
    (hash_stream (mkHashObj (if String.eqb ht "sha256" then "sha256" else "sha512") [])
                 data)
  = digest_of sha256_hexdigest sha512_hexdigest ht data.
Proof.
  intros [-> | ->]; rewrite hash_stream_fed; reflexivity.
Qed.

(** The block of [hashgen] on an existing source without sidecar. *)
Lemma hashgen_body_ok rel ht creating w1 tr ino data :
  ht = "sha256" \/ ht = "sha512" ->
  interim w1 = Some tr -> tr !! rel = Some ino -> inodes w1 !! ino = Some data ->
  exists_in tr (sidecar rel ht) = false ->
  hashgen_body sha256_hexdigest sha512_hexdigest rel ht creating w1
  = (Ok tt,
     set_interim (Some (<[sidecar rel ht := new_inode w1]> tr))
       (set_inodes
          (<[new_inode w1 :=
               list_byte_of_string
                 (sidecar_line (digest_of sha256_hexdigest sha512_hexdigest ht data)
                               (name rel))]> (inodes w1))
          w1)).
Proof.
  intros Hht Hint Hrel Hdata Hside.
  pose proof (exists_in_false _ _ Hside) as [Hnone Hnodir].
  unfold hashgen_body. fold (sidecar rel ht).
  erewrite bind_ok by (by apply path_exists_run).
  rewrite (exists_in_file tr rel ino Hrel). cbn [negb].
  erewrite bind_ok by (by apply path_exists_run).
  rewrite Hside.
  erewrite bind_ok.
  2:{ unfold open_rb. rewrite (interim_tree_some w1 tr Hint), Hrel, Hdata.
      reflexivity. }
  change (default [] (Some data)) with data.
  rewrite (hexdigest_stream ht data Hht).
  unfold write_text. rewrite (interim_tree_some w1 tr Hint).
  rewrite Hnone, Hnodir, parent_sidecar, (is_dir_parent tr rel ino Hrel).
  reflexivity.
Qed.

(** Leaving a scope normally records the next row and puts the interim
    tree in the release's place. *)
Lemma scope_commits {A} project_name version_name asf_uid description
    (body : Creating -> M World.t A) w old tr a tr' w2 :
  let r := release_name project_name version_name in
  interim w = None -> r ∈ releases w ->
  latest_revision (revisions w) r = Some old -> trees w !! r = Some tr ->
  body (mkCreating (Some old) tmp_dir None)
       (set_trace (trace w ++ [EvScopeEnter r]) (set_interim (Some tr) w))
  = (Ok a, set_interim (Some tr')
             (set_trace (trace w ++ [EvScopeEnter r]) w2)) ->
  interim w2 = None -> trace w2 = trace w -> trees w2 = trees w ->
  revisions w2 = revisions w ->
  let row := next_row revision_number r old description asf_uid in
  create_and_manage release_name revision_number tmp_dir
    project_name version_name asf_uid description body w
  = (Ok (a, mkCreating (Some old) tmp_dir (Some row)), committed r row tr' w2).
Proof.
  intros r Hint Hrel Hold Htr Hbody Hint2 Htrace2 Htrees2 Hrevs2 row.
  unfold create_and_manage. fold r.
  rewrite bool_decide_eq_true_2 by done. cbn [negb].
  rewrite Hold, Htr. cbn [fmap option_fmap option_map default from_option id].
  rewrite Hbody. f_equal.
  unfold committed, interim_tree. destruct w2; simpl in *. subst.
  unfold set_trace, set_interim, set_trees, set_revisions. simpl.
  by rewrite <- app_assoc.
Qed.

End HashgenProofs.

Section HashgenClaim.
Import Py Monad Monad.Notations Pathlib Sql World AtrRevision Draft DraftSpec.



End HashgenClaim.

Section GuardProofs.
Import Py Monad Monad.Notations Pathlib Sql World AtrRevision Draft ScopeSpec DraftSpec.
Variable release_name : string -> string -> string.
Variable revision_number : nat -> string.
Variable tmp_dir : string.
Variable sha256_hexdigest : list byte -> string.
Variable sha512_hexdigest : list byte -> string.

(** The tree that a scope on [release] starts from. *)
Lemma latest_revision_is_Some revisions rname row :
  row ∈ revisions -> Sql.Revision.release_name row = rname ->
  is_Some (latest_revision revisions rname).
Proof.
  intros Hin Hn. destruct (latest_revision revisions rname) as [r|] eqn:H; [by eexists|].
  pose proof (latest_revision_spec revisions rname) as Hs. rewrite H in Hs.
  by destruct (Hs row Hin).
Qed.

(** A block that raises at once, whatever the interim tree, makes the
    scope discard. *)
Lemma scope_raises {A} project_name version_name asf_uid description
    (body : Creating -> M World.t A) w e :
  let r := release_name project_name version_name in
  interim w = None -> r ∈ releases w ->
  (forall creating w1,
      interim w1 = Some (match latest_revision (revisions w) r with
                         | Some _ => default ∅ (trees w !! r)
                         | None => ∅
                         end) ->
      body creating w1 = (Raise e, w1)) ->
  create_and_manage release_name revision_number tmp_dir
    project_name version_name asf_uid description body w
  = (Raise e, discarded r w).
Proof.
  intros r Hint Hrel Hbody. unfold create_and_manage. fold r.
  rewrite bool_decide_eq_true_2 by done. cbn [negb].
  rewrite Hbody by done. f_equal. unfold discarded.
  destruct w; simpl in *. subst. unfold set_trace, set_interim. simpl.
  by rewrite <- app_assoc.
Qed.

(** The block of [hashgen] when the source and its sidecar exist. *)
Lemma hashgen_body_conflict rel ht creating w1 tr :
  interim w1 = Some tr ->
  exists_in tr rel = true -> exists_in tr (sidecar rel ht) = true ->
  hashgen_body sha256_hexdigest sha512_hexdigest rel ht creating w1
  = (Raise (ASFQuartException (ht +:+ " file already exists") 400), w1).
Proof.
  intros Hint Hsrc Hside. unfold hashgen_body. fold (sidecar rel ht).
  erewrite bind_ok by (by apply path_exists_run). rewrite Hsrc. cbn [negb].
  erewrite bind_ok by (by apply path_exists_run). rewrite Hside.
  reflexivity.
Qed.

(** What a normal end of the block of [hashgen] tells. *)
Lemma hashgen_body_inv rel ht creating wa wb tr :
  interim wa = Some tr ->
  hashgen_body sha256_hexdigest sha512_hexdigest rel ht creating wa = (Ok tt, wb) ->
  exists_in tr rel = true
  /\ exists_in tr (sidecar rel ht) = false
  /\ exists content,
       wb = set_interim (Some (<[sidecar rel ht := new_inode wa]> tr))
              (set_inodes (<[new_inode wa := content]> (inodes wa)) wa).
Proof.
  intros Hint H. unfold hashgen_body in H. fold (sidecar rel ht) in H.
  erewrite bind_ok in H by (by apply path_exists_run).
  destruct (exists_in tr rel) eqn:Hsrc; [|done]. cbn [negb] in H.
  erewrite bind_ok in H by (by apply path_exists_run).
  destruct (exists_in tr (sidecar rel ht)) eqn:Hside; [done|].
  split; [done|]. split; [done|].
  unfold bind in H.
  destruct (open_rb rel wa) as [[f|e] wa'] eqn:Hopen; [|done].
  assert (wa' = wa) as ->.
  { unfold open_rb in Hopen.
    destruct (interim_tree wa !! rel); [|destruct (is_dir _ _)]; congruence. }
  apply exists_in_false in Hside as [Hnone Hnodir].
  unfold write_text in H. rewrite (interim_tree_some wa tr Hint) in H.
  rewrite Hnone, Hnodir in H.
  destruct (negb (is_dir tr (parent (sidecar rel ht)))); [done|].
  injection H as <-. eauto.
Qed.

End GuardProofs.

Section GuardClaim.
Import Py Monad Monad.Notations Pathlib Sql World AtrRevision Draft ScopeSpec DraftSpec.

(** C7.  (1) When the source exists and its hash sidecar exists too,
    [hashgen] fails with the conflict error: the scope raises
    [ASFQuartException] with status 400, nothing is written and no
    revision is committed, and the route flashes the error.  (2) When a
    call of [hashgen] has succeeded, the same call made again fails in
    that way, and leaves every file, the sidecar among them, as the first
    call left it. *)
Theorem hashgen_idempotence_guard
    (release_name : string -> string -> string) (revision_number : nat -> string)
    (tmp_dir : string) (sha256_hexdigest sha512_hexdigest : list byte -> string)
    (w : World.t) (session_uid project_name version_name file_path hash_type : string) :
  let rel_path := Path_of_string file_path in
  let r := release_name project_name version_name in
  let conflict := ASFQuartException (hash_type +:+ " file already exists") 400 in
  let call :=
    hashgen release_name revision_number tmp_dir sha256_hexdigest sha512_hexdigest
            session_uid project_name version_name file_path (Some hash_type) in
  let failed (w0 : World.t) :=
    (Ok (Redirect "compose.selected" None None),
     flashed_error ("Error generating hash file: " +:+ str_exn conflict)
                   (discarded r w0)) in
  hash_type = "sha256" \/ hash_type = "sha512" ->
  interim w = None ->
  (forall old tr,
      r ∈ releases w -> latest_revision (revisions w) r = Some old ->
      trees w !! r = Some tr ->
      exists_in tr rel_path = true ->
      exists_in tr (sidecar rel_path hash_type) = true ->
      create_and_manage release_name revision_number tmp_dir
        project_name version_name session_uid "Hash generation through web interface"
        (hashgen_body sha256_hexdigest sha512_hexdigest rel_path hash_type) w
      = (Raise conflict, discarded r w)
      /\ call w = failed w
      /\ untouched w (failed w).2)
  /\ (forall message w1,
        call w = (Ok (Redirect "compose.selected" (Some message) None), w1) ->
        call w1 = failed w1
        /\ untouched w1 (failed w1).2
        /\ exists tr, trees w1 !! r = Some tr
                      /\ is_Some (tr !! sidecar rel_path hash_type)).
Proof.
  intros rel_path r conflict call failed Hht Hint.
  assert (Hvalid : (String.eqb hash_type "sha256" || String.eqb hash_type "sha512") = true).
  { destruct Hht as [-> | ->]; reflexivity. }
  assert (HA : forall w0 old tr,
    interim w0 = None ->
    r ∈ releases w0 -> latest_revision (revisions w0) r = Some old ->
    trees w0 !! r = Some tr ->
    exists_in tr rel_path = true ->
    exists_in tr (sidecar rel_path hash_type) = true ->
    create_and_manage release_name revision_number tmp_dir
      project_name version_name session_uid "Hash generation through web interface"
      (hashgen_body sha256_hexdigest sha512_hexdigest rel_path hash_type) w0
    = (Raise conflict, discarded r w0)
    /\ call w0 = failed w0
    /\ untouched w0 (failed w0).2).
  { intros w0 old tr Hint0 Hrel Hold Htr Hsrc Hside.
    assert (Hscope : create_and_manage release_name revision_number tmp_dir
      project_name version_name session_uid "Hash generation through web interface"
      (hashgen_body sha256_hexdigest sha512_hexdigest rel_path hash_type) w0
      = (Raise conflict, discarded r w0)).
    { apply scope_raises; [done|done|]. intros creating w1 Hw1.
      fold r in Hw1. rewrite Hold, Htr in Hw1. by eapply hashgen_body_conflict. }
    split; [done|]. split.
    - unfold call, hashgen. rewrite Hvalid.
      unfold try_except. erewrite bind_raise; [reflexivity|]. exact Hscope.
    - unfold failed. cbn [snd]. apply flashed_untouched.
      apply (discarded_untouched r); [done|by right]. }
  split; [intros old tr; by apply HA|].
  intros message w1 Hcall.
  unfold call, hashgen in Hcall. rewrite Hvalid in Hcall.
  unfold try_except, bind in Hcall. fold rel_path in Hcall.
  unfold Draft.scope in Hcall.
  destruct (create_and_manage _ _ _ _ _ _ _ _ w) as [[[[] creating]|e] ws] eqn:Hscope;
    [|done].
  injection Hcall as _ <-.
  unfold create_and_manage in Hscope. fold r in Hscope.
  destruct (bool_decide (r ∈ releases w)) eqn:Hrel; [|done].
  apply bool_decide_eq_true in Hrel. cbn [negb] in Hscope.
  match type of Hscope with
  | context [hashgen_body _ _ _ _ ?c ?wa] =>
      destruct (hashgen_body sha256_hexdigest sha512_hexdigest rel_path hash_type c wa)
        as [[[]|e] wb] eqn:Hbody; [|done]
  end.
  eapply hashgen_body_inv in Hbody; [|reflexivity].
  destruct Hbody as (Hsrc & Hside & content & ->).
  injection Hscope as _ <-.
  match goal with
  | |- context [set_interim (Some (<[_ := ?i]> ?t))] => set (ino' := i); set (tr := t)
  end.
  set (ws := set_trace _ _).
  assert (Hws : interim ws = None /\ releases ws = releases w
                /\ trees ws !! r = Some (<[sidecar rel_path hash_type := ino']> tr)
                /\ exists row, row ∈ revisions ws /\ Sql.Revision.release_name row = r).
  { subst ws. cbn. split; [done|]. split; [done|]. split.
    - unfold interim_tree. cbn. by rewrite lookup_insert_eq.
    - eexists. split; [apply elem_of_app; right; apply list_elem_of_here|done]. }
  destruct Hws as (Hint' & Hrels' & Htr' & row & Hrow & Hrn).
  destruct (latest_revision_is_Some _ _ _ Hrow Hrn) as [old' Hold'].
  destruct (HA ws old' _ Hint' ltac:(by rewrite Hrels') Hold' Htr') as (_ & H1 & H2).
  - by apply exists_in_insert.
  - eapply exists_in_file. apply lookup_insert_eq.
  - split; [done|]. split; [done|]. eexists. split; [exact Htr'|].
    rewrite lookup_insert_eq. by eexists.
Qed.

Lemma hashgen_idempotence_guard_witness :
  DraftExample.hashgen "alice" "proj" "1.0" "b.txt" (Some "sha256")
    DraftExample.world_hashed
  = (Ok (Redirect "compose.selected" None None),
     flashed_error "Error generating hash file: sha256 file already exists"
       (discarded "proj-1.0" DraftExample.world_hashed))
  /\ DraftExample.hashgen "alice" "proj" "1.0" "b.txt" (Some "sha256")
       (DraftExample.hashgen "alice" "proj" "1.0" "b.txt" (Some "sha256")
          DraftExample.world).2
     = (Ok (Redirect "compose.selected" None None),
        flashed_error "Error generating hash file: sha256 file already exists"
          (discarded "proj-1.0"
             (DraftExample.hashgen "alice" "proj" "1.0" "b.txt" (Some "sha256")
                DraftExample.world).2)).
Proof.
  split.
  - apply (proj1 (hashgen_idempotence_guard DraftExample.release_name
             DraftExample.revision_number "/tmp/interim"
             DraftExample.sha256_hexdigest DraftExample.sha512_hexdigest
             DraftExample.world_hashed "alice" "proj" "1.0" "b.txt" "sha256"
             (or_introl eq_refl) eq_refl)
             DraftExample.first_row DraftExample.tree_hashed).
    + apply list_elem_of_here.
    + reflexivity.
    + apply lookup_singleton_eq.
    + vm_compute. reflexivity.
    + vm_compute. reflexivity.
  - apply (proj2 (hashgen_idempotence_guard DraftExample.release_name
             DraftExample.revision_number "/tmp/interim"
             DraftExample.sha256_hexdigest DraftExample.sha512_hexdigest
             DraftExample.world "alice" "proj" "1.0" "b.txt" "sha256"
             (or_introl eq_refl) eq_refl)
             "sha256 file generated successfully").
    rewrite (surjective_pairing
               (Draft.hashgen _ _ _ _ _ _ _ _ _ _ DraftExample.world)) at 1.
    f_equal.
Defined.

End GuardClaim.

Section DeleteFileProofs.
Import Py Monad Monad.Notations Pathlib Sql World AtrRevision Draft.
Import ScopeSpec DraftSpec DeleteFileSpec.




Lemma remove_run p w tr ino :
  interim w = Some tr -> tr !! p = Some ino ->
  remove p w = (Ok tt, set_interim (Some (delete p tr)) w).
Proof.
  intros Hint Hp. unfold remove. rewrite (interim_tree_some w tr Hint).
  unfold is_file. rewrite bool_decide_eq_true_2; [done|]. by eexists.
Qed.




Section Body.
Variable is_artifact : Path -> bool.


Lemma delete_file_body_plain rel creating w tr ino :
  interim w = Some tr -> tr !! rel = Some ino -> is_artifact rel = false ->
  delete_file_body is_artifact rel creating w
  = (Ok 0, set_interim (Some (delete rel tr)) w).
Proof.
  intros Hint Hrel Hart. unfold delete_file_body.
  erewrite bind_ok by (by apply path_exists_run).
  rewrite (exists_in_file tr rel ino Hrel), Hart. cbn [negb].
  erewrite bind_ok by reflexivity.
  erewrite bind_ok by (by eapply remove_run). reflexivity.
Qed.


End Body.
End DeleteFileProofs.

Section DeleteFileClaim.
Import Py Monad Monad.Notations Pathlib Sql World AtrRevision Draft.
Import ScopeSpec DraftSpec DeleteFileSpec.


(** Below the top of the tree the sweep looks for the files it found in
    the directory of the archive at the top of the tree: deleting
    [sub/a.tar.gz] next to [sub/a.tar.gz.asc] fails on the missing
    [a.tar.gz.asc], the error is flashed, and no revision is committed. *)
Lemma delete_file_nested_archive_aborts :
  let r := DraftExample.delete_file "alice" "proj" "1.0" (Some "sub/a.tar.gz")
             DeleteFileExample.world_nested in
  r.1 = Ok (Redirect "compose.selected" None None)
  /\ snd <$> flashes r.2 = ["error"]
  /\ revisions r.2 = revisions DeleteFileExample.world_nested
  /\ interim r.2 = None
  /\ (trees r.2 !! "proj-1.0") ≫= (fun tr => tr !! ["sub"; "a.tar.gz"]) = Some 1
  /\ (trees r.2 !! "proj-1.0") ≫= (fun tr => tr !! ["sub"; "a.tar.gz.asc"]) = Some 2.
Proof. repeat split; by vm_compute. Qed.



End DeleteFileClaim.


Section SbomProofs.
Import Py Monad Monad.Notations Pathlib Sql World AtrRevision Draft.
Import ScopeSpec DraftSpec SbomSpec.









End SbomProofs.

Section SbomClaim.
Import Py Monad Monad.Notations Pathlib Sql World AtrRevision Draft.
Import ScopeSpec DraftSpec SbomSpec.




End SbomClaim.

(* ===================================================================== *)
(** ** Further properties of the four modules                            *)
(* ===================================================================== *)

Section TargzMoreProofs.
Import Py Sql Targz TargzSpec.

Lemma elem_of_kept n names : n ∈ kept names <-> n ∈ names /\ skipped n = false.
Proof.
  unfold kept. rewrite !list_elem_of_In, List.filter_In, negb_true_iff. tauto.
Qed.

(** A loop that ends normally has met no unreadable part. *)
Lemma loop_ok_members tf : forall root root',
  root_directory_loop root tf = Ok root' ->
  exists names, tf = Member <$> names.
Proof.
  induction tf as [|ev tf IH]; intros root root' H.
  - by exists [].
  - destruct ev as [n|msg]; [|discriminate].
    assert (Hrest : exists root1 , root_directory_loop root1 tf = Ok root').
    { destruct (skipped n) eqn:Hs.
      - rewrite loop_skipped in H by done. eauto.
      - rewrite loop_kept in H by done.
        destruct (negb (truthy_opt root)); [eauto|].
        destruct (negb (bool_decide _)); [done|eauto]. }
    destruct Hrest as [root1 Hrest]. apply IH in Hrest as [names ->].
    by exists (n :: names).
Qed.

(** The root the loop ends with is the one it started from or the first
    component of a member that counts. *)
Lemma loop_ok_origin names : forall root root',
  root_directory_loop root (Member <$> names) = Ok root' ->
  root' = root \/ exists n, n ∈ kept names /\ root' = Some (top_entry n).
Proof.
  induction names as [|n names IH]; intros root root' H; rewrite ?fmap_cons in H.
  - simpl in H. left. congruence.
  - destruct (skipped n) eqn:Hs.
    + rewrite loop_skipped in H by done. rewrite kept_skipped by done. eauto.
    + rewrite loop_kept in H by done. rewrite kept_kept by done.
      destruct (negb (truthy_opt root)).
      * apply IH in H as [-> | (m & Hm & ->)].
        -- right. exists n. split; [left|done].
        -- right. exists m. split; [by right|done].
      * destruct (negb (bool_decide _)); [done|].
        apply IH in H as [-> | (m & Hm & ->)]; [by left|].
        right. exists m. split; [by right|done].
Qed.

(** The loop started with a set root goes through the members that sit
    below it, whatever their order. *)
Lemma loop_all_below r names : r <> EmptyString ->
  (forall n, n ∈ kept names -> top_entry n = r) ->
  root_directory_loop (Some r) (Member <$> names) = Ok (Some r).
Proof.
  intros Hr Hall.
  rewrite (loop_single_root r names Hr Hall (Some r)) by auto.
  by destruct (kept names).
Qed.

Lemma root_directory_ok_inv tf r :
  root_directory tf = Ok r ->
  r <> EmptyString /\ root_directory_loop None tf = Ok (Some r).
Proof.
  unfold root_directory. intros H.
  destruct (root_directory_loop None tf) as [root'|e]; [|done].
  destruct root' as [s|]; cbn [truthy_opt negb] in H; [|done].
  destruct (truthy s) eqn:Ht; cbn [negb] in H; [|done].
  injection H as <-. split; [by apply truthy_spec|done].
Qed.

Lemma root_directory_of_loop tf r :
  r <> EmptyString -> root_directory_loop None tf = Ok (Some r) ->
  root_directory tf = Ok r.
Proof.
  intros Hr H. unfold root_directory. rewrite H. cbn [truthy_opt].
  apply truthy_spec in Hr. by rewrite Hr.
Qed.

(** Appending a member at the end of a loop that ends normally. *)
Lemma loop_snoc names n : forall root root',
  root_directory_loop root (Member <$> names) = Ok root' ->
  root_directory_loop root (Member <$> (names ++ [n]))
  = root_directory_loop root' [Member n].
Proof.
  induction names as [|m names IH]; intros root root' H.
  - simpl in H. by injection H as <-.
  - change ((m :: names) ++ [n]) with (m :: (names ++ [n])).
    rewrite !fmap_cons in *.
    destruct (skipped m) eqn:Hs.
    + rewrite loop_skipped in * by done. eauto.
    + rewrite loop_kept in * by done.
      destruct (negb (truthy_opt root)); [eauto|].
      destruct (negb (bool_decide _)); [done|eauto].
Qed.

Lemma Member_fmap_inj (l1 l2 : list string) :
  Member <$> l1 = Member <$> l2 -> l1 = l2.
Proof.
  revert l2. induction l1 as [|x l1 IH]; intros [|y l2] H; try done.
  rewrite !fmap_cons in H. injection H as -> H. f_equal. by apply IH.
Qed.

(** Two roots that are both unset or empty are the same start. *)
Lemma loop_falsy_start tf : forall root1 root2 root',
  truthy_opt root1 = false -> truthy_opt root2 = false ->
  truthy_opt root' = true ->
  root_directory_loop root1 tf = Ok root' ->
  root_directory_loop root2 tf = Ok root'.
Proof.
  induction tf as [|ev tf IH]; intros root1 root2 root' H1 H2 H' H.
  - simpl in H. injection H as <-. congruence.
  - destruct ev as [n|msg]; [|discriminate].
    destruct (skipped n) eqn:Hs.
    + rewrite loop_skipped in * by done. eauto.
    + rewrite loop_kept in * by done. by rewrite H1 in H; rewrite H2.
Qed.

(** A loop that raises met a conflict, or an unreadable part after
    members that it went through. *)
Lemma loop_raise_inv tf : forall root e,
  root_directory_loop root tf = Raise e ->
  is_RootDirectoryError e = true
  \/ exists names msg rest root',
       tf = (Member <$> names) ++ Unreadable msg :: rest
       /\ root_directory_loop root (Member <$> names) = Ok root'
       /\ e = TarError msg.
Proof.
  induction tf as [|ev tf IH]; intros root e H.
  - discriminate.
  - destruct ev as [n|msg].
    + assert (Hcons : forall root1,
                root_directory_loop root (Member n :: tf) = root_directory_loop root1 tf ->
                (forall tf', root_directory_loop root (Member n :: tf')
                             = root_directory_loop root1 tf') ->
                is_RootDirectoryError e = true
                \/ exists names msg rest root',
                     Member n :: tf = (Member <$> names) ++ Unreadable msg :: rest
                     /\ root_directory_loop root (Member <$> names) = Ok root'
                     /\ e = TarError msg).
      { intros root1 Heq Hall. rewrite Heq in H.
        apply IH in H as [H | (names & msg & rest & root' & -> & Hok & ->)]; [by left|].
        right. exists (n :: names), msg, rest, root'.
        split; [done|]. split; [|done]. rewrite fmap_cons, Hall. done. }
      destruct (skipped n) eqn:Hs.
      * apply (Hcons root); [by rewrite loop_skipped|].
        intros tf'. by rewrite loop_skipped.
      * destruct (negb (truthy_opt root)) eqn:Ht.
        -- apply (Hcons (Some (top_entry n))); [by rewrite loop_kept, Ht|].
           intros tf'. by rewrite loop_kept, Ht.
        -- destruct (negb (bool_decide (Some (top_entry n) = root))) eqn:Hd.
           ++ rewrite loop_kept, Ht, Hd in H by done. injection H as <-. by left.
           ++ apply (Hcons root); [by rewrite loop_kept, Ht, Hd|].
              intros tf'. by rewrite loop_kept, Ht, Hd.
    + right. exists [], msg, tf, root. simpl in H. injection H as <-. done.
Qed.

End TargzMoreProofs.

Section TargzMore.
Import Py Sql Targz TargzSpec.

(** X1.  Whenever [root_directory] returns, the whole
    archive was readable, the root it returns is not empty and is the
    first path component of a member that counts, and every member that
    counts and has a non-empty first component sits below it. *)
Theorem root_directory_sound (tf : list TarEvent) (r : string) :
  root_directory tf = Ok r ->
  r <> EmptyString
  /\ exists names,
       tf = Member <$> names
       /\ (exists n, n ∈ kept names /\ top_entry n = r)
       /\ (forall n, n ∈ kept names -> top_entry n <> EmptyString -> top_entry n = r).
Proof.
  intros H. apply root_directory_ok_inv in H as [Hr H]. split; [done|].
  destruct (loop_ok_members _ _ _ H) as [names ->]. exists names.
  split; [done|]. split.
  - apply loop_ok_origin in H as [H | (n & Hn & H)]; [done|].
    exists n. split; [done|congruence].
  - intros n Hn Hne. apply loop_ok_tops in H as [_ H].
    specialize (H n Hn Hne). congruence.
Qed.

Lemma root_directory_sound_witness :
  "a" <> EmptyString
  /\ exists names,
       [Member "a/x"; Member "a/._y"; Member "a/z"] = Member <$> names
       /\ (exists n, n ∈ kept names /\ top_entry n = "a")
       /\ (forall n, n ∈ kept names -> top_entry n <> EmptyString -> top_entry n = "a").
Proof.
  apply (root_directory_sound [Member "a/x"; Member "a/._y"; Member "a/z"] "a").
  reflexivity.
Defined.

(** X2.  For an archive in which every member that
    counts has a non-empty first component, the root that [root_directory]
    returns does not depend on the order of the members. *)
Theorem root_directory_order (names names' : list string) (r : string) :
  names ≡ₚ names' ->
  (forall n, n ∈ kept names -> top_entry n <> EmptyString) ->
  root_directory (Member <$> names) = Ok r ->
  root_directory (Member <$> names') = Ok r.
Proof.
  intros Hp Hne H.
  destruct (root_directory_sound _ _ H) as (Hr & names0 & Heq & (n & Hn & Hnr) & Hall).
  apply Member_fmap_inj in Heq. subst names0.
  assert (Hk : forall m, m ∈ kept names' <-> m ∈ kept names).
  { intros m. rewrite !elem_of_kept. by rewrite Hp. }
  apply root_directory_of_loop; [done|].
  rewrite (loop_single_root r names' Hr) with (root := None); [| |by left].
  - destruct (kept names') as [|x l]; [|done].
    apply (proj2 (Hk n)) in Hn. by apply elem_of_nil in Hn.
  - intros m Hm. apply (proj1 (Hk m)) in Hm. apply Hall; [done|]. by apply Hne.
Qed.

Lemma root_directory_order_witness :
  root_directory (Member <$> ["a/z"; "a/._y"; "a/x"]) = Ok "a".
Proof.
  apply (root_directory_order ["a/x"; "a/._y"; "a/z"]).
  - apply (bool_decide_unpack _). by vm_compute.
  - intros n Hn. apply elem_of_kept in Hn as [Hn _].
    repeat (apply elem_of_cons in Hn as [-> | Hn]; [by vm_compute|]).
    by apply elem_of_nil in Hn.
  - reflexivity.
Defined.

(** X3.  A member that counts and has an
    empty first component (an empty name, or a name that starts with a
    slash) is passed over when it comes before every other member, and
    makes [root_directory] raise when it comes after the root was found:
    here the order of the members matters. *)
Theorem root_directory_empty_component (names : list string) (n r : string) :
  skipped n = false -> top_entry n = EmptyString ->
  root_directory (Member <$> names) = Ok r ->
  root_directory (Member <$> (n :: names)) = Ok r
  /\ root_directory (Member <$> (names ++ [n]))
     = Raise (RootDirectoryError ("Multiple root directories found: " +:+ r +:+ ", ")).
Proof.
  intros Hs Ht H. apply root_directory_ok_inv in H as [Hr H].
  assert (Htr : truthy r = true) by by apply truthy_spec.
  split.
  - apply root_directory_of_loop; [done|].
    rewrite fmap_cons, loop_kept by done. cbn [truthy_opt negb].
    apply (loop_falsy_start _ None); try done. by rewrite Ht.
  - unfold root_directory. rewrite (loop_snoc _ _ _ _ H).
    rewrite loop_kept by done. cbn [truthy_opt default]. rewrite Htr. cbn [negb].
    rewrite bool_decide_eq_false_2 by (rewrite Ht; congruence).
    cbn [negb]. by rewrite Ht.
Qed.

Lemma root_directory_empty_component_witness :
  root_directory (Member <$> ["/etc/x"; "a/b"]) = Ok "a"
  /\ root_directory (Member <$> (["a/b"] ++ ["/etc/x"]))
     = Raise (RootDirectoryError "Multiple root directories found: a, ").
Proof.
  apply (root_directory_empty_component ["a/b"] "/etc/x" "a"); reflexivity.
Defined.

(** X4.  [structure] records nothing when the recorder
    has no path or the path is binary, and exactly one result otherwise.
    The result is SUCCESS exactly when [root_directory] returns the name
    expected from the file name, and FAILURE exactly when the archive
    becomes unreadable after members that do not conflict: a conflict
    met before the unreadable part gives WARNING. *)
Theorem structure_outcomes (abs_name : option string) (is_binary : bool)
    (tf : list TarEvent) :
  length (structure abs_name is_binary tf)
  = (if bool_decide (is_Some abs_name) && negb is_binary then 1 else 0)
  /\ (SUCCESS ∈ statuses (structure abs_name is_binary tf) <->
      exists filename, abs_name = Some filename /\ is_binary = false
                       /\ root_directory tf = Ok (expected_root filename))
  /\ (FAILURE ∈ statuses (structure abs_name is_binary tf) <->
      is_Some abs_name /\ is_binary = false
      /\ exists names msg rest root',
           tf = (Member <$> names) ++ Unreadable msg :: rest
           /\ root_directory_loop None (Member <$> names) = Ok root').
Proof.
  unfold structure, statuses.
  destruct abs_name as [filename|].
  2:{ split; [done|]. split; (split; [by intros ?%elem_of_nil|]).
      - by intros (f & ? & _).
      - by intros [[? ?] _]. }
  destruct is_binary.
  { split; [done|]. split; (split; [by intros ?%elem_of_nil|]).
    - by intros (f & _ & ? & _).
    - by intros (_ & ? & _). }
  destruct (root_directory tf) as [root|e] eqn:Hroot.
  - destruct (String.eqb_spec root (expected_root filename)) as [->|Hne].
    + split; [done|]. split.
      * split; [intros _; by exists filename|]. intros _. apply list_elem_of_here.
      * split; [by intros [=]%list_elem_of_singleton|].
        intros (_ & _ & names & msg & rest & root' & -> & Hok).
        unfold root_directory in Hroot.
        by rewrite (loop_app_unreadable _ msg rest _ _ Hok) in Hroot.
    + split; [done|]. split.
      * split; [by intros [=]%list_elem_of_singleton|].
        intros (f & [= <-] & _ & [= ?]). done.
      * split; [by intros [=]%list_elem_of_singleton|].
        intros (_ & _ & names & msg & rest & root' & -> & Hok).
        unfold root_directory in Hroot.
        by rewrite (loop_app_unreadable _ msg rest _ _ Hok) in Hroot.
  - assert (Hloop : root_directory_loop None tf = Raise e
                    \/ e = RootDirectoryError "No root directory found in archive").
    { unfold root_directory in Hroot.
      destruct (root_directory_loop None tf) as [root'|e']; [|left; congruence].
      destruct (negb (truthy_opt root')); [right; congruence|done]. }
    destruct (is_RootDirectoryError e) eqn:Hkind.
    + split; [done|]. split.
      * split; [by intros [=]%list_elem_of_singleton|].
        by intros (f & _ & _ & ?).
      * split; [by intros [=]%list_elem_of_singleton|].
        intros (_ & _ & names & msg & rest & root' & -> & Hok).
        unfold root_directory in Hroot.
        rewrite (loop_app_unreadable _ msg rest _ _ Hok) in Hroot.
        injection Hroot as <-. done.
    + split; [done|]. split.
      * split; [by intros [=]%list_elem_of_singleton|].
        by intros (f & _ & _ & ?).
      * split; [|intros _; apply list_elem_of_here].
        intros _. split; [done|]. split; [done|].
        destruct Hloop as [Hloop | ->]; [|done].
        apply loop_raise_inv in Hloop as [? | (names & msg & rest & root' & -> & Hok & _)];
          [congruence|].
        by exists names, msg, rest, root'.
Qed.

End TargzMore.

Section ResultsProofs.
Import Py Pathlib Sql Interaction InteractionChecks ResultsSpec.

Lemma collect_lookup rows : forall d k,
  collect rows d !! k
  = match List.filter
            (fun r =>
               truthy_opt (CheckResult.primary_rel_path r)
               && bool_decide (Path_of_string
                                 (default EmptyString (CheckResult.primary_rel_path r)) = k))
            rows
    with
    | [] => d !! k
    | l => Some (default [] (d !! k) ++ l)
    end.
Proof.
  unfold collect.
  induction rows as [|r rows IH]; intros d k; [done|].
  cbn [foldl List.filter]. rewrite IH.
  destruct (truthy_opt (CheckResult.primary_rel_path r)) eqn:Ht; cbn [andb]; [|done].
  set (key := Path_of_string (default EmptyString (CheckResult.primary_rel_path r))).
  destruct (decide (key = k)) as [->|Hne].
  - rewrite bool_decide_eq_true_2 by done.
    rewrite lookup_insert_eq. cbn [from_option id].
    destruct (List.filter _ rows); [done|].
    by rewrite <- app_assoc.
  - rewrite bool_decide_eq_false_2 by done.
    by rewrite lookup_insert_ne.
Qed.

Lemma collect_empty rows k :
  collect rows ∅ !! k
  = entry (List.filter
             (fun r =>
                truthy_opt (CheckResult.primary_rel_path r)
                && bool_decide (Path_of_string
                                  (default EmptyString (CheckResult.primary_rel_path r)) = k))
             rows).
Proof.
  rewrite collect_lookup, lookup_empty. by destruct (List.filter _ rows).
Qed.

Section Classify.
Variable extension_search : string -> option Match.

Lemma foldl_classify_results paths : forall info,
  successes (foldl (classify extension_search) info paths) = successes info
  /\ warnings (foldl (classify extension_search) info paths) = warnings info
  /\ errors (foldl (classify extension_search) info paths) = errors info.
Proof.
  induction paths as [|p paths IH]; intros info; [done|].
  cbn [foldl]. destruct (IH (classify extension_search info p)) as (-> & -> & ->).
  unfold classify. destruct (extension_search (str p)) as [m|]; [|done].
  destruct (truthy_opt (group_artifact m)); [done|].
  by destruct (truthy_opt (group_metadata m)).
Qed.

End Classify.

Lemma entry_nonempty {A} (l : list A) : entry l <> None <-> l <> [].
Proof. by destruct l. Qed.

Lemma has_failing_checks_spec rows release n :
  has_failing_checks rows release n = true
  <-> exists r, r ∈ rows
                /\ CheckResult.release_name r = Release.name release
                /\ CheckResult.revision_number r = n
                /\ CheckResult.status r = FAILURE.
Proof.
  unfold has_failing_checks. rewrite Nat.ltb_lt. split.
  - intros H.
    destruct (List.filter _ rows) as [|r l] eqn:Hf; [simpl in H; lia|].
    assert (Hin : In r (List.filter
      (fun r => String.eqb (CheckResult.release_name r) (Release.name release)
                && String.eqb (CheckResult.revision_number r) n
                && bool_decide (CheckResult.status r = FAILURE)) rows))
      by (rewrite Hf; by left).
    apply filter_In in Hin as [Hin Hb].
    apply andb_true_iff in Hb as [Hb H3]. apply andb_true_iff in Hb as [H1 H2].
    exists r. split; [by apply list_elem_of_In|].
    apply String.eqb_eq in H1, H2. apply bool_decide_eq_true_1 in H3. done.
  - intros (r & Hin & H1 & H2 & H3).
    assert (Hf : In r (List.filter
      (fun r => String.eqb (CheckResult.release_name r) (Release.name release)
                && String.eqb (CheckResult.revision_number r) n
                && bool_decide (CheckResult.status r = FAILURE)) rows)).
    { apply filter_In. split; [by apply list_elem_of_In|].
      rewrite H1, H2, !String.eqb_refl. cbn [andb]. by apply bool_decide_eq_true_2. }
    destruct (List.filter _ rows); [done|simpl; lia].
Qed.

End ResultsProofs.

Section ResultsMore.
Import Py Pathlib Sql Interaction InteractionChecks ResultsSpec.

(** X5.  In the [PathInfo] that [path_info] returns, the
    successes, warnings and errors under a path are the check results of
    the release at its latest revision that are about the whole file of
    that path and have the status, in the order of the rows; a path
    without such a result is no key of the dict. *)
Theorem path_info_results (extension_search : string -> option Match)
    (rows : list CheckResult.t) (release : Release.t) (paths : list Path)
    (n : string) (info : PathInfo) :
  Release.latest_revision_number release = Some n ->
  path_info extension_search rows release paths = Some info ->
  forall k,
    successes info !! k = entry (filed rows release n SUCCESS k)
    /\ warnings info !! k = entry (filed rows release n WARNING k)
    /\ errors info !! k = entry (filed rows release n FAILURE k).
Proof.
  intros Hn. unfold path_info. rewrite Hn. intros [= <-] k.
  destruct (foldl_classify_results extension_search paths
              (_successes_errors_warnings rows release n (mkPathInfo ∅ ∅ ∅ ∅ ∅)))
    as (-> & -> & ->).
  unfold _successes_errors_warnings, filed. cbn [successes warnings errors].
  by rewrite !collect_empty.
Qed.

Lemma path_info_results_witness :
  match path_info ResultsExample.no_search ResultsExample.rows
                  ResultsExample.release []
  with
  | Some info =>
      (CheckResult.message <$> default [] (errors info !! ["a.tar.gz"]))
      = ["bad signature"; "bad hash"]
      /\ warnings info !! ["a.tar.gz"] = None
  | None => False
  end.
Proof.
  pose proof (path_info_results ResultsExample.no_search ResultsExample.rows
                ResultsExample.release [] "00002") as H.
  destruct (path_info _ _ _ _) as [info|] eqn:Hrun; [|by vm_compute in Hrun].
  destruct (H info eq_refl eq_refl ["a.tar.gz"]) as (_ & -> & ->).
  split; reflexivity.
Defined.

(** X6.  [has_failing_checks] at the latest
    revision holds exactly when [path_info] has an error to show or the
    release has, at that revision, a FAILURE result that [path_info] does
    not file: one about a member of an archive, or one that names no
    file. *)
Theorem failing_checks_and_errors (extension_search : string -> option Match)
    (rows : list CheckResult.t) (release : Release.t) (paths : list Path)
    (n : string) (info : PathInfo) :
  Release.latest_revision_number release = Some n ->
  path_info extension_search rows release paths = Some info ->
  has_failing_checks rows release n = true
  <-> errors info <> ∅ \/ exists r, r ∈ rows /\ unfiled_failure release n r.
Proof.
  intros Hn Hinfo. rewrite has_failing_checks_spec.
  pose proof (path_info_results _ _ _ _ _ _ Hn Hinfo) as Hres.
  assert (Hfiled : forall r k, r ∈ filed rows release n FAILURE k <->
            r ∈ rows /\ CheckResult.release_name r = Release.name release
            /\ CheckResult.revision_number r = n
            /\ CheckResult.member_rel_path r = None
            /\ CheckResult.status r = FAILURE
            /\ truthy_opt (CheckResult.primary_rel_path r) = true
            /\ Path_of_string (default EmptyString (CheckResult.primary_rel_path r)) = k).
  { intros r k. unfold filed, check_result_query.
    rewrite list_elem_of_In, !filter_In, <- list_elem_of_In.
    rewrite !andb_true_iff, !String.eqb_eq, !bool_decide_eq_true. tauto. }
  split.
  - intros (r & Hin & H1 & H2 & H3).
    destruct (decide (CheckResult.member_rel_path r = None)) as [Hm|Hm];
      [|right; exists r; split; [done|]; unfold unfiled_failure; tauto].
    destruct (truthy_opt (CheckResult.primary_rel_path r)) eqn:Ht;
      [|right; exists r; split; [done|]; unfold unfiled_failure; tauto].
    left. intros Hempty.
    set (k := Path_of_string (default EmptyString (CheckResult.primary_rel_path r))).
    destruct (Hres k) as (_ & _ & He). rewrite Hempty, lookup_empty in He.
    assert (Hr : r ∈ filed rows release n FAILURE k) by (apply Hfiled; tauto).
    destruct (filed rows release n FAILURE k); [by apply elem_of_nil in Hr|done].
  - intros [Hne | (r & Hin & H1 & H2 & H3 & _)]; [|by exists r].
    apply map_choose in Hne as (k & l & Hk).
    destruct (Hres k) as (_ & _ & He). rewrite Hk in He.
    destruct (filed rows release n FAILURE k) as [|r l'] eqn:Hf; [done|].
    assert (Hr : r ∈ filed rows release n FAILURE k) by (rewrite Hf; left).
    apply Hfiled in Hr. exists r. tauto.
Qed.

Lemma failing_checks_and_errors_witness :
  has_failing_checks ResultsExample.rows ResultsExample.release "00002" = true
  <-> match path_info ResultsExample.no_search ResultsExample.rows
                      ResultsExample.release []
      with
      | Some info =>
          errors info <> ∅
          \/ exists r, r ∈ ResultsExample.rows
                       /\ unfiled_failure ResultsExample.release "00002" r
      | None => False
      end.
Proof.
  pose proof (failing_checks_and_errors ResultsExample.no_search ResultsExample.rows
                ResultsExample.release [] "00002") as H.
  destruct (path_info _ _ _ _) as [info|] eqn:Hrun; [|by vm_compute in Hrun].
  exact (H info eq_refl eq_refl).
Defined.

End ResultsMore.

Section DeleteMoreProofs.
Import Py Monad Monad.Notations Pathlib Sql Interaction DeleteSpec DeleteMoreSpec.
Variable release_directory_base : Release.t -> Path.
Variable release_directory : Release.t -> Path.

Lemma release_query_none rows release_name phase :
  release_query rows release_name phase = None
  <-> forall r, r ∈ rows -> Release.name r = release_name -> ~ in_phase phase r.
Proof.
  unfold release_query. split.
  - intros H r Hin Hname Hph.
    apply list_elem_of_In in Hin. apply (find_none _ _ H r) in Hin as Hb.
    apply andb_false_iff in Hb as [Hb | Hb].
    + apply String.eqb_neq in Hb. done.
    + destruct phase as [ph|]; [|done]. apply bool_decide_eq_false_1 in Hb. done.
  - intros H.
    destruct (find _ rows) as [r|] eqn:Hf; [|done].
    apply find_some in Hf as [Hin Hb]. apply andb_true_iff in Hb as [Hn Hp].
    apply String.eqb_eq in Hn. exfalso. apply (H r); [by apply list_elem_of_In|done|].
    destruct phase as [ph|]; [|done]. by apply bool_decide_eq_true_1 in Hp.
Qed.


Lemma isdir_false w d : ~ on_disk w d -> isdir d w = (Ok false, w).
Proof.
  intros Hd. unfold isdir, gets.
  rewrite bool_decide_eq_false_2; [done|]. intros (q & Hq & Hp). apply Hd.
  exists q. tauto.
Qed.

Lemma on_disk_dec w d : on_disk w d \/ ~ on_disk w d.
Proof.
  destruct (decide (set_Exists (fun q => d `prefix_of` q ∧ d ≠ q) (dom (files w))))
    as [H|H].
  - left. destruct H as (q & Hq & Hp). exists q. tauto.
  - right. intros (q & Hq & Hp). apply H. exists q. tauto.
Qed.

(** The downloads step leaves the entries of the mirror whose inode is
    not that of a file of the release, and touches nothing else. *)
Lemma delete_downloads_run release w :
  exists dl,
    _delete_release_data_downloads release_directory release w
    = (Ok tt, set_downloads dl w)
    /\ forall p i, dl !! p = Some i
                   <-> downloads w !! p = Some i
                       /\ ~ linked_from w (release_directory release) i.
Proof.
  set (d := release_directory release).
  unfold _delete_release_data_downloads, bind. fold d.
  destruct (on_disk_dec w d) as [Hd|Hd].
  - rewrite (isdir_true w d Hd). unfold gets at 1.
    set (release_inodes := list_to_set _ : gset nat).
    assert (Hin : forall i, i ∈ release_inodes <-> linked_from w d i).
    { intros i. subst release_inodes. rewrite elem_of_list_to_set, list_elem_of_fmap.
      split.
      - intros ([q j] & -> & Hq). apply list_elem_of_In, filter_In in Hq as [Hq Hb].
        apply list_elem_of_In, elem_of_map_to_list in Hq.
        apply bool_decide_eq_true_1 in Hb as [Hp Hne]. by exists q.
      - intros (q & Hp & Hne & Hq). exists (q, i). split; [done|].
        apply list_elem_of_In, filter_In. split.
        + by apply list_elem_of_In, elem_of_map_to_list.
        + by apply bool_decide_eq_true_2. }
    destruct (decide (release_inodes = ∅)) as [He|Hne].
    + exfalso. destruct Hd as (q & Hq & Hp & Hne).
      apply elem_of_dom in Hq as [i Hi].
      assert (Hi' : i ∈ release_inodes) by (apply Hin; by exists q).
      rewrite He in Hi'. by apply elem_of_empty in Hi'.
    + rewrite bool_decide_eq_true_2 by done. unfold modify.
      eexists. split; [reflexivity|]. intros p i.
      rewrite map_lookup_filter_Some. cbn [snd]. by rewrite Hin.
  - rewrite (isdir_false w d Hd). unfold ret.
    exists (downloads w). split; [by destruct w|]. intros p i.
    split; [|tauto]. intros H. split; [done|].
    intros (q & Hp & Hne & Hq). apply Hd. exists q.
    split; [|done]. apply elem_of_dom. eauto.
Qed.

(** A removal that succeeds leaves no file below the directory and every
    file that is not below it. *)
Lemma delete_filesystem_ok w d release_name :
  rmtree_fault w d = None ->
  exists fl,
    _delete_release_data_filesystem d release_name w = (Ok tt, set_files fl w)
    /\ (forall q, d `prefix_of` q -> d <> q -> fl !! q = None)
    /\ (forall q, ~ d `prefix_of` q -> fl !! q = files w !! q).
Proof.
  intros Hf. unfold _delete_release_data_filesystem, try_except, bind.
  destruct (on_disk_dec w d) as [Hd|Hd].
  - rewrite (isdir_true w d Hd). unfold rmtree. rewrite Hf.
    eexists. split; [reflexivity|]. split.
    + intros q Hp _. apply map_lookup_filter_None. right. intros i _. cbn [fst]. tauto.
    + intros q Hp. destruct (files w !! q) as [i|] eqn:Hq.
      * apply map_lookup_filter_Some. done.
      * apply map_lookup_filter_None. by left.
  - rewrite (isdir_false w d Hd). unfold ret.
    exists (files w). split; [by destruct w|]. split; [|done].
    intros q Hp Hne. destruct (files w !! q) as [i|] eqn:Hq; [|done].
    exfalso. apply Hd. exists q. split; [|done]. apply elem_of_dom. eauto.
Qed.

(** The three deletions of the session. *)
Lemma set_rows_left release w :
  rows_left release w
    (set_rows
       (List.filter (fun r => negb (String.eqb (Release.name r) (Release.name release)))
                    (releases w))
       (List.filter
          (fun t => negb (String.eqb (Task.project_name t) (Release.project_name release)
                          && String.eqb (Task.version_name t) (Release.version release)))
          (tasks w))
       (List.filter
          (fun c => negb (String.eqb (CheckResult.release_name c) (Release.name release)))
          (check_results w))
       w).
Proof.
  unfold rows_left. cbn [releases tasks check_results set_rows].
  split; [|split].
  - intros r. rewrite list_elem_of_In, filter_In, <- list_elem_of_In.
    rewrite negb_true_iff, String.eqb_neq. tauto.
  - intros t. rewrite list_elem_of_In, filter_In, <- list_elem_of_In.
    rewrite negb_true_iff, andb_false_iff, !String.eqb_neq.
    destruct (decide (Task.project_name t = Release.project_name release));
      destruct (decide (Task.version_name t = Release.version release)); tauto.
  - intros c. rewrite list_elem_of_In, filter_In, <- list_elem_of_In.
    rewrite negb_true_iff, String.eqb_neq. tauto.
Qed.

(** [release_delete] on a release that is found: the rows go, then the
    downloads step runs if asked, then the removal of the directory. *)
Lemma release_delete_found w release_name phase include_downloads release :
  release_query (releases w) release_name phase = Some release ->
  exists w1 dl,
    rows_left release w w1
    /\ files w1 = files w /\ downloads w1 = downloads w
    /\ rmtree_fault w1 = rmtree_fault w /\ flashes w1 = flashes w
    /\ (forall p i, dl !! p = Some i
                    <-> downloads w !! p = Some i
                        /\ (include_downloads = true ->
                            ~ linked_from w (release_directory release) i))
    /\ release_delete release_directory_base release_directory
                      release_name phase include_downloads w
       = _delete_release_data_filesystem (release_directory_base release) release_name
           (set_downloads dl w1).
Proof.
  intros Hq. pose proof (release_query_name _ _ _ _ Hq) as [Hin Hname].
  unfold release_delete, bind at 1. unfold gets at 1. rewrite Hq.
  unfold bind at 1. unfold modify at 1. rewrite <- Hname.
  set (w1 := set_rows _ _ _ w).
  destruct include_downloads.
  - destruct (delete_downloads_run release w1) as (dl & Hrun & Hdl).
    exists w1, dl. split; [apply set_rows_left|]. repeat (split; [done|]).
    split.
    + intros p i. rewrite Hdl. unfold linked_from. cbn [files downloads w1 set_rows]. tauto.
    + unfold bind. by rewrite Hrun.
  - exists w1, (downloads w). split; [apply set_rows_left|]. repeat (split; [done|]).
    split.
    + intros p i. split; [|tauto]. intros H. split; [done|]. discriminate.
    + unfold bind, ret. by destruct w.
Qed.

End DeleteMoreProofs.

Section DeleteMore.
Import Py Monad Monad.Notations Pathlib Sql Interaction DeleteSpec DeleteMoreSpec.

(** X7.  When no release of the name is in the
    asked phase (none of the name at all, when no phase is asked),
    [release_delete] raises the 404 error and changes nothing: no row, no
    file and no download is deleted, and nothing is flashed. *)
Theorem release_delete_phase_guard
    (release_directory_base release_directory : Release.t -> Path)
    (w : World) (release_name : string) (phase : option ReleasePhase)
    (include_downloads : bool) :
  (forall r, r ∈ releases w -> Release.name r = release_name -> ~ in_phase phase r) ->
  release_delete release_directory_base release_directory
                 release_name phase include_downloads w
  = (Raise (ASFQuartException ("Release '" +:+ release_name +:+ "' not found.") 404), w).
Proof.
  intros H. apply release_query_none in H.
  unfold release_delete, bind, gets. by rewrite H.
Qed.

Lemma release_delete_phase_guard_witness :
  release_delete DeleteMoreExample.base DeleteMoreExample.base "q-1"
                 (Some RELEASE_CANDIDATE_DRAFT) true DeleteMoreExample.world
  = (Raise (ASFQuartException "Release 'q-1' not found." 404), DeleteMoreExample.world).
Proof.
  apply (release_delete_phase_guard DeleteMoreExample.base DeleteMoreExample.base
           DeleteMoreExample.world "q-1" (Some RELEASE_CANDIDATE_DRAFT) true).
  intros r Hr Hname Hph.
  repeat (apply elem_of_cons in Hr as [-> | Hr]; [by vm_compute in Hname, Hph|]).
  by apply elem_of_nil in Hr.
Defined.

(** X8.  When the release is found and the removal
    of its directory does not fail, [release_delete] returns normally and
    flashes nothing; the rows of the release, of its tasks and of its
    check results are gone and the other rows are kept; no file is left
    below the directory of the release, and every file that is not below
    it is kept. *)
Theorem release_delete_removes
    (release_directory_base release_directory : Release.t -> Path)
    (w : World) (release_name : string) (phase : option ReleasePhase)
    (include_downloads : bool) (release : Release.t) :
  release_query (releases w) release_name phase = Some release ->
  rmtree_fault w (release_directory_base release) = None ->
  exists w',
    release_delete release_directory_base release_directory
                   release_name phase include_downloads w = (Ok tt, w')
    /\ rows_left release w w'
    /\ ~ on_disk w' (release_directory_base release)
    /\ (forall q, ~ release_directory_base release `prefix_of` q ->
                  files w' !! q = files w !! q)
    /\ flashes w' = flashes w.
Proof.
  intros Hq Hf.
  destruct (release_delete_found release_directory_base release_directory
              w release_name phase include_downloads release Hq)
    as (w1 & dl & Hrows & Hfiles & Hdown & Hfault & Hflashes & Hdl & ->).
  destruct (delete_filesystem_ok (set_downloads dl w1)
              (release_directory_base release) release_name)
    as (fl & -> & Hgone & Hkept).
  { cbn [rmtree_fault set_downloads]. congruence. }
  eexists. split; [reflexivity|].
  cbn [releases tasks check_results files flashes set_files set_downloads] in *.
  split; [exact Hrows|]. split; [|split; [|done]].
  - intros (q & Hin & Hp & Hne). apply elem_of_dom in Hin as [i Hi].
    cbn [files set_files] in Hi. by rewrite Hgone in Hi.
  - intros q Hp. rewrite Hkept by done. by rewrite Hfiles.
Qed.

Lemma release_delete_removes_witness :
  exists w',
    release_delete DeleteMoreExample.base DeleteMoreExample.base "q-1" None true
                   DeleteMoreExample.world = (Ok tt, w')
    /\ files w' !! ["state"; "finished"; "q"; "1"; "b.tar.gz"] = None
    /\ files w' !! ["state"; "unfinished"; "p"; "1"; "a.tar.gz"] = Some 7
    /\ flashes w' = [].
Proof.
  destruct (release_delete_removes DeleteMoreExample.base DeleteMoreExample.base
              DeleteMoreExample.world "q-1" None true
              (Release.mk "q-1" "q" "1" RELEASE (Some "00001")))
    as (w' & Hrun & _ & Hgone & Hkept & Hflashes); [reflexivity|reflexivity|].
  exists w'. split; [done|]. split; [|split; [|done]].
  - destruct (files w' !! ["state"; "finished"; "q"; "1"; "b.tar.gz"]) as [i|] eqn:Hi;
      [|done].
    exfalso. apply Hgone. exists ["state"; "finished"; "q"; "1"; "b.tar.gz"].
    split; [apply elem_of_dom; eauto|]. split; [by exists ["b.tar.gz"]|discriminate].
  - rewrite Hkept; [reflexivity|]. intros [k Hk]. discriminate Hk.
Defined.

(** X9.  When the release is found,
    [release_delete] with [include_downloads] removes from the downloads
    mirror exactly the entries that are hard links to a file below the
    directory of the release, that is, that have the inode of one; without
    [include_downloads] it leaves the mirror as it was.  This holds
    whether or not the removal of the directory fails afterwards. *)
Theorem release_delete_downloads
    (release_directory_base release_directory : Release.t -> Path)
    (w : World) (release_name : string) (phase : option ReleasePhase)
    (include_downloads : bool) (release : Release.t) :
  release_query (releases w) release_name phase = Some release ->
  let w' := (release_delete release_directory_base release_directory
                            release_name phase include_downloads w).2 in
  forall p i,
    downloads w' !! p = Some i
    <-> downloads w !! p = Some i
        /\ (include_downloads = true -> ~ linked_from w (release_directory release) i).
Proof.
  intros Hq w'. subst w'.
  destruct (release_delete_found release_directory_base release_directory
              w release_name phase include_downloads release Hq)
    as (w1 & dl & _ & _ & _ & _ & _ & Hdl & ->).
  assert (Hkeep : forall d w2,
            downloads (_delete_release_data_filesystem d release_name w2).2 = downloads w2).
  { intros d w2. unfold _delete_release_data_filesystem, try_except, bind, isdir, gets.
    destruct (bool_decide _); [|done].
    unfold rmtree. by destruct (rmtree_fault w2 d). }
  rewrite Hkeep. exact Hdl.
Qed.

Lemma release_delete_downloads_witness :
  let w' := (release_delete DeleteMoreExample.base DeleteMoreExample.base "q-1" None true
                            DeleteMoreExample.world).2 in
  downloads w' !! ["q"; "b.tar.gz"] = None
  /\ downloads w' !! ["other"; "c.tar.gz"] = Some 5.
Proof.
  intros w'.
  pose proof (release_delete_downloads DeleteMoreExample.base DeleteMoreExample.base
                DeleteMoreExample.world "q-1" None true
                (Release.mk "q-1" "q" "1" RELEASE (Some "00001")) eq_refl) as H.
  cbv zeta in H. fold w' in H. split.
  - destruct (downloads w' !! ["q"; "b.tar.gz"]) as [i|] eqn:Hi; [|done].
    apply H in Hi as [Hi Hno]. injection Hi as <-. exfalso. apply Hno; [done|].
    exists ["state"; "finished"; "q"; "1"; "b.tar.gz"].
    split; [by exists ["b.tar.gz"]|]. split; [discriminate|reflexivity].
  - apply H. split; [reflexivity|]. intros _ (q & Hp & Hne & Hq).
    apply elem_of_list_to_map_2 in Hq.
    repeat (apply elem_of_cons in Hq as [[= ? ?] | Hq]).
    by apply elem_of_nil in Hq.
Defined.

End DeleteMore.

Section RouteRuns.
Import Py Monad Monad.Notations Pathlib Sql World AtrRevision Draft.
Import ScopeSpec DraftSpec DeleteFileSpec.
Variable release_name : string -> string -> string.
Variable revision_number : nat -> string.
Variable tmp_dir : string.
Variable is_artifact : Path -> bool.
Variable sha256_hexdigest : list byte -> string.
Variable sha512_hexdigest : list byte -> string.

Lemma latest_row_app l1 l2 : forall best,
  latest_row (l1 ++ l2) best = latest_row l2 (latest_row l1 best).
Proof.
  induction l1 as [|x l1 IH]; intros best; [done|].
  cbn [app latest_row]. destruct best as [b|]; [|apply IH].
  destruct (Sql.Revision.seq b <? Sql.Revision.seq x)%nat; apply IH.
Qed.

(** A row of greater [seq] recorded for the release becomes its latest
    revision. *)
Lemma latest_revision_snoc revisions rname old row :
  latest_revision revisions rname = Some old ->
  Sql.Revision.release_name row = rname ->
  Sql.Revision.seq old < Sql.Revision.seq row ->
  latest_revision (revisions ++ [row]) rname = Some row.
Proof.
  unfold latest_revision. intros Hold Hname Hlt.
  rewrite List.filter_app, latest_row_app, Hold. cbn [List.filter].
  rewrite Hname, String.eqb_refl. cbn [latest_row].
  apply Nat.ltb_lt in Hlt. by rewrite Hlt.
Qed.

(** What a committed scope leaves of the world it started from. *)
Lemma committed_fields release row tr w :
  releases (committed release row tr w) = releases w
  /\ revisions (committed release row tr w) = revisions w ++ [row]
  /\ tasks (committed release row tr w) = tasks w
  /\ inodes (committed release row tr w) = inodes w
  /\ trees (committed release row tr w) = <[release := tr]> (trees w)
  /\ interim (committed release row tr w) = interim w
  /\ clock (committed release row tr w) = clock w
  /\ flashes (committed release row tr w) = flashes w.
Proof. by destruct w. Qed.

(** [hashgen] on an existing source without sidecar. *)
Lemma hashgen_run w session_uid project_name version_name file_path hash_type
    old tr ino data :
  let rel_path := Path_of_string file_path in
  let r := release_name project_name version_name in
  let line := sidecar_line
                (digest_of sha256_hexdigest sha512_hexdigest hash_type data)
                (name rel_path) in
  let row := next_row revision_number r old
                      "Hash generation through web interface" session_uid in
  hash_type = "sha256" \/ hash_type = "sha512" ->
  interim w = None -> r ∈ releases w ->
  latest_revision (revisions w) r = Some old -> trees w !! r = Some tr ->
  tr !! rel_path = Some ino -> inodes w !! ino = Some data ->
  exists_in tr (sidecar rel_path hash_type) = false ->
  hashgen release_name revision_number tmp_dir sha256_hexdigest sha512_hexdigest
          session_uid project_name version_name file_path (Some hash_type) w
  = (Ok (Redirect "compose.selected"
                  (Some (hash_type +:+ " file generated successfully")) None),
     committed r row (<[sidecar rel_path hash_type := new_inode w]> tr)
       (set_inodes (<[new_inode w := list_byte_of_string line]> (inodes w)) w)).
Proof.
  intros rel_path r line row Hht Hint Hrel Hold Htr Hsrc Hdata Hside.
  unfold hashgen.
  assert ((String.eqb hash_type "sha256" || String.eqb hash_type "sha512") = true) as ->.
  { destruct Hht as [-> | ->]; reflexivity. }
  unfold try_except. erewrite bind_ok; [reflexivity|].
  unfold Draft.scope. fold rel_path.
  erewrite (scope_commits release_name revision_number tmp_dir
              project_name version_name session_uid
              "Hash generation through web interface" _ w old tr tt
              (<[sidecar rel_path hash_type := new_inode w]> tr)
              (set_inodes (<[new_inode w := list_byte_of_string line]> (inodes w)) w));
    try done.
  erewrite hashgen_body_ok; done.
Qed.

(** [delete_file] on a file that is no artifact. *)
Lemma delete_file_plain_run w session_uid project_name version_name file_path
    old tr ino :
  let rel_path := Path_of_string file_path in
  let r := release_name project_name version_name in
  let row := next_row revision_number r old
                      "File deletion through web interface" session_uid in
  interim w = None -> r ∈ releases w ->
  latest_revision (revisions w) r = Some old -> trees w !! r = Some tr ->
  tr !! rel_path = Some ino -> is_artifact rel_path = false ->
  delete_file release_name revision_number tmp_dir is_artifact
              session_uid project_name version_name (Some file_path) w
  = (Ok (Redirect "compose.selected"
                  (Some (deleted_message (name rel_path) 0)) None),
     committed r row (delete rel_path tr) w).
Proof.
  intros rel_path r row Hint Hrel Hold Htr Hino Hart.
  assert (Hscope :
    create_and_manage release_name revision_number tmp_dir
      project_name version_name session_uid "File deletion through web interface"
      (delete_file_body is_artifact rel_path) w
    = (Ok (0, mkCreating (Some old) tmp_dir (Some row)),
       committed r row (delete rel_path tr) w)).
  { apply (scope_commits release_name revision_number tmp_dir
             project_name version_name session_uid
             "File deletion through web interface" _ w old tr 0 (delete rel_path tr) w);
      try done.
    by erewrite delete_file_body_plain. }
  unfold delete_file, try_except, bind, Draft.scope. fold rel_path.
  rewrite Hscope. reflexivity.
Qed.

End RouteRuns.

Section RoundTrip.
Import Py Monad Monad.Notations Pathlib Sql World AtrRevision Draft.
Import ScopeSpec DraftSpec DeleteFileSpec.

(** X10.  Generating a hash sidecar and then
    deleting it through [delete_file] gives the release the tree it had
    before, path for path and inode for inode: the two routes commit one
    revision each, the files that were there keep their content, and the
    deletion reports the sidecar alone. *)
Theorem hashgen_then_delete_file
    (release_name : string -> string -> string) (revision_number : nat -> string)
    (tmp_dir : string) (is_artifact : Path -> bool)
    (sha256_hexdigest sha512_hexdigest : list byte -> string)
    (w : World.t)
    (session_uid project_name version_name file_path hash_type side_path : string)
    (old : Sql.Revision.t) (tr : gmap Path nat) (ino : nat) (data : list byte) :
  let rel_path := Path_of_string file_path in
  let r := release_name project_name version_name in
  let w1 := (hashgen release_name revision_number tmp_dir
                     sha256_hexdigest sha512_hexdigest
                     session_uid project_name version_name file_path
                     (Some hash_type) w).2 in
  let out := delete_file release_name revision_number tmp_dir is_artifact
                         session_uid project_name version_name (Some side_path) w1 in
  hash_type = "sha256" \/ hash_type = "sha512" ->
  interim w = None -> r ∈ releases w ->
  latest_revision (revisions w) r = Some old -> trees w !! r = Some tr ->
  tr !! rel_path = Some ino -> inodes w !! ino = Some data ->
  exists_in tr (sidecar rel_path hash_type) = false ->
  Path_of_string side_path = sidecar rel_path hash_type ->
  is_artifact (sidecar rel_path hash_type) = false ->
  out.1 = Ok (Redirect "compose.selected"
                (Some ("File '" +:+ (name rel_path +:+ "." +:+ hash_type)
                         +:+ "' deleted successfully")) None)
  /\ trees out.2 !! r = Some tr
  /\ (forall i, i ∈ dom (inodes w) -> inodes out.2 !! i = inodes w !! i)
  /\ (Sql.Revision.seq <$> drop (length (revisions w)) (revisions out.2))
     = [S (Sql.Revision.seq old); S (S (Sql.Revision.seq old))]
  /\ flashes out.2 = flashes w.
Proof.
  intros rel_path r w1 out Hht Hint Hrel Hold Htr Hsrc Hdata Hside Hpath Hart.
  pose proof (exists_in_false _ _ Hside) as [Hnone _].
  pose proof (hashgen_run release_name revision_number tmp_dir
                sha256_hexdigest sha512_hexdigest w session_uid project_name
                version_name file_path hash_type old tr ino data
                Hht Hint Hrel Hold Htr Hsrc Hdata Hside) as Hrun1.
  cbv zeta in Hrun1. fold rel_path r in Hrun1.
  subst out w1. rewrite Hrun1. cbn [snd].
  set (row1 := next_row revision_number r old
                        "Hash generation through web interface" session_uid).
  set (w1 := committed r row1 _ _).
  pose proof (delete_file_plain_run release_name revision_number tmp_dir is_artifact
                w1 session_uid project_name version_name side_path row1
                (<[sidecar rel_path hash_type := new_inode w]> tr) (new_inode w))
    as Hrun2.
  cbv zeta in Hrun2. fold r in Hrun2. rewrite Hpath in Hrun2.
  rewrite Hrun2.
  - cbn [fst snd].
    destruct (committed_fields r
                (next_row revision_number r row1
                   "File deletion through web interface" session_uid)
                (delete (sidecar rel_path hash_type)
                   (<[sidecar rel_path hash_type := new_inode w]> tr)) w1)
      as (_ & Hrevs2 & _ & Hino2 & Htrees2 & _ & _ & Hfl2).
    destruct (committed_fields r row1
                (<[sidecar rel_path hash_type := new_inode w]> tr)
                (set_inodes
                   (<[new_inode w :=
                        list_byte_of_string
                          (sidecar_line
                             (digest_of sha256_hexdigest sha512_hexdigest hash_type data)
                             (name rel_path))]> (inodes w)) w))
      as (_ & Hrevs1 & _ & Hino1 & _ & _ & _ & Hfl1).
    fold w1 in Hrevs1, Hino1, Hfl1.
    split; [|split; [|split; [|split]]].
    + unfold deleted_message, sidecar. by rewrite name_snoc.
    + rewrite Htrees2, lookup_insert_eq. by rewrite delete_insert_id.
    + intros i Hi. rewrite Hino2, Hino1.
      change (inodes (set_inodes ?m w)) with m.
      rewrite lookup_insert_ne; [done|]. intros <-.
      revert Hi. unfold new_inode. apply is_fresh.
    + rewrite Hrevs2, Hrevs1.
      change (revisions (set_inodes ?m w)) with (revisions w).
      rewrite <- app_assoc, drop_app_length. reflexivity.
    + rewrite Hfl2, Hfl1. reflexivity.
  - exact Hint.
  - exact Hrel.
  - destruct (committed_fields r row1
                (<[sidecar rel_path hash_type := new_inode w]> tr)
                (set_inodes
                   (<[new_inode w :=
                        list_byte_of_string
                          (sidecar_line
                             (digest_of sha256_hexdigest sha512_hexdigest hash_type data)
                             (name rel_path))]> (inodes w)) w))
      as (_ & Hrevs1 & _).
    fold w1 in Hrevs1. rewrite Hrevs1.
    change (revisions (set_inodes ?m w)) with (revisions w).
    apply (latest_revision_snoc _ _ old); [done|done|].
    cbn [next_row Sql.Revision.seq row1]. unfold row1, next_row.
    cbn [Sql.Revision.seq]. lia.
  - destruct (committed_fields r row1
                (<[sidecar rel_path hash_type := new_inode w]> tr)
                (set_inodes
                   (<[new_inode w :=
                        list_byte_of_string
                          (sidecar_line
                             (digest_of sha256_hexdigest sha512_hexdigest hash_type data)
                             (name rel_path))]> (inodes w)) w))
      as (_ & _ & _ & _ & Htrees1 & _).
    fold w1 in Htrees1. rewrite Htrees1. apply lookup_insert_eq.
  - apply lookup_insert_eq.
  - exact Hart.
Qed.

Lemma hashgen_then_delete_file_witness :
  let w1 := (DraftExample.hashgen "alice" "proj" "1.0" "b.txt" (Some "sha256")
               DraftExample.world).2 in
  let out := DraftExample.delete_file "alice" "proj" "1.0" (Some "b.txt.sha256") w1 in
  out.1 = Ok (Redirect "compose.selected"
                (Some "File 'b.txt.sha256' deleted successfully") None)
  /\ trees out.2 !! "proj-1.0" = Some DraftExample.tree.
Proof.
  pose proof (hashgen_then_delete_file DraftExample.release_name
                DraftExample.revision_number "/tmp/interim" DraftExample.is_artifact
                DraftExample.sha256_hexdigest DraftExample.sha512_hexdigest
                DraftExample.world "alice" "proj" "1.0" "b.txt" "sha256" "b.txt.sha256"
                DraftExample.first_row DraftExample.tree
                3 (list_byte_of_string "notes")) as H.
  cbv zeta in H.
  destruct H as (H1 & H2 & _).
  - by left.
  - reflexivity.
  - apply list_elem_of_here.
  - reflexivity.
  - apply lookup_singleton_eq.
  - vm_compute. reflexivity.
  - vm_compute. reflexivity.
  - vm_compute. reflexivity.
  - vm_compute. reflexivity.
  - reflexivity.
  - split; [exact H1|exact H2].
Defined.

End RoundTrip.

Section SbomOutcomeProofs.
Import Py Monad Monad.Notations Pathlib Sql World AtrRevision Draft.
Import ScopeSpec DraftSpec SbomSpec.
Variable release_name : string -> string -> string.
Variable revision_number : nat -> string.
Variable tmp_dir : string.





End SbomOutcomeProofs.

Section SbomOutcome.
Import Py Monad Monad.Notations Pathlib Sql World AtrRevision Draft.
Import ScopeSpec DraftSpec SbomSpec.


End SbomOutcome.

Section SbomOutcomeWitness.
Import Py Monad Monad.Notations Pathlib Sql World AtrRevision Draft.


End SbomOutcomeWitness.

Section SvnloadProofs.
Import Py Monad Monad.Notations Pathlib Sql World Draft DraftSvnload.

Lemma flash_errors_run errors : forall w,
  flash_errors errors w
  = (Ok tt,
     set_flashes (flashes w ++ ((fun e => (e, "error")) <$> concat (snd <$> errors))) w).
Proof.
  assert (Hinner : forall es w,
    for_each es tt (fun (error : string) (_ : unit) => flash error "error") w
    = (Ok tt, set_flashes (flashes w ++ ((fun e => (e, "error")) <$> es)) w)).
  { induction es as [|e es IH]; intros w.
    - cbn. rewrite app_nil_r. by destruct w.
    - cbn [for_each]. unfold bind at 1. unfold flash at 1. unfold modify at 1.
      rewrite IH. rewrite fmap_cons. destruct w. unfold set_flashes. cbn.
      by rewrite <- app_assoc. }
  unfold flash_errors. induction errors as [|[f es] errors IH]; intros w.
  - cbn. rewrite app_nil_r. by destruct w.
  - cbn [for_each snd]. unfold bind at 1. rewrite Hinner, IH.
    rewrite fmap_cons. cbn [snd concat]. rewrite fmap_app.
    destruct w. unfold set_flashes. cbn. by rewrite <- app_assoc.
Qed.

End SvnloadProofs.

Section Svnload.
Import Py Monad Monad.Notations Pathlib Sql World Draft DraftSvnload.

(** X12.  With a valid form [svnload] adds one task,
    QUEUED, of type SVN_IMPORT_FILES, for the project and the version,
    and without a revision number; hence [tasks_ongoing] and
    [tasks_ongoing_revision] count what they counted before, whatever
    project, version and revision they are asked for: a queued import is
    no ongoing task of any revision.  With an invalid form it adds no
    task and flashes every error of the form. *)
Theorem svnload_not_ongoing (release_name : string -> string -> string)
    (w : World.t) (session_uid project_name version_name : string) :
  (forall form,
      let out := svnload session_uid project_name version_name (inr form) w in
      out.1 = Ok (Redirect "compose.selected"
                    (Some "SVN import task queued successfully") None)
      /\ (exists task,
            tasks out.2 = tasks w ++ [task]
            /\ Task.status task = QUEUED /\ Task.task_type task = SVN_IMPORT_FILES
            /\ Task.project_name task = project_name
            /\ Task.version_name task = version_name
            /\ Task.revision_number task = None)
      /\ (forall revisions p v n,
            Interaction.tasks_ongoing release_name revisions (tasks out.2) p v n
            = Interaction.tasks_ongoing release_name revisions (tasks w) p v n
            /\ Interaction.tasks_ongoing_revision release_name revisions
                 (tasks out.2) p v n
               = Interaction.tasks_ongoing_revision release_name revisions
                   (tasks w) p v n)
      /\ revisions out.2 = revisions w /\ flashes out.2 = flashes w)
  /\ (forall errors,
        let out := svnload session_uid project_name version_name (inl errors) w in
        out.1 = Ok (Redirect "upload.selected" None None)
        /\ tasks out.2 = tasks w
        /\ flashes out.2
           = flashes w ++ ((fun e => (e, "error")) <$> concat (snd <$> errors))).
Proof.
  split.
  - intros form out. subst out. unfold svnload, try_except.
    erewrite bind_ok by reflexivity.
    set (task := Task.mk _ _ _ _ _ _ _ _).
    erewrite bind_ok by reflexivity.
    unfold ret. cbn [fst snd].
    split; [reflexivity|].
    assert (Htasks : tasks (set_trace (trace (set_tasks (tasks w ++ [task]) w)
                                         ++ [EvTaskAdd task])
                              (set_tasks (tasks w ++ [task]) w))
                     = tasks w ++ [task]) by done.
    split; [exists task; split; [exact Htasks|done]|].
    split; [|by destruct w].
    intros revisions p v n. rewrite Htasks.
    unfold Interaction.tasks_ongoing, Interaction.tasks_ongoing_revision.
    rewrite !List.filter_app, !length_app. cbn [List.filter].
    assert (Hno : forall o, sql_true (sql_eq (Task.revision_number task) o) = false)
      by done.
    rewrite !Hno, !andb_false_r. cbn [andb length].
    by rewrite !Nat.add_0_r.
  - intros errors out. subst out. unfold svnload.
    erewrite bind_ok by apply flash_errors_run.
    unfold ret. cbn [fst snd]. split; [done|]. by destruct w.
Qed.

End Svnload.

Section DraftDeleteProofs.
Import Py Monad Monad.Notations Pathlib Sql Interaction DeleteSpec DeleteMoreSpec.
Import DraftDelete.
Variable release_directory_base : Release.t -> Path.
Variable release_directory : Release.t -> Path.
Variable unfinished_dir : Path.


Lemma draft_dir_exists_run d w :
  path_exists d w
  = (Ok (bool_decide (is_Some (files w !! d))
         || bool_decide (set_Exists (fun q => d `prefix_of` q ∧ d ≠ q) (dom (files w)))),
     w).
Proof. reflexivity. Qed.

(** The second removal, of the draft directory. *)
Lemma remove_draft_dir d w :
  let step := bind (path_exists d) (fun present => if present then rmtree d else ret tt) in
  (rmtree_fault w d = None ->
     exists fl, step w = (Ok tt, set_files fl w)
       /\ (forall q, d `prefix_of` q -> fl !! q = None)
       /\ (forall q, ~ d `prefix_of` q -> fl !! q = files w !! q))
  /\ (forall msg, rmtree_fault w d = Some msg -> on_disk w d ->
        step w = (Raise (OSError msg), w)).
Proof.
  intros step. subst step. unfold bind. rewrite draft_dir_exists_run.
  split.
  - intros Hf.
    destruct (bool_decide (is_Some (files w !! d)) || bool_decide _) eqn:Hex.
    + unfold rmtree. rewrite Hf. eexists. split; [reflexivity|]. split.
      * intros q Hp. apply map_lookup_filter_None. right. intros i _. cbn [fst]. tauto.
      * intros q Hp. destruct (files w !! q) as [i|] eqn:Hq.
        -- by apply map_lookup_filter_Some.
        -- apply map_lookup_filter_None. by left.
    + apply orb_false_iff in Hex as [Hfile Hdir].
      apply bool_decide_eq_false_1 in Hfile, Hdir.
      exists (files w). split; [by destruct w|]. split; [|done].
      intros q Hp. destruct (files w !! q) as [i|] eqn:Hq; [|done]. exfalso.
      destruct (decide (d = q)) as [->|Hne]; [apply Hfile; by eexists|].
      apply Hdir. exists q. split; [apply elem_of_dom; by eexists|done].
  - intros msg Hf (q & Hq & Hp & Hne).
    rewrite (bool_decide_eq_true_2 (set_Exists _ _)); [|by exists q].
    rewrite orb_true_r. unfold rmtree. by rewrite Hf.
Qed.

(** The removal of the release directory never raises, and touches the
    files and the flashes only. *)
Lemma delete_filesystem_frame d n w :
  exists fl fs,
    _delete_release_data_filesystem d n w = (Ok tt, set_flashes fs (set_files fl w)).
Proof.
  unfold _delete_release_data_filesystem, try_except, bind, isdir, gets.
  destruct (bool_decide _).
  - unfold rmtree. destruct (rmtree_fault w d) as [msg|].
    + exists (files w),
        (flashes w ++ [("Database records for '" +:+ n
                          +:+ "' deleted, but failed to delete filesystem directory: "
                          +:+ msg, "warning")]).
      unfold flash, modify. by destruct w.
    + exists (filter (fun kv => ¬ d `prefix_of` kv.1) (files w)), (flashes w).
      by destruct w.
  - exists (files w), (flashes w). by destruct w.
Qed.




(** [delete] with the three fields filled in, on a release that is found
    as a draft: the rows go, the removal of the release directory is
    tried, then that of the draft directory. *)
Lemma delete_found w name project version release :
  truthy name = true -> truthy project = true -> truthy version = true ->
  release_query (releases w) name (Some RELEASE_CANDIDATE_DRAFT) = Some release ->
  exists w1,
    rows_left release w w1
    /\ files w1 = files w /\ downloads w1 = downloads w
    /\ rmtree_fault w1 = rmtree_fault w /\ flashes w1 = flashes w
    /\ delete release_directory_base release_directory unfinished_dir
         (inr (mkDeleteForm (Some name) (Some project) (Some version))) w
       = bind (_delete_release_data_filesystem (release_directory_base release) name)
           (fun _ =>
              bind (bind (path_exists (unfinished_dir ++ Path_of_string project
                                         ++ Path_of_string version))
                      (fun present =>
                         if present
                         then rmtree (unfinished_dir ++ Path_of_string project
                                        ++ Path_of_string version)
                         else ret tt))
                (fun _ => ret (Draft.Redirect "root.index"
                                 (Some "Candidate draft deleted successfully") None)))
           w1.
Proof.
  intros Hn Hp Hv Hq.
  destruct (release_delete_found release_directory_base release_directory
              w name (Some RELEASE_CANDIDATE_DRAFT) false release Hq)
    as (w1 & dl & Hrows & Hfiles & Hdown & Hfault & Hflashes & Hdl & Hrun).
  assert (Hdl' : dl = downloads w1).
  { rewrite Hdown. apply map_eq. intros p. apply option_eq. intros i.
    rewrite Hdl. split; [tauto|]. intros H. split; [done|]. discriminate. }
  subst dl.
  assert (Hw1 : set_downloads (downloads w1) w1 = w1) by (by destruct w1).
  rewrite Hw1 in Hrun.
  exists w1. repeat (split; [done|]).
  unfold delete. cbn [release_name project_name version_name truthy_opt from_option id].
  rewrite Hn, Hp, Hv. cbn [negb].
  unfold bind at 1. unfold try_except. unfold bind at 1. rewrite Hrun.
  unfold bind at 3.
  destruct (delete_filesystem_frame (release_directory_base release) name w1)
    as (fl & fs & ->).
  reflexivity.
Qed.

End DraftDeleteProofs.

Section DraftDeleteMore.
Import Py Monad Monad.Notations Pathlib Sql Interaction DeleteSpec DeleteMoreSpec.
Import DraftDelete.



(** X14.  When the form names a candidate draft and
    neither removal fails, [delete] answers with the success message and
    flashes nothing; the rows of the release, of its tasks and of its
    check results are gone; nothing is left on disk of the directory of
    the release nor of the draft directory, and every file outside both
    is kept. *)
Theorem delete_draft_removed
    (release_directory_base release_directory : Release.t -> Path)
    (unfinished_dir : Path) (w : World)
    (name project version : string) (release : Release.t) :
  let draft_dir := unfinished_dir ++ Path_of_string project ++ Path_of_string version in
  let out := delete release_directory_base release_directory unfinished_dir
               (inr (mkDeleteForm (Some name) (Some project) (Some version))) w in
  truthy name = true -> truthy project = true -> truthy version = true ->
  release_query (releases w) name (Some RELEASE_CANDIDATE_DRAFT) = Some release ->
  rmtree_fault w (release_directory_base release) = None ->
  rmtree_fault w draft_dir = None ->
  out.1 = Ok (Draft.Redirect "root.index"
                (Some "Candidate draft deleted successfully") None)
  /\ rows_left release w out.2
  /\ ~ on_disk out.2 (release_directory_base release)
  /\ ~ on_disk out.2 draft_dir
  /\ files out.2 !! draft_dir = None
  /\ (forall q, ~ release_directory_base release `prefix_of` q ->
                ~ draft_dir `prefix_of` q -> files out.2 !! q = files w !! q)
  /\ flashes out.2 = flashes w.
Proof.
  intros draft_dir out Hn Hp Hv Hq Hf1 Hf2.
  destruct (delete_found release_directory_base release_directory unfinished_dir
              w name project version release Hn Hp Hv Hq)
    as (w1 & Hrows & Hfiles & Hdown & Hfault & Hflashes & Hrun).
  fold draft_dir in Hrun.
  destruct (delete_filesystem_ok w1 (release_directory_base release) name)
    as (fl & Hfs & Hgone & Hkept); [congruence|].
  destruct (remove_draft_dir draft_dir (set_files fl w1)) as [Hok _].
  cbv zeta in Hok.
  destruct Hok as (fl2 & Hdd & Hgone2 & Hkept2).
  { cbn [rmtree_fault set_files]. congruence. }
  assert (Hout : out = (Ok (Draft.Redirect "root.index"
                              (Some "Candidate draft deleted successfully") None),
                        set_files fl2 (set_files fl w1))).
  { unfold out. rewrite Hrun. erewrite bind_ok by exact Hfs.
    erewrite bind_ok by exact Hdd. reflexivity. }
  rewrite Hout. cbn [fst snd]. split; [done|].
  cbn [files set_files] in Hkept2.
  split; [exact Hrows|]. split; [|split; [|split; [|split]]].
  - intros (q & Hin & Hpre & Hne). apply elem_of_dom in Hin as [i Hi].
    cbn [files set_files] in Hi.
    destruct (decide (draft_dir `prefix_of` q)) as [Hd|Hd].
    + by rewrite Hgone2 in Hi.
    + rewrite Hkept2, Hgone in Hi by done. done.
  - intros (q & Hin & Hpre & Hne). apply elem_of_dom in Hin as [i Hi].
    cbn [files set_files] in Hi. by rewrite Hgone2 in Hi.
  - cbn [files set_files]. by apply Hgone2.
  - intros q H1 H2. cbn [files set_files].
    rewrite Hkept2, Hkept by done. by rewrite Hfiles.
  - exact Hflashes.
Qed.

Lemma delete_draft_removed_witness :
  let out := DraftDeleteExample.delete (inr (DraftDeleteExample.form "p-1" "p" "1"))
               DraftDeleteExample.world in
  out.1 = Ok (Draft.Redirect "root.index"
                (Some "Candidate draft deleted successfully") None)
  /\ files out.2 !! ["state"; "unfinished"; "p"; "1"; "00001"; "a.tar.gz"] = None
  /\ files out.2 !! ["state"; "finished"; "q"; "1"; "b.tar.gz"] = Some 8.
Proof.
  intros out.
  pose proof (delete_draft_removed DraftDeleteExample.base DraftDeleteExample.base
                ["state"; "unfinished"] DraftDeleteExample.world "p-1" "p" "1"
                (Release.mk "p-1" "p" "1" RELEASE_CANDIDATE_DRAFT (Some "00001"))) as H.
  cbv zeta in H.
  destruct H as (H1 & _ & _ & Hgone & _ & Hkept & _); try reflexivity.
  fold out in H1, Hgone, Hkept.
  split; [exact H1|]. split.
  - destruct (files out.2 !! ["state"; "unfinished"; "p"; "1"; "00001"; "a.tar.gz"])
      as [i|] eqn:Hi; [|done].
    exfalso. apply Hgone.
    exists ["state"; "unfinished"; "p"; "1"; "00001"; "a.tar.gz"].
    split; [apply elem_of_dom; eauto|]. split; [by exists ["00001"; "a.tar.gz"]|discriminate].
  - rewrite Hkept; [reflexivity| |]; intros [k Hk]; discriminate Hk.
Defined.



End DraftDeleteMore.

Section AdminPagesProofs.
Import Py Monad Monad.Notations Pathlib Sql Admin AdminPages AdminPagesSpec.

Lemma config_entry_secrets values a b :
  a.1 = b.1 ->
  (startswith a.1 "_" = false -> endswith a.1 "_PASSWORD" = false -> a.2 = b.2) ->
  config_entry values a = config_entry values b.
Proof.
  intros Hname Hval. unfold config_entry. rewrite <- Hname.
  destruct (startswith a.1 "_"); [done|].
  destruct (endswith a.1 "_PASSWORD"); [done|].
  by rewrite Hval.
Qed.

Lemma foldl_config_secrets conf1 conf2 :
  same_but_secrets conf1 conf2 ->
  forall values, foldl config_entry values conf1 = foldl config_entry values conf2.
Proof.
  induction 1 as [|a b conf1 conf2 [Hname Hval] _ IH]; intros values; [done|].
  cbn [foldl]. rewrite (config_entry_secrets values a b Hname Hval). apply IH.
Qed.

Global Instance str_le_total : Total str_le.
Proof.
  intros a b. unfold str_le.
  destruct (String.leb_total a b) as [H|H]; rewrite H; [by left|by right].
Qed.

Lemma elem_of_merge_sort (l : list string) x : x ∈ merge_sort str_le l <-> x ∈ l.
Proof. by rewrite merge_sort_Permutation. Qed.

Lemma roster_fold (n name uid : string) (roster : list string) : forall acc : gset string,
  n ∈ foldl (fun committees user =>
               if String.eqb user uid then {[name]} ∪ committees else committees)
            acc roster
  <-> n ∈ acc \/ (n = name /\ uid ∈ roster).
Proof.
  induction roster as [|u roster IH]; intros acc; cbn [foldl].
  - rewrite elem_of_nil. tauto.
  - rewrite IH, elem_of_cons. destruct (String.eqb_spec u uid) as [->|Hne].
    + rewrite elem_of_union, elem_of_singleton. tauto.
    + split; [tauto|]. intros [?|[? [?|?]]]; try tauto. congruence.
Qed.

Lemma committees_fold (n uid : string) (cs : list Committee) : forall acc : gset string,
  n ∈ foldl (fun committees c =>
               foldl (fun committees user =>
                        if String.eqb user uid
                        then {[committee_name c]} ∪ committees else committees)
                     committees (committee_roster c))
            acc cs
  <-> n ∈ acc \/ exists c, c ∈ cs /\ committee_name c = n /\ uid ∈ committee_roster c.
Proof.
  induction cs as [|c cs IH]; intros acc; cbn [foldl].
  - split; [tauto|]. intros [?|(c & Hc & _)]; [done|by apply elem_of_nil in Hc].
  - rewrite IH, roster_fold. split.
    + intros [[?|[-> ?]]|(c' & Hc & ?)]; [by left| |].
      * right. exists c. split; [left|done].
      * right. exists c'. split; [by right|done].
    + intros [?|(c' & Hc & Hn & Hu)]; [tauto|].
      apply elem_of_cons in Hc as [->|Hc]; [left; right; done|].
      right. by exists c'.
Qed.

Section KeysProofs.
Variable asf_uid_from_uids : list string -> option string.

Lemma foldl_check_key fix_ keys : forall st,
  foldl (check_key asf_uid_from_uids fix_) st keys
  = (st.1 ++ concat (bad_line asf_uid_from_uids <$> keys),
     st.2 ++ (if fix_ then fixed asf_uid_from_uids <$> keys else keys)).
Proof.
  induction keys as [|key keys IH]; intros [bad rows].
  - destruct fix_; cbn; by rewrite !app_nil_r.
  - cbn [foldl]. rewrite IH. unfold check_key. cbn [fst snd].
    rewrite !fmap_cons. cbn [concat]. unfold bad_line at 2.
    destruct (negb (bool_decide _)), fix_; cbn [app];
      rewrite <- ?app_assoc, ?app_nil_r; reflexivity.
Qed.

Lemma bad_line_fixed key :
  bad_line asf_uid_from_uids (fixed asf_uid_from_uids key) = [].
Proof.
  unfold bad_line, fixed, declared_uids. cbn.
  by rewrite bool_decide_eq_true_2.
Qed.

Lemma fixed_fixed key :
  fixed asf_uid_from_uids (fixed asf_uid_from_uids key) = fixed asf_uid_from_uids key.
Proof. reflexivity. Qed.

End KeysProofs.

End AdminPagesProofs.

Section AdminPagesMore.
Import Py Monad Monad.Notations Pathlib Sql Admin AdminPages AdminPagesSpec.

(** X16.  The page that [admin_config] prints does
    not depend on the value of any attribute whose name ends in
    [_PASSWORD], nor on any attribute whose name starts with an
    underscore: two configurations that differ in those values only give
    the same page. *)
Theorem admin_config_redacts (conf1 conf2 : list (string * Attr)) :
  same_but_secrets conf1 conf2 -> admin_config conf1 = admin_config conf2.
Proof.
  intros H. unfold admin_config. by rewrite (foldl_config_secrets conf1 conf2 H).
Qed.

Lemma admin_config_redacts_witness :
  admin_config (AdminPagesExample.conf "hunter2")
  = admin_config (AdminPagesExample.conf "correct horse").
Proof.
  apply admin_config_redacts.
  repeat constructor; cbn; intros; (done || discriminate).
Defined.

(** X17.  A run of [_check_keys] that fixes
    reports the same keys as a run that does not, and sets the uid of
    every key to the detected one; a run that does not fix changes no
    row.  After a fixing run a further run, fixing or not, with the same
    LDAP data finds no bad key and changes no row. *)
Theorem check_keys_fix_then_check
    (asf_uid_from_uids : list string -> option string)
    (keys : list PublicSigningKey) :
  let out := _check_keys asf_uid_from_uids true keys in
  out.2 = fixed asf_uid_from_uids <$> keys
  /\ _check_keys asf_uid_from_uids false keys = (out.1, keys)
  /\ forall again,
       _check_keys asf_uid_from_uids again out.2
       = (Ok ("Checked " +:+ pretty (length keys) +:+ " keys"), out.2).
Proof.
  intros out. subst out. unfold _check_keys. rewrite !foldl_check_key.
  cbn [fst snd app]. split; [done|]. split; [done|].
  intros again. rewrite foldl_check_key. cbn [fst snd app].
  rewrite length_fmap.
  assert (Hbad : concat (bad_line asf_uid_from_uids
                           <$> (fixed asf_uid_from_uids <$> keys)) = []).
  { induction keys as [|k keys IH]; [done|].
    rewrite !fmap_cons. cbn [concat]. by rewrite bad_line_fixed, IH. }
  rewrite Hbad. f_equal.
  destruct again; [|done].
  rewrite <- list_fmap_compose. apply list_fmap_ext. intros i k _. reflexivity.
Qed.

(** X18.  In the session that [_session_data]
    builds for another user, the PMCs are the committees whose roster
    has the user and the projects are the LDAP projects that have the
    user as a member or an owner, each list sorted and without
    duplicates; the user is a member exactly when one of the two lists is
    not empty, and a chair exactly when some committee has the user as a
    chair; the session is never a root or role session, its e-mail
    address is the uid at apache.org and its MFA state is that of the
    admin's own session.  No session is built only when LDAP gives an
    empty list of uids or of names. *)
Theorem session_data_membership
    (ldap_data : gmap string (list string)) (new_uid : string) (mfa : bool)
    (ldap_projects : list LDAPProject) (committee_data : list Committee) :
  match _session_data ldap_data new_uid mfa ldap_projects committee_data with
  | Some sd =>
      (forall n, n ∈ sd_pmcs sd
                 <-> exists c, c ∈ committee_data /\ committee_name c = n
                               /\ new_uid ∈ committee_roster c)
      /\ (forall n, n ∈ sd_projects sd
                    <-> exists p, p ∈ ldap_projects /\ ldap_name p = n
                                  /\ (new_uid ∈ ldap_members p \/ new_uid ∈ ldap_owners p))
      /\ Sorted str_le (sd_pmcs sd) /\ NoDup (sd_pmcs sd)
      /\ Sorted str_le (sd_projects sd) /\ NoDup (sd_projects sd)
      /\ (sd_isMember sd = true <-> sd_pmcs sd <> [] \/ sd_projects sd <> [])
      /\ (sd_isChair sd = true
          <-> exists c, c ∈ committee_data /\ new_uid ∈ committee_chair c)
      /\ sd_isRoot sd = false /\ sd_isRole sd = false
      /\ sd_email sd = new_uid +:+ "@apache.org" /\ sd_mfa sd = mfa
  | None => ldap_data !! "uid" = Some [] \/ ldap_data !! "cn" = Some []
  end.
Proof.
  unfold _session_data.
  set (projects := list_to_set _ : gset string).
  set (committees := foldl _ ∅ committee_data : gset string).
  assert (Hfirst : forall key,
            match first_of ldap_data key new_uid with
            | Some _ => True
            | None => ldap_data !! key = Some []
            end).
  { intros key. unfold first_of. destruct (ldap_data !! key) as [[|x l]|]; done. }
  pose proof (Hfirst "uid") as Huid. pose proof (Hfirst "cn") as Hcn.
  destruct (first_of ldap_data "uid" new_uid) as [uid|]; [|by left].
  destruct (first_of ldap_data "cn" new_uid) as [fullname|]; [|by right].
  cbn [sd_pmcs sd_projects sd_isMember sd_isChair sd_isRoot sd_isRole sd_email sd_mfa].
  assert (Hc : forall n, n ∈ committees
                 <-> exists c, c ∈ committee_data /\ committee_name c = n
                               /\ new_uid ∈ committee_roster c).
  { intros n. unfold committees. rewrite committees_fold, elem_of_empty. tauto. }
  assert (Hp : forall n, n ∈ projects
                 <-> exists p, p ∈ ldap_projects /\ ldap_name p = n
                               /\ (new_uid ∈ ldap_members p \/ new_uid ∈ ldap_owners p)).
  { intros n. unfold projects. rewrite elem_of_list_to_set, list_elem_of_fmap.
    split.
    - intros (p & -> & Hin). apply list_elem_of_In, filter_In in Hin as [Hin Hb].
      exists p. split; [by apply list_elem_of_In|]. split; [done|].
      apply orb_true_iff in Hb. by rewrite !bool_decide_eq_true in Hb.
    - intros (p & Hin & <- & Hu). exists p. split; [done|].
      apply list_elem_of_In, filter_In. split; [by apply list_elem_of_In|].
      apply orb_true_iff. by rewrite !bool_decide_eq_true. }
  assert (Hne : forall X : gset string, merge_sort str_le (elements X) <> [] <-> X <> ∅).
  { intros X. split.
    - intros H ->. apply H. rewrite elements_empty. reflexivity.
    - intros H Hnil. apply H. apply leibniz_equiv, elements_empty_inv.
      apply Permutation_nil_r. rewrite <- Hnil. by rewrite merge_sort_Permutation. }
  split; [intros n; by rewrite elem_of_merge_sort, elem_of_elements|].
  split; [intros n; by rewrite elem_of_merge_sort, elem_of_elements|].
  split; [apply Sorted_merge_sort, _|].
  split; [rewrite merge_sort_Permutation; apply NoDup_elements|].
  split; [apply Sorted_merge_sort, _|].
  split; [rewrite merge_sort_Permutation; apply NoDup_elements|].
  split.
  { rewrite !Hne, orb_true_iff, !negb_true_iff, !bool_decide_eq_false. tauto. }
  split; [|done].
  rewrite existsb_exists. split.
  - intros (c & Hin & Hb). exists c. split; [by apply list_elem_of_In|].
    by apply bool_decide_eq_true_1 in Hb.
  - intros (c & Hin & Hu). exists c. split; [by apply list_elem_of_In|].
    by apply bool_decide_eq_true_2.
Qed.

End AdminPagesMore.

Section WalkProofs.
Import Py Monad Monad.Notations MonadSpec Sql Admin AdminSpec WalkSpec.

(** The loop over the entries of a project directory. *)
Lemma walk_versions w project_dir_path versions : forall acc,
  for_each versions acc
    (fun version_dir acc =>
       bind (isdir (path_join project_dir_path version_dir))
         (fun is_version =>
            if is_version
            then bind (isdir (path_join project_dir_path version_dir))
                   (fun again =>
                      if again
                      then ret (acc ++ [path_join project_dir_path version_dir])
                      else ret acc)
            else ret acc)) w
  = (Ok (acc ++ (path_join project_dir_path
                   <$> List.filter (fun v => fs_isdir w (path_join project_dir_path v))
                                   versions)),
     w).
Proof.
  induction versions as [|v versions IH]; intros acc.
  - cbn. by rewrite app_nil_r.
  - cbn [for_each List.filter]. unfold bind at 1. unfold bind at 1.
    unfold isdir at 1, gets at 1.
    destruct (fs_isdir w (path_join project_dir_path v)) eqn:Hd.
    + unfold bind at 1. unfold isdir at 1, gets at 1. rewrite Hd. unfold ret at 1.
      rewrite IH, fmap_cons. by rewrite <- app_assoc.
    + unfold ret at 1. apply IH.
Qed.

(** The loop over the entries of a root. *)
Lemma walk_projects w root contents : forall acc,
  let run :=
    for_each contents acc
      (fun project_dir acc =>
         let project_dir_path := path_join root project_dir in
         bind (isdir project_dir_path)
           (fun is_project =>
              if is_project
              then
                bind (listdir project_dir_path)
                  (fun versions =>
                     for_each versions acc
                       (fun version_dir acc =>
                          bind (isdir (path_join project_dir_path version_dir))
                            (fun is_version =>
                               if is_version
                               then
                                 bind (isdir (path_join project_dir_path version_dir))
                                   (fun again =>
                                      if again
                                      then ret (acc ++ [path_join project_dir_path
                                                          version_dir])
                                      else ret acc)
                               else ret acc)))
              else ret acc)) w in
  ((exists project, project ∈ contents
                    /\ fs_isdir w (path_join root project) = true
                    /\ fs_listdir w (path_join root project) = None)
   /\ exists e, run = (Raise e, w))
  \/ ((forall project, project ∈ contents ->
         fs_isdir w (path_join root project) = true ->
         fs_listdir w (path_join root project) <> None)
      /\ exists dirs,
           run = (Ok (acc ++ dirs), w)
           /\ forall p, p ∈ dirs
                <-> exists project versions version,
                      project ∈ contents
                      /\ fs_isdir w (path_join root project) = true
                      /\ fs_listdir w (path_join root project) = Some versions
                      /\ version ∈ versions
                      /\ fs_isdir w (path_join (path_join root project) version) = true
                      /\ p = path_join (path_join root project) version).
Proof.
  induction contents as [|project contents IH]; intros acc run.
  - right. split; [intros p Hp; by apply elem_of_nil in Hp|].
    exists []. split; [subst run; cbn; by rewrite app_nil_r|].
    intros p. split; [by intros ?%elem_of_nil|].
    intros (pr & _ & _ & Hpr & _). by apply elem_of_nil in Hpr.
  - destruct (fs_isdir w (path_join root project)) eqn:Hd.
    + destruct (fs_listdir w (path_join root project)) as [versions|] eqn:Hl.
      * set (here := path_join (path_join root project)
                       <$> List.filter
                             (fun v => fs_isdir w (path_join (path_join root project) v))
                             versions).
        assert (Hstep : forall k : list string -> M World (list string),
                  bind (bind (isdir (path_join root project))
                          (fun is_project =>
                             if is_project
                             then
                               bind (listdir (path_join root project))
                                 (fun versions =>
                                    for_each versions acc
                                      (fun version_dir acc =>
                                         bind (isdir (path_join (path_join root project)
                                                        version_dir))
                                           (fun is_version =>
                                              if is_version
                                              then
                                                bind (isdir (path_join
                                                               (path_join root project)
                                                               version_dir))
                                                  (fun again =>
                                                     if again
                                                     then ret (acc ++ [path_join
                                                                         (path_join root project)
                                                                         version_dir])
                                                     else ret acc)
                                              else ret acc)))
                             else ret acc)) k w
                  = k (acc ++ here) w).
        { intros k. apply bind_ok. unfold bind at 1. unfold isdir at 1, gets at 1.
          rewrite Hd. unfold bind at 1. unfold listdir at 1. rewrite Hl.
          apply walk_versions. }
        assert (Hrun0 : run = for_each contents (acc ++ here)
                  (fun project_dir acc =>
                     let project_dir_path := path_join root project_dir in
                     bind (isdir project_dir_path)
                       (fun is_project =>
                          if is_project
                          then
                            bind (listdir project_dir_path)
                              (fun versions =>
                                 for_each versions acc
                                   (fun version_dir acc =>
                                      bind (isdir (path_join project_dir_path version_dir))
                                        (fun is_version =>
                                           if is_version
                                           then
                                             bind (isdir (path_join project_dir_path
                                                            version_dir))
                                               (fun again =>
                                                  if again
                                                  then ret (acc ++ [path_join project_dir_path
                                                                      version_dir])
                                                  else ret acc)
                                           else ret acc)))
                          else ret acc)) w).
        { unfold run. cbn [for_each]. apply Hstep. }
        rewrite Hrun0.
        destruct (IH (acc ++ here)) as [[(pr & Hpr & H1 & H2) [e He]]
                                       | [Hall (dirs & Hrun & Hdirs)]].
        -- left. split; [exists pr; split; [by right|done]|]. exists e. exact He.
        -- right. split.
           { intros pr Hpr Hdir. apply elem_of_cons in Hpr as [->|Hpr];
               [congruence|by apply Hall]. }
           exists (here ++ dirs). split; [rewrite app_assoc; exact Hrun|].
           intros p. rewrite elem_of_app, Hdirs. unfold here.
           rewrite list_elem_of_fmap. split.
           ++ intros [(v & -> & Hv) | (pr & vs & v & Hpr & H)].
              ** apply list_elem_of_In, filter_In in Hv as [Hv Hvd].
                 exists project, versions, v. split; [left|].
                 split; [done|]. split; [done|].
                 split; [by apply list_elem_of_In|done].
              ** exists pr, vs, v. split; [by right|done].
           ++ intros (pr & vs & v & Hpr & Hpd & Hpl & Hv & Hvd & ->).
              apply elem_of_cons in Hpr as [->|Hpr].
              ** left. exists v. split; [done|].
                 assert (vs = versions) by congruence. subst vs.
                 apply list_elem_of_In, filter_In. split; [by apply list_elem_of_In|done].
              ** right. by exists pr, vs, v.
      * left. split; [exists project; split; [left|done]|].
        exists (FileNotFoundError ("No such file or directory: " +:+ path_join root project)).
        unfold run. cbn [for_each]. apply bind_raise.
        unfold bind at 1. unfold isdir at 1, gets at 1. rewrite Hd.
        unfold bind at 1. unfold listdir at 1. by rewrite Hl.
    + assert (Hrun0 : run = for_each contents acc
                  (fun project_dir acc =>
                     let project_dir_path := path_join root project_dir in
                     bind (isdir project_dir_path)
                       (fun is_project =>
                          if is_project
                          then
                            bind (listdir project_dir_path)
                              (fun versions =>
                                 for_each versions acc
                                   (fun version_dir acc =>
                                      bind (isdir (path_join project_dir_path version_dir))
                                        (fun is_version =>
                                           if is_version
                                           then
                                             bind (isdir (path_join project_dir_path
                                                            version_dir))
                                               (fun again =>
                                                  if again
                                                  then ret (acc ++ [path_join project_dir_path
                                                                      version_dir])
                                                  else ret acc)
                                           else ret acc)))
                          else ret acc)) w).
      { unfold run. cbn [for_each]. refine (bind_ok _ _ w acc w _).
        unfold bind at 1. unfold isdir at 1, gets at 1. by rewrite Hd. }
      rewrite Hrun0.
      destruct (IH acc) as [[(pr & Hpr & H1 & H2) [e He]]
                           | [Hall (dirs & Hrun & Hdirs)]].
      * left. split; [exists pr; split; [by right|done]|]. exists e. exact He.
      * right. split.
        { intros pr Hpr Hdir. apply elem_of_cons in Hpr as [->|Hpr];
            [congruence|by apply Hall]. }
        exists dirs. split; [exact Hrun|]. intros p. rewrite Hdirs. split.
        -- intros (pr & vs & v & Hpr & H). exists pr, vs, v. split; [by right|done].
        -- intros (pr & vs & v & Hpr & Hpd & H).
           apply elem_of_cons in Hpr as [->|Hpr]; [congruence|].
           by exists pr, vs, v.
Qed.

(** The walk below one root. *)
Lemma walk_root_cases w root acc :
  (unlistable w root /\ exists e, walk_root root acc w = (Raise e, w))
  \/ (~ unlistable w root
      /\ exists dirs, walk_root root acc w = (Ok (acc ++ dirs), w)
                      /\ forall p, p ∈ dirs <-> version_dir_below w root p).
Proof.
  destruct (fs_listdir w root) as [contents|] eqn:Hroot.
  - assert (Hrun0 : walk_root root acc w
              = for_each contents acc
                  (fun project_dir acc =>
                     let project_dir_path := path_join root project_dir in
                     bind (isdir project_dir_path)
                       (fun is_project =>
                          if is_project
                          then
                            bind (listdir project_dir_path)
                              (fun versions =>
                                 for_each versions acc
                                   (fun version_dir acc =>
                                      bind (isdir (path_join project_dir_path version_dir))
                                        (fun is_version =>
                                           if is_version
                                           then
                                             bind (isdir (path_join project_dir_path
                                                            version_dir))
                                               (fun again =>
                                                  if again
                                                  then ret (acc ++ [path_join project_dir_path
                                                                      version_dir])
                                                  else ret acc)
                                           else ret acc)))
                          else ret acc)) w).
    { unfold walk_root. refine (bind_ok _ _ w contents w _).
      unfold listdir. by rewrite Hroot. }
    rewrite Hrun0.
    destruct (walk_projects w root contents acc)
      as [[(pr & Hpr & H1 & H2) [e He]] | [Hall (dirs & Hrun & Hdirs)]].
    + left. split; [right; by exists contents, pr|]. exists e. exact He.
    + right. split.
      * intros [Hn | (cs & pr & Hcs & Hpr & Hd & Hl)]; [by rewrite Hroot in Hn|].
        assert (cs = contents) by congruence. subst cs. by apply (Hall pr).
      * exists dirs. split; [exact Hrun|]. intros p. rewrite Hdirs.
        unfold version_dir_below. split.
        -- intros (pr & vs & v & H). by exists contents, pr, vs, v.
        -- intros (cs & pr & vs & v & Hcs & H).
           assert (cs = contents) by congruence. subst cs. by exists pr, vs, v.
  - left. split; [by left|].
    exists (FileNotFoundError ("No such file or directory: " +:+ root)).
    unfold walk_root. apply bind_raise. unfold listdir. by rewrite Hroot.
Qed.

End WalkProofs.

Section WalkMore.
Import Py Monad Monad.Notations MonadSpec Sql Admin AdminSpec WalkSpec.

(** X19.  When [_get_filesystem_dirs] returns,
    it lists exactly the directories that lie two levels below the
    finished or the unfinished root: an entry that is no directory is
    passed over at both levels.  It raises exactly when one of the two
    roots, or a directory listed in one of them, cannot be listed. *)
Theorem get_filesystem_dirs_lists (finished_dir unfinished_dir : string) (w : World) :
  let out := _get_filesystem_dirs finished_dir unfinished_dir w in
  (forall l, out.1 = Ok l ->
     forall p, p ∈ l <-> version_dir_below w finished_dir p
                         \/ version_dir_below w unfinished_dir p)
  /\ (is_Raise out.1 = true <-> unlistable w finished_dir \/ unlistable w unfinished_dir).
Proof.
  intros out.
  destruct (walk_root_cases w finished_dir [])
    as [[Hu [e He]] | [Hl (dirs1 & Hd1run & Hd1)]].
  - assert (Hout : out = (Raise e, w)).
    { unfold out, _get_filesystem_dirs, _get_filesystem_dirs_finished.
      by apply bind_raise. }
    rewrite Hout. cbn [fst]. split; [done|]. split; [by left|done].
  - cbn [app] in Hd1run.
    destruct (walk_root_cases w unfinished_dir dirs1)
      as [[Hu [e He]] | [Hl2 (dirs2 & Hd2run & Hd2)]].
    + assert (Hout : out = (Raise e, w)).
      { unfold out, _get_filesystem_dirs, _get_filesystem_dirs_finished,
          _get_filesystem_dirs_unfinished.
        erewrite bind_ok by exact Hd1run. exact He. }
      rewrite Hout. cbn [fst]. split; [done|]. split; [by right|done].
    + assert (Hout : out = (Ok (dirs1 ++ dirs2), w)).
      { unfold out, _get_filesystem_dirs, _get_filesystem_dirs_finished,
          _get_filesystem_dirs_unfinished.
        erewrite bind_ok by exact Hd1run. exact Hd2run. }
      rewrite Hout. cbn [fst is_Raise]. split.
      * intros l [= <-] p. by rewrite elem_of_app, Hd1, Hd2.
      * split; [done|tauto].
Qed.

End WalkMore.

Section AdminDeleteProofs.
Import Py Monad Monad.Notations Pathlib Sql Interaction DeleteSpec DeleteMoreSpec.
Import AdminDelete AdminDeleteSpec.
Variable release_directory_base : Release.t -> Path.
Variable release_directory : Release.t -> Path.






End AdminDeleteProofs.

Section AdminDeleteMore.
Import Py Monad Monad.Notations Pathlib Sql Interaction DeleteSpec DeleteMoreSpec.
Import AdminDelete AdminDeleteSpec.



End AdminDeleteMore.

Section AdminSyncProofs.
Import Py Monad Monad.Notations Sql AdminPages AdminSync AdminSyncSpec.
Variable new_committee : string -> CommitteeRow.
Variable committees_by_name : gmap string Committee.

(** What the loop keeps true. *)
Lemma update_committees_fold ldap_projects : forall added updated table,
  let st := foldl (update_committee new_committee committees_by_name)
                  (added, updated, table) ldap_projects in
  st.1.1 + st.1.2 = added + updated + 2 * length (pmcs ldap_projects)
  /\ st.1.1 = added + size (pmc_names ldap_projects ∖ dom table)
  /\ dom st.2 = dom table ∪ pmc_names ldap_projects
  /\ (forall n, n ∉ pmc_names ldap_projects -> st.2 !! n = table !! n)
  /\ (forall n row, st.2 !! n = Some row -> n ∈ pmc_names ldap_projects ->
        row_is_podling row = false
        /\ row_release_managers row
           = row_release_managers (default (new_committee n) (table !! n))
        /\ exists p, p ∈ pmcs ldap_projects /\ ldap_name p = n
                     /\ row_committee_members row = ldap_owners p
                     /\ row_committers row = ldap_members p).
Proof.
  induction ldap_projects as [|p ps IH]; intros added updated table st.
  - subst st. cbn. unfold pmc_names. cbn.
    assert (He : (∅ : gset string) ∖ dom table = ∅).
    { apply set_eq. intros x. rewrite elem_of_difference, elem_of_empty. tauto. }
    rewrite He, size_empty, !Nat.add_0_r.
    split; [done|]. split; [done|]. split; [by rewrite (right_id_L ∅ (∪))|].
    split; [done|]. intros n row _ Hn. by apply elem_of_empty in Hn.
  - destruct (bool_decide (ldap_pmc p = Some true)) eqn:Hpmc.
    2:{ assert (Hstep : update_committee new_committee committees_by_name
                          (added, updated, table) p = (added, updated, table)).
        { unfold update_committee. by rewrite Hpmc. }
        assert (Hpmcs : pmcs (p :: ps) = pmcs ps).
        { unfold pmcs. cbn [List.filter]. by rewrite Hpmc. }
        subst st. cbn [foldl]. rewrite Hstep. unfold pmc_names. rewrite Hpmcs.
        apply IH. }
    set (name := ldap_name p).
    set (row := match committees_by_name !! name with
                | Some info =>
                    mkCommitteeRow
                      (row_name (default (new_committee name) (table !! name)))
                      (Some (committee_display_name info)) false
                      (ldap_owners p) (ldap_members p)
                      (row_release_managers
                         (default (new_committee name) (table !! name)))
                | None =>
                    mkCommitteeRow
                      (row_name (default (new_committee name) (table !! name)))
                      (row_full_name (default (new_committee name) (table !! name)))
                      false (ldap_owners p) (ldap_members p)
                      (row_release_managers
                         (default (new_committee name) (table !! name)))
                end).
    assert (Hstep : update_committee new_committee committees_by_name
                      (added, updated, table) p
                    = (match table !! name with Some _ => added | None => added + 1 end,
                       match table !! name with
                       | Some _ => updated + 1 | None => updated end + 1,
                       <[name := row]> table)).
    { unfold update_committee. rewrite Hpmc. cbn [negb]. fold name.
      unfold row. by destruct (committees_by_name !! name). }
    assert (Hpmcs : pmcs (p :: ps) = p :: pmcs ps).
    { unfold pmcs. cbn [List.filter]. by rewrite Hpmc. }
    assert (Hnames : pmc_names (p :: ps) = {[name]} ∪ pmc_names ps).
    { unfold pmc_names. rewrite Hpmcs, fmap_cons. apply list_to_set_cons. }
    subst st. cbn [foldl]. rewrite Hstep, Hpmcs, Hnames.
    destruct (IH (match table !! name with Some _ => added | None => added + 1 end)
                 (match table !! name with Some _ => updated + 1 | None => updated end
                  + 1)
                 (<[name := row]> table))
      as (Hsum & Hadd & Hdom & Hother & Hrows).
    cbv zeta in Hsum, Hadd, Hdom, Hother, Hrows.
    split; [|split; [|split; [|split]]].
    + rewrite Hsum. cbn [length]. destruct (table !! name); lia.
    + rewrite Hadd, dom_insert_L.
      destruct (table !! name) as [old|] eqn:Hold.
      * f_equal. f_equal. apply set_eq. intros n.
        rewrite !elem_of_difference, !elem_of_union, !elem_of_singleton, !elem_of_dom.
        split; [tauto|]. intros [Hor Hn].
        assert (n <> name) by (intros ->; apply Hn; by eexists).
        destruct Hor; [done|tauto].
      * rewrite <- Nat.add_assoc. f_equal.
        assert (Hsplit : ({[name]} ∪ pmc_names ps) ∖ dom table
                         = {[name]} ∪ (pmc_names ps ∖ ({[name]} ∪ dom table))).
        { apply set_eq. intros n.
          rewrite !elem_of_union, !elem_of_difference, !elem_of_union,
            !elem_of_singleton, !elem_of_dom.
          destruct (decide (n = name)) as [->|Hne]; [|tauto].
          rewrite Hold. split; [tauto|]. intros _. split; [by left|].
          by intros [? ?]. }
        rewrite Hsplit.
        rewrite (size_union ({[name]} : gset string)).
        2:{ apply disjoint_singleton_l.
            rewrite elem_of_difference, elem_of_union, elem_of_singleton. tauto. }
        by rewrite size_singleton.
    + rewrite Hdom, dom_insert_L. apply set_eq. intros n.
      rewrite !elem_of_union. tauto.
    + intros n Hn. apply not_elem_of_union in Hn as [Hn1 Hn2].
      rewrite Hother by done. rewrite lookup_insert_ne; [done|].
      intros ->. apply Hn1. by apply elem_of_singleton.
    + intros n r Hr Hn.
      destruct (decide (n ∈ pmc_names ps)) as [Hin|Hnin].
      * destruct (Hrows n r Hr Hin) as (Hpod & Hrm & q & Hq & Hqn & Hm & Hc).
        split; [done|]. split.
        -- rewrite Hrm. destruct (decide (n = name)) as [->|Hne].
           ++ rewrite lookup_insert_eq. cbn [from_option id].
              unfold row. by destruct (committees_by_name !! name).
           ++ by rewrite lookup_insert_ne.
        -- exists q. split; [by right|done].
      * apply elem_of_union in Hn as [Hn|Hn]; [|done].
        apply elem_of_singleton in Hn. subst n.
        rewrite Hother in Hr by done. rewrite lookup_insert_eq in Hr.
        injection Hr as <-. unfold row.
        split; [by destruct (committees_by_name !! name)|].
        split; [by destruct (committees_by_name !! name)|].
        exists p. split; [left|]. split; [done|].
        by destruct (committees_by_name !! name).
Qed.

End AdminSyncProofs.

Section AdminSyncMore.
Import Py Monad Monad.Notations Sql AdminPages AdminSync AdminSyncSpec.

(** X21.  [_update_committees] goes through the
    LDAP projects that are PMCs and passes over the others.  The two
    counts it returns add up to twice the number of PMCs, a new committee
    being counted as added and as updated, and an existing one as
    updated twice; the added count is the number of PMC names that had
    no row.  Afterwards every PMC name has a row, which is no podling,
    keeps its release managers and has the owners of an LDAP project of
    that name as members and its members as committers; the rows of all
    other names are as they were. *)
Theorem update_committees_counts (new_committee : string -> CommitteeRow)
    (ldap_projects : list LDAPProject) (committees_by_name : gmap string Committee)
    (table : gmap string CommitteeRow) :
  let out := _update_committees new_committee ldap_projects committees_by_name table in
  exists added_count updated_count,
    out.1 = Ok (added_count, updated_count)
    /\ added_count + updated_count = 2 * length (pmcs ldap_projects)
    /\ added_count = size (pmc_names ldap_projects ∖ dom table)
    /\ dom out.2 = dom table ∪ pmc_names ldap_projects
    /\ (forall n, n ∉ pmc_names ldap_projects -> out.2 !! n = table !! n)
    /\ (forall n row, out.2 !! n = Some row -> n ∈ pmc_names ldap_projects ->
          row_is_podling row = false
          /\ row_release_managers row
             = row_release_managers (default (new_committee n) (table !! n))
          /\ exists p, p ∈ pmcs ldap_projects /\ ldap_name p = n
                       /\ row_committee_members row = ldap_owners p
                       /\ row_committers row = ldap_members p).
Proof.
  intros out. subst out. unfold _update_committees. cbn [fst snd].
  destruct (update_committees_fold new_committee committees_by_name
              ldap_projects 0 0 table) as (Hsum & Hadd & Hrest).
  cbv zeta in Hsum, Hadd, Hrest.
  eexists _, _. split; [reflexivity|]. split; [|split]; [lia|lia|exact Hrest].
Qed.

End AdminSyncMore.

Section ReleasesProofs.
Import Py Sql InteractionReleases ReleasesSpec.

Global Instance newer_first_total : Total newer_first.
Proof. intros a b. unfold newer_first. lia. Qed.

Global Instance newer_first_trans : Transitive newer_first.
Proof. intros a b c. unfold newer_first. lia. Qed.

Lemma elem_of_by_phase table project phase r :
  r ∈ releases_by_phase table project phase
  <-> exists d, d ∈ table /\ Release.project_name (row d) = name project
                /\ Release.phase (row d) = phase /\ r = of_project project d.
Proof.
  unfold releases_by_phase. rewrite list_elem_of_fmap.
  setoid_rewrite merge_sort_Permutation.
  setoid_rewrite list_elem_of_In. setoid_rewrite filter_In.
  setoid_rewrite andb_true_iff. setoid_rewrite String.eqb_eq.
  setoid_rewrite bool_decide_eq_true. unfold of_project.
  split; intros (d & H); exists d; tauto.
Qed.

Lemma by_phase_sorted table project phase :
  Sorted newer_first (releases_by_phase table project phase).
Proof.
  unfold releases_by_phase.
  assert (H : forall l, Sorted newer_first l ->
            Sorted newer_first
              ((fun release => mkDated (row release) (created release) (Some project))
                 <$> l)).
  { induction 1 as [|x l Hl IH Hhd]; [constructor|].
    rewrite fmap_cons. constructor; [exact IH|].
    destruct Hhd as [|y l' Hxy]; [constructor|]. rewrite fmap_cons. by constructor. }
  apply H, Sorted_merge_sort, _.
Qed.

Lemma dict_set_elem {V} (k : string) (v : V) d kv :
  kv ∈ dict_set k v d -> kv = (k, v) \/ kv ∈ d.
Proof.
  induction d as [|[k' v'] d IH]; cbn [dict_set].
  - intros H. apply list_elem_of_singleton in H. by left.
  - destruct (String.eqb k' k).
    + intros H. apply elem_of_cons in H as [H|H]; [by left|].
      right. by apply list_elem_of_further.
    + intros H. apply elem_of_cons in H as [H|H].
      * right. rewrite H. apply list_elem_of_here.
      * destruct (IH H) as [?|?]; [by left|]. right. by apply list_elem_of_further.
Qed.

Lemma dict_set_keys {V} (k : string) (v : V) d k0 :
  k0 ∈ (dict_set k v d).*1 <-> k0 = k \/ k0 ∈ d.*1.
Proof.
  induction d as [|[k' v'] d IH]; cbn [dict_set].
  - rewrite fmap_cons, !fmap_nil. cbn [fst]. rewrite list_elem_of_singleton.
    split; [by left|]. intros [H|H]; [done|by apply elem_of_nil in H].
  - destruct (String.eqb k' k) eqn:E.
    + apply String.eqb_eq in E as ->. rewrite !fmap_cons. cbn [fst].
      rewrite !elem_of_cons. tauto.
    + rewrite !fmap_cons. cbn [fst]. rewrite !elem_of_cons, IH. tauto.
Qed.

Lemma dict_set_NoDup {V} (k : string) (v : V) d :
  NoDup d.*1 -> NoDup (dict_set k v d).*1.
Proof.
  induction d as [|[k' v'] d IH]; cbn [dict_set].
  - intros _. rewrite fmap_cons, fmap_nil. apply NoDup_singleton.
  - rewrite fmap_cons. cbn [fst]. intros Hnd. apply NoDup_cons in Hnd as [Hk Hnd].
    destruct (String.eqb k' k) eqn:E.
    + apply String.eqb_eq in E as ->. rewrite fmap_cons. cbn [fst].
      by apply NoDup_cons.
    + apply String.eqb_neq in E. rewrite fmap_cons. cbn [fst].
      apply NoDup_cons. split; [|by apply IH].
      rewrite dict_set_keys. intros [H|H]; [done|done].
Qed.

(** One turn of the loop of [unfinished_releases]: nothing for a project
    with no release in progress, otherwise its releases in progress set
    at its short name. *)
Lemma unfinished_of_cases table acc q :
  ((forall d, ~ in_progress table q d) /\ unfinished_of table acc q = acc)
  \/ exists l, (forall d, d ∈ l <-> in_progress table q d) /\ l <> []
               /\ Sorted newer_first l
               /\ unfinished_of table acc q
                  = dict_set (short_display_name q) l acc.
Proof.
  unfold unfinished_of.
  set (f := fun d => String.eqb (Release.project_name (row d)) (name q)
                     && bool_decide (Release.phase (row d) ∈ active_phases)).
  assert (Hf : forall d, d ∈ merge_sort newer_first (List.filter f table)
                         <-> in_progress table q d).
  { intros d. rewrite merge_sort_Permutation, list_elem_of_In, filter_In.
    unfold f, in_progress. rewrite andb_true_iff, String.eqb_eq,
      bool_decide_eq_true, <- list_elem_of_In. tauto. }
  destruct (merge_sort newer_first (List.filter f table)) as [|d0 l0] eqn:E.
  - left. split; [|reflexivity]. intros d Hd. apply Hf in Hd.
    by apply elem_of_nil in Hd.
  - right. exists (merge_sort newer_first (d0 :: l0)). split; [|split; [|split]].
    + intros d. by rewrite merge_sort_Permutation.
    + intros Heq. pose proof (merge_sort_Permutation newer_first (d0 :: l0)) as Hp.
      rewrite Heq in Hp. by apply Permutation_nil_l in Hp.
    + apply Sorted_merge_sort, _.
    + reflexivity.
Qed.

End ReleasesProofs.

Section ReleasesMore.
Import Py Sql InteractionReleases ReleasesSpec.

(** X22.  [releases_in_progress] returns the
    releases of the project that are candidate drafts, candidates or
    previews, each with the project set, and no other: never a finished
    release, which [full_releases] returns instead.  The list has the
    drafts first, then the candidates, then the previews, each part
    newest first. *)
Theorem releases_in_progress_phases (table : list Dated) (project : Project) :
  (forall r, r ∈ releases_in_progress table project
             <-> exists d, in_progress table project d /\ r = of_project project d)
  /\ (forall r, r ∈ releases_in_progress table project ->
                Release.phase (row r) <> RELEASE
                /\ r ∉ full_releases table project)
  /\ releases_in_progress table project
     = candidate_drafts table project ++ candidates table project
         ++ previews table project
  /\ Forall (fun r => Release.phase (row r) = RELEASE_CANDIDATE_DRAFT)
            (candidate_drafts table project)
  /\ Forall (fun r => Release.phase (row r) = RELEASE_CANDIDATE)
            (candidates table project)
  /\ Forall (fun r => Release.phase (row r) = RELEASE_PREVIEW)
            (previews table project)
  /\ Sorted newer_first (candidate_drafts table project)
  /\ Sorted newer_first (candidates table project)
  /\ Sorted newer_first (previews table project).
Proof.
  assert (Hmem : forall r, r ∈ releases_in_progress table project
             <-> exists d, in_progress table project d /\ r = of_project project d).
  { intros r. unfold releases_in_progress, candidate_drafts, candidates, previews.
    rewrite !elem_of_app, !elem_of_by_phase. unfold in_progress, active_phases.
    split.
    - intros [(d & H1 & H2 & H3 & H4) | [(d & H1 & H2 & H3 & H4) | (d & H1 & H2 & H3 & H4)]];
        exists d; rewrite H3; repeat split; try done.
      + apply list_elem_of_here.
      + apply list_elem_of_further, list_elem_of_here.
      + do 2 apply list_elem_of_further. apply list_elem_of_here.
    - intros (d & (H1 & H2 & H3) & H4).
      repeat (apply elem_of_cons in H3 as [H3|H3]);
        [left|right; left|right; right|by apply elem_of_nil in H3]; by exists d. }
  assert (Hphase : forall phase,
            Forall (fun r => Release.phase (row r) = phase)
                   (releases_by_phase table project phase)).
  { intros phase. apply Forall_forall. intros r Hr.
    apply elem_of_by_phase in Hr as (d & _ & _ & Hp & ->). exact Hp. }
  split; [exact Hmem|]. split.
  { intros r Hr. apply Hmem in Hr as (d & (H1 & H2 & H3) & ->).
    assert (Hne : Release.phase (row d) <> RELEASE).
    { intros Heq. rewrite Heq in H3. unfold active_phases in H3.
      repeat (apply elem_of_cons in H3 as [H3|H3]; [discriminate|]).
      by apply elem_of_nil in H3. }
    split; [exact Hne|]. unfold full_releases. rewrite elem_of_by_phase.
    intros (d' & _ & _ & Hp & Heq). apply Hne.
    apply (f_equal row) in Heq. cbn in Heq. by rewrite Heq. }
  split; [reflexivity|].
  repeat (split; [apply Hphase|]).
  repeat split; apply by_phase_sorted.
Qed.

(** X23.  [unfinished_releases] gives one
    entry for each short display name: a list that is not empty, newest
    first, and that holds exactly the candidate drafts, candidates and
    previews of one of the user's projects with that short name.  Every
    project of the user that has such a release has its short name among
    the keys; a project that has none adds no key. *)
Theorem unfinished_releases_entries (table : list Dated) (user_projects : list Project) :
  NoDup (unfinished_releases table user_projects).*1
  /\ (forall k l, (k, l) ∈ unfinished_releases table user_projects ->
        l <> [] /\ Sorted newer_first l
        /\ exists p, p ∈ user_projects /\ short_display_name p = k
                     /\ forall d, d ∈ l <-> in_progress table p d)
  /\ (forall p, p ∈ user_projects ->
        (exists d, in_progress table p d) ->
        short_display_name p ∈ (unfinished_releases table user_projects).*1)
  /\ (forall k, k ∈ (unfinished_releases table user_projects).*1 ->
        exists p d, p ∈ user_projects /\ short_display_name p = k
                    /\ in_progress table p d).
Proof.
  unfold unfinished_releases.
  assert (Hps : forall p, p ∈ merge_sort by_display_name user_projects
                          <-> p ∈ user_projects).
  { intros p. by rewrite merge_sort_Permutation. }
  revert Hps. generalize (merge_sort by_display_name user_projects) as ps.
  intros ps Hps.
  set (good := fun (k : string) (l : list Dated) =>
         l <> [] /\ Sorted newer_first l
         /\ exists p, p ∈ ps /\ short_display_name p = k
                      /\ forall d, d ∈ l <-> in_progress table p d).
  assert (Hfold : forall qs acc,
            (forall q, q ∈ qs -> q ∈ ps) ->
            NoDup acc.*1 -> (forall k l, (k, l) ∈ acc -> good k l) ->
            NoDup (foldl (unfinished_of table) acc qs).*1
            /\ (forall k l, (k, l) ∈ foldl (unfinished_of table) acc qs -> good k l)
            /\ (forall k, k ∈ acc.*1 -> k ∈ (foldl (unfinished_of table) acc qs).*1)
            /\ (forall q, q ∈ qs -> (exists d, in_progress table q d) ->
                  short_display_name q ∈ (foldl (unfinished_of table) acc qs).*1)).
  { induction qs as [|q qs IH]; intros acc Hqs Hnd Hgood; cbn [foldl].
    { split; [done|]. split; [done|]. split; [done|].
      intros q Hq. by apply elem_of_nil in Hq. }
    destruct (unfinished_of_cases table acc q) as [[Hnone Hstep] | (l & Hl & Hne & Hsorted & Hstep)].
    - rewrite Hstep.
      destruct (IH acc) as (H1 & H2 & H3 & H4);
        [by intros q' Hq'; apply Hqs, list_elem_of_further| done | done |].
      split; [done|]. split; [done|]. split; [done|].
      intros q' Hq' Hex. apply elem_of_cons in Hq' as [->|Hq']; [|by apply H4].
      destruct Hex as (d & Hd). by destruct (Hnone d).
    - rewrite Hstep.
      destruct (IH (dict_set (short_display_name q) l acc)) as (H1 & H2 & H3 & H4).
      + by intros q' Hq'; apply Hqs, list_elem_of_further.
      + by apply dict_set_NoDup.
      + intros k l' Hin. apply dict_set_elem in Hin as [Heq|Hin]; [|by apply Hgood].
        injection Heq as -> ->. split; [done|]. split; [done|].
        exists q. split; [apply Hqs, list_elem_of_here|]. split; [done|exact Hl].
      + split; [done|]. split; [done|]. split.
        * intros k Hk. apply H3, dict_set_keys. by right.
        * intros q' Hq' Hex. apply elem_of_cons in Hq' as [->|Hq']; [|by apply H4].
          apply H3, dict_set_keys. by left. }
  destruct (Hfold ps []) as (H1 & H2 & _ & H4); try done.
  { constructor. }
  { intros k l Hin. by apply elem_of_nil in Hin. }
  split; [exact H1|]. split; [|split].
  - intros k l Hin. destruct (H2 k l Hin) as (Hne & Hs & p & Hp & Hk & Hd).
    split; [done|]. split; [done|]. exists p. by rewrite <- Hps.
  - intros p Hp Hex. apply H4; [by apply Hps|done].
  - intros k Hk. apply list_elem_of_fmap in Hk as ([k' l] & -> & Hin).
    destruct (H2 k' l Hin) as (Hne & _ & p & Hp & Hk & Hd).
    destruct l as [|d l]; [done|]. exists p, d.
    split; [by apply Hps|]. split; [exact Hk|]. apply Hd, list_elem_of_here.
Qed.

End ReleasesMore.
